(** * ADIZ event-response analysis: windowing, baseline statistics and the
      reactive / pre-planned classifier

    A shallow embedding of [js/core/utils.js], [js/core/schema.js],
    [js/core/dataConnector.js] and of the analyzers [singleEvent.js],
    [categoryAnalyzer.js], [abCompare.js] and [preplannedReactive.js].

    Modelling conventions.
    - A JavaScript number is an exact rational ([Q]); the non-finite results
      of a division ([Infinity], [-Infinity], [NaN]) are kept apart in [num].
    - A calendar date, the ISO string ["YYYY-MM-DD"], is its day number,
      the days elapsed since 1970-01-01.  A [Date] object is its time
      value, the milliseconds elapsed since 1970-01-01T00:00Z.
      [new Date(string)] and [toISOString] work at UTC; [getDate],
      [setDate] and [getMonth] work on the local clock, which is a
      parameter of the model ([Zone]).
    - [undefined] / [null] are [None].
    - A thrown [Error] is its message; a [TypeError] of the runtime is
      ["TypeError"].
    - The records of [DATA] have the documented shape; what [validate]
      inspects (presence and array-ness of the collections) is kept.  The
      object handed to [loadFromObject] is a [Payload]: [DATA] whose arrays
      may hold [null] in the place of a record.
    - Explanation strings and [toFixed] formatting are presentation and are
      left out of the records. *)

From Stdlib Require Import ZArith QArith Qminmax Qabs Lia Lqa Bool Ascii String Sorted.
From stdpp Require Import base option list gmap strings.

Local Open Scope Z_scope.

(** ** JavaScript numbers *)

Inductive num : Type :=
  | Fin (q : Q)
  | PInf
  | NInf
  | NaN.

Definition Qlt_bool (a b : Q) : bool := negb (Qle_bool b a).

(** [a / b] on finite operands. *)
Definition js_div (a b : Q) : num :=
  if Qeq_bool b 0 then
    if Qeq_bool a 0 then NaN
    else if Qlt_bool 0 a then PInf else NInf
  else Fin (a / b).

(** [x > c], [x >= c], [x <= c], [x < c] against a finite constant; every
    comparison with [NaN] is false. *)
Definition num_gt (x : num) (c : Q) : bool :=
  match x with
  | Fin q => Qlt_bool c q
  | PInf => true
  | NInf | NaN => false
  end.

Definition num_ge (x : num) (c : Q) : bool :=
  match x with
  | Fin q => Qle_bool c q
  | PInf => true
  | NInf | NaN => false
  end.

Definition num_le (x : num) (c : Q) : bool :=
  match x with
  | Fin q => Qle_bool q c
  | NInf => true
  | PInf | NaN => false
  end.

Definition num_lt (x : num) (c : Q) : bool :=
  match x with
  | Fin q => Qlt_bool q c
  | NInf => true
  | PInf | NaN => false
  end.

(** [c - x] for a finite constant [c]. *)
Definition num_rsub (c : Q) (x : num) : num :=
  match x with
  | Fin q => Fin (c - q)
  | PInf => NInf
  | NInf => PInf
  | NaN => NaN
  end.

(** [Math.abs(x - c) * k] for finite [c] and positive finite [k]. *)
Definition num_abs_diff_times (x : num) (c k : Q) : num :=
  match x with
  | Fin q => Fin (Qabs (q - c) * k)
  | PInf | NInf => PInf
  | NaN => NaN
  end.

(** A value [rat + coef * sqrt radicand]: the shape of every quantity that
    [Math.sqrt] enters ([stdDev] and the sums and differences built on it). *)
Record Surd : Type := mkSurd { rat : Q; coef : Q; radicand : Q }.

(** [m + s] and [m - s] for a rational [m]. *)
Definition surd_add (m : Q) (s : Surd) : Surd :=
  mkSurd (m + rat s) (coef s) (radicand s).

Definition surd_sub (m : Q) (s : Surd) : Surd :=
  mkSurd (m - rat s) (- coef s) (radicand s).

(** [Math.max(0, s)] for [s] with a non-positive coefficient: [s] is
    non-negative exactly when its rational part is and dominates the root. *)
Definition surd_max0 (s : Surd) : Surd :=
  if Qle_bool 0 (rat s)
     && Qle_bool (coef s * coef s * radicand s) (rat s * rat s)
  then s else mkSurd 0 0 0.

(** [a || b] on optional numbers: [0] is falsy. *)
Definition num_or (a : option Z) (b : Z) : Z :=
  match a with
  | Some v => if v =? 0 then b else v
  | None => b
  end.

(** [a || b] on optional strings: the empty string is falsy. *)
Definition str_or (a b : option string) : option string :=
  match a with
  | Some s => if String.eqb s EmptyString then b else a
  | None => b
  end.

Definition Qsum (l : list Q) : Q := foldl Qplus 0%Q l.

Definition Qlen {A} (l : list A) : Q := inject_Z (Z.of_nat (List.length l)).

(** [for (let i = lo; i <= hi; i++) out.push(i)], the shape of the offset
    and index loops; [fuel] bounds the number of iterations. *)
Fixpoint for_upto (fuel : nat) (i hi : Z) : list Z :=
  match fuel with
  | O => []
  | S k => if i <=? hi then i :: for_upto k (i + 1) hi else []
  end.

(** The loop from [lo] to [hi] runs [hi - lo + 1] times. *)
Definition range (lo hi : Z) : list Z :=
  for_upto (Z.to_nat (hi - lo + 1)) lo hi.

(** [l.slice(a, b)] for non-negative [a] and [b]. *)
Definition slice {A} (a b : Z) (l : list A) : list A :=
  take (Z.to_nat (b - a)) (drop (Z.to_nat a) l).

(** [l.slice(-k)]: the last [k] elements. *)
Definition slice_last {A} (k : nat) (l : list A) : list A :=
  drop (List.length l - k)%nat l.

(** [l.sort((a, b) => key(a) - key(b))] on rational keys: stable, ascending. *)
Fixpoint insert_by {A} (key : A -> Q) (x : A) (l : list A) : list A :=
  match l with
  | [] => [x]
  | y :: ys => if Qlt_bool (key y) (key x) then y :: insert_by key x ys else x :: y :: ys
  end.

Definition sort_by {A} (key : A -> Q) (l : list A) : list A :=
  foldr (insert_by key) [] l.

(** ** utils.js *)

(** ** The local clock *)

(** The time zone of the runtime as [Date] uses it: the offset of local
    time from UTC, in milliseconds, at a time value ([tza_utc]) and at a
    reading of the local clock ([tza_local]).  A reading that the clock
    skips or shows twice is taken with the offset from before the change. *)
Class Zone : Type := mkZone { tza_utc : Z -> Z; tza_local : Z -> Z }.

Definition msPerHour : Z := 1000 * 60 * 60.
Definition msPerDay : Z := 1000 * 60 * 60 * 24.

Definition utc : Zone := {| tza_utc := fun _ => 0; tza_local := fun _ => 0 |}.

(** America/New_York with its two clock changes of 2024: five hours behind
    UTC until 2024-03-10T07:00Z, four hours behind until 2024-11-03T06:00Z,
    five hours behind afterwards. *)
Definition new_york : Zone :=
  let spring := 19792 * msPerDay + 7 * msPerHour in
  let autumn := 20030 * msPerDay + 6 * msPerHour in
  {| tza_utc := fun t =>
       if t <? spring then -5 * msPerHour
       else if t <? autumn then -4 * msPerHour
       else -5 * msPerHour;
     tza_local := fun t =>
       if t <? spring - 4 * msPerHour then -5 * msPerHour
       else if t <? autumn - 4 * msPerHour then -4 * msPerHour
       else -5 * msPerHour |}.

(** A zone whose clock never changes: one offset at every time. *)
Class Steady (tz : Zone) : Prop :=
  steady : exists c, (forall t, @tza_utc tz t = c) /\ (forall t, @tza_local tz t = c).

Module Utils.

(** A stored baseline record [{Date, ADIZ_count}]; a count that
    [parseFloat] cannot read is [None]. *)
Record BaselineEntry : Type := mkEntry { Date : Z; ADIZ_count : option Q }.

Record WindowPoint : Type := mkPoint {
  date : Z;
  adiz_count : Q;
  days_from_event : Z
}.

Record BaselineStats : Type := mkStats {
  mean_ : Q;
  stdDev_ : Surd;
  max_ : Q;
  min_ : Q;
  count : Z
}.

Record Peak : Type := mkPeak { days : Z; value : Q; peak_date : Z }.

(** [new Date(dateStr)]: midnight UTC of the day. *)
Definition parseDate (dateStr : Z) : Z := dateStr * msPerDay.

(** [date.toISOString().split('T')[0]]: the UTC day of a time value. *)
Definition formatDate (date : Z) : Z := date / msPerDay.

(** [Math.floor((d2 - d1) / 86400000)] on two date strings, that is on two
    midnights UTC. *)
Definition daysDiff (date1 date2 : Z) : Z := date2 - date1.

(** The civil date [(year, month, day)] of a day number: what
    [getFullYear()], [getMonth() + 1] and [getDate()] read. *)
Definition civil (d : Z) : Z * Z * Z :=
  let z := d + 719468 in
  let era := z / 146097 in
  let doe := z - era * 146097 in
  let yoe := (doe - doe / 1460 + doe / 36524 - doe / 146096) / 365 in
  let doy := doe - (365 * yoe + yoe / 4 - yoe / 100) in
  let mp := (5 * doy + 2) / 153 in
  let dd := doy - (153 * mp + 2) / 5 + 1 in
  let m := if mp <? 10 then mp + 3 else mp - 9 in
  let y := yoe + era * 400 + (if m <=? 2 then 1 else 0) in
  (y, m, dd).

Definition getFullYear (d : Z) : Z := fst (fst (civil d)).
Definition getMonth1 (d : Z) : Z := snd (fst (civil d)).
Definition getDate (d : Z) : Z := snd (civil d).

(** The local day of a time value: what [getFullYear()], [getMonth()] and
    [getDate()] read the civil date of. *)
Definition localDay `{Zone} (date : Z) : Z := (date + tza_utc date) / msPerDay.

(** [result.setDate(result.getDate() + days)] on a time value: the local
    clock reading is moved by whole days, its time of day kept, and read
    back as a time value. *)
Definition addDays `{Zone} (date days : Z) : Z :=
  let t := date + tza_utc date in
  let newDate := (t / msPerDay + days) * msPerDay + t mod msPerDay in
  newDate - tza_local newDate.

(** [for (let d = new Date(start); d <= end; d = this.addDays(d, 1))]: the
    time values the loop visits.  [fuel] bounds the number of rounds. *)
Fixpoint for_each_day `{Zone} (fuel : nat) (d end_ : Z) : list Z :=
  match fuel with
  | O => []
  | S k => if d <=? end_ then d :: for_each_day k (addDays d 1) end_ else []
  end.

(** The loop with one round of fuel for every hour from [start] to [end_],
    and one more: enough whenever a day of the local clock lasts an hour
    or longer. *)
Definition each_day `{Zone} (start end_ : Z) : list Z :=
  for_each_day (Z.to_nat ((end_ - start) / msPerHour + 1)) start end_.

(** [parseFloat(entry.ADIZ_count) || 0] *)
Definition parseCount (c : option Q) : Q := default 0%Q c.

Definition createBaselineMap (adiz_baseline : list BaselineEntry) : gmap Z Q :=
  foldl (fun m entry => <[Date entry := parseCount (ADIZ_count entry)]> m)
        ∅ adiz_baseline.

(** [baselineMap.get(dateStr) || 0] *)
Definition getADIZCount (d : Z) (baselineMap : gmap Z Q) : Q :=
  match baselineMap !! d with
  | Some c => if Qeq_bool c 0 then 0%Q else c
  | None => 0%Q
  end.

Definition getDateWindow `{Zone} (eventDate windowSize : Z) : list Z :=
  let start := addDays (parseDate eventDate) (- windowSize) in
  let end_ := addDays (parseDate eventDate) windowSize in
  map formatDate (each_day start end_).

Definition getWindowData `{Zone} (eventDate windowSize : Z) (baselineMap : gmap Z Q)
  : list WindowPoint :=
  let dates := getDateWindow eventDate windowSize in
  map (fun d => {| date := d;
                   adiz_count := getADIZCount d baselineMap;
                   days_from_event := daysDiff eventDate d |}) dates.

(** [values.reduce((a, b) => a + b, 0) / values.length], or [0] on the
    empty list.  Sum and quotient are the exact ones; the source rounds
    each to the nearest double, so the mean of a list need not lie between
    its least and greatest element there, and nothing below says it does. *)
Definition mean (values : list Q) : Q :=
  match values with
  | [] => 0%Q
  | _ => (Qsum values / Qlen values)%Q
  end.

(** The population variance; [stdDev] is its square root. *)
Definition variance (values : list Q) : Q :=
  let avg := mean values in
  mean (map (fun v => ((v - avg) * (v - avg))%Q) values).

Definition stdDev (values : list Q) : Surd :=
  match values with
  | [] => mkSurd 0 0 0
  | _ => mkSurd 0 1 (variance values)
  end.

Definition max (values : list Q) : Q :=
  match values with
  | [] => 0%Q
  | v :: vs => foldl Qmax v vs
  end.

Definition min (values : list Q) : Q :=
  match values with
  | [] => 0%Q
  | v :: vs => foldl Qmin v vs
  end.

Definition getBaselineStats `{Zone} (eventDate baselineDays : Z)
    (baselineMap : gmap Z Q) : BaselineStats :=
  let baselineEnd := addDays (parseDate eventDate) (-1) in
  let baselineStart := addDays baselineEnd (- baselineDays) in
  let values :=
    map (fun d => getADIZCount (formatDate d) baselineMap)
        (each_day baselineStart baselineEnd) in
  {| mean_ := mean values;
     stdDev_ := stdDev values;
     max_ := max values;
     min_ := min values;
     count := Z.of_nat (List.length values) |}.

(** [postEvent.reduce((max, curr) => curr.adiz_count > max.adiz_count ? curr : max)] *)
Definition getTimeToPeak (windowData : list WindowPoint) : option Peak :=
  let postEvent := List.filter (fun d => 0 <=? days_from_event d) windowData in
  match postEvent with
  | [] => None
  | p :: ps =>
      let maxEntry :=
        foldl (fun mx curr =>
                 if Qlt_bool (adiz_count mx) (adiz_count curr) then curr else mx)
              p ps in
      Some {| days := days_from_event maxEntry;
              value := adiz_count maxEntry;
              peak_date := date maxEntry |}
  end.

(** [d.adiz_count > rat + coef * sqrt(radicand)] for [coef], [radicand]
    non-negative, decided without leaving the rationals. *)
Definition above (c : Q) (threshold : Surd) : bool :=
  let r := (c - rat threshold)%Q in
  Qlt_bool 0 r
  && Qlt_bool (coef threshold * coef threshold * radicand threshold) (r * r).

Definition getPersistence (windowData : list WindowPoint) (threshold : Surd) : Z :=
  Z.of_nat (List.length
    (List.filter (fun d => (0 <=? days_from_event d) && above (adiz_count d) threshold)
                 windowData)).

End Utils.


(** ** schema.js *)

Module DataSchema.

(** A raw record of an event collection: its two possible date
    properties and its string-valued properties by name. *)
Record RawEvent : Type := mkRaw {
  prop_date : option Z;
  prop_Date : option Z;
  props : gmap string string
}.

Inductive DateField : Type := field_date | field_Date.

Record Config : Type := mkConfig { date_field : DateField; category_of : string }.

(** The [events] table, in the order of its keys. *)
Definition events : list (string * Config) :=
  [ ("arms_sales", mkConfig field_date "arms");
    ("diplomatic", mkConfig field_Date "diplomatic");
    ("bills", mkConfig field_Date "bills");
    ("ships", mkConfig field_Date "ships");
    ("political_symbolic", mkConfig field_date "political") ]%string.

Fixpoint lookup_config (name : string) (tbl : list (string * Config)) : option Config :=
  match tbl with
  | [] => None
  | (k, c) :: rest => if String.eqb k name then Some c else lookup_config name rest
  end.

Definition read_date (f : DateField) (raw : RawEvent) : option Z :=
  match f with
  | field_date => prop_date raw
  | field_Date => prop_Date raw
  end.

(** A property interpolated in a template literal. *)
Definition tmpl (o : option string) : string := default "undefined"%string o.

Definition getEventLabel (dataset_name : string) (event : RawEvent) : option string :=
  let p name := props event !! name in
  if String.eqb dataset_name "arms_sales" then
    str_or (Some (tmpl (substring 0 50 <$> p "weapon_sale"%string) ++ "...")%string)
           (Some "Arms Sale"%string)
  else if String.eqb dataset_name "diplomatic" then
    str_or (Some (tmpl (substring 0 50 <$> p "Descriptor"%string) ++ "...")%string)
           (Some "Diplomatic Event"%string)
  else if String.eqb dataset_name "bills" then
    Some (tmpl (p "Bill_ID"%string) ++ " - " ++ tmpl (p "Milestone"%string))%string
  else if String.eqb dataset_name "ships" then
    Some (tmpl (p "Country"%string) ++ " - " ++ tmpl (p "Ship_Type"%string))%string
  else if String.eqb dataset_name "political_symbolic" then
    str_or (p "short_label"%string) (p "event_name"%string)
  else Some "Unknown Event"%string.

Definition getEventDescription (dataset_name : string) (event : RawEvent)
  : option string :=
  let p name := props event !! name in
  if String.eqb dataset_name "arms_sales" then
    str_or (p "weapon_sale"%string) (Some EmptyString)
  else if String.eqb dataset_name "diplomatic" then
    str_or (p "Descriptor"%string) (Some EmptyString)
  else if String.eqb dataset_name "bills" then
    Some (tmpl (p "Bill_ID"%string) ++ ": " ++ tmpl (p "Milestone"%string))%string
  else if String.eqb dataset_name "ships" then
    str_or (p "Label"%string)
           (Some (tmpl (p "Country"%string) ++ " " ++ tmpl (p "Ship_Type"%string))%string)
  else if String.eqb dataset_name "political_symbolic" then
    str_or (str_or (p "description"%string) (p "event_name"%string)) (Some EmptyString)
  else Some EmptyString.

Record Normalized : Type := mkNormalized {
  n_date : option Z;
  n_category : string;
  n_label : option string;
  n_description : option string;
  n_fields : RawEvent
}.

Definition normalizeEvent (dataset_name : string) (raw_event : RawEvent)
  : option Normalized :=
  match lookup_config dataset_name events with
  | None => None
  | Some config =>
      Some {| n_date := read_date (date_field config) raw_event;
              n_category := category_of config;
              n_label := getEventLabel dataset_name raw_event;
              n_description := getEventDescription dataset_name raw_event;
              n_fields := raw_event |}
  end.

(** A property of [DATA]: an array, or some other truthy value.  An absent
    or falsy property is [None]. *)
Inductive Slot (A : Type) : Type :=
  | Other
  | Arr (l : list A).
Arguments Other {A}.
Arguments Arr {A} l.

Record DATA : Type := mkDATA {
  adiz_baseline : option (Slot Utils.BaselineEntry);
  collections : gmap string (Slot RawEvent)
}.

Record Validation : Type := mkValidation { ok : bool; errors : list string }.

Definition isArray {A} (s : Slot A) : bool :=
  match s with Arr _ => true | Other => false end.

(** [validate(DATA)]; an argument that is not an object is [None]. *)
Definition validate (D : option DATA) : Validation :=
  match D with
  | None => mkValidation false ["DATA is not an object"%string]
  | Some data =>
      let errs0 :=
        match adiz_baseline data with
        | Some (Arr _) => []
        | _ => ["Missing or invalid adiz_baseline array"%string]
        end in
      let errs :=
        foldl (fun errs dataset =>
                 match collections data !! dataset with
                 | Some v =>
                     if isArray v then errs
                     else errs ++ [(dataset ++ " must be an array")%string]
                 | None => errs
                 end)
              errs0 (map fst events) in
      mkValidation (Nat.eqb (List.length errs) 0) errs
  end.

(** [DATA] as [loadFromObject] receives it: an array may hold [null]
    ([None]) in the place of a record. *)
Record Payload : Type := mkPayload {
  p_baseline : option (Slot (option Utils.BaselineEntry));
  p_collections : gmap string (Slot (option RawEvent))
}.

(** The records of an array, its [null]s left out. *)
Definition records {A} (s : Slot (option A)) : Slot A :=
  match s with
  | Other => Other
  | Arr l => Arr (omap id l)
  end.

Definition holds_null {A} (s : Slot (option A)) : bool :=
  match s with
  | Other => false
  | Arr l => existsb (fun x => match x with None => true | Some _ => false end) l
  end.

(** What [validate] sees of a payload, and what the loops over its arrays
    read when no array holds a [null]. *)
Definition shape (p : Payload) : DATA :=
  {| adiz_baseline := records <$> p_baseline p;
     collections := records <$> p_collections p |}.

(** Well-formed [DATA] as a payload: no array holds a [null]. *)
Definition all_records {A} (s : Slot A) : Slot (option A) :=
  match s with
  | Other => Other
  | Arr l => Arr (map Some l)
  end.

Definition payload (data : DATA) : Payload :=
  {| p_baseline := all_records <$> adiz_baseline data;
     p_collections := all_records <$> collections data |}.

End DataSchema.

(** ** Results of calls that may throw *)

Inductive result (A : Type) : Type :=
  | Ok (a : A)
  | Throw (message : string).
Arguments Ok {A} a.
Arguments Throw {A} message.

(** ** dataConnector.js *)

Module DataConnector.

Import DataSchema.

Record Event : Type := mkEvent {
  date : Z;
  category : string;
  label : option string;
  description : option string;
  fields : RawEvent;
  dataset : string
}.

(** The connector's three mutable properties. *)
Record State : Type := mkState {
  currentData : option Payload;
  baselineMap : option (gmap Z Q);
  eventIndex : option (list Event)
}.

Definition initial : State :=
  {| currentData := None; baselineMap := None; eventIndex := None |}.

Inductive YearFilter : Type := ALL | Year (y : Z).

Record Filters : Type := mkFilters {
  f_category : option string;
  f_startDate : option Z;
  f_endDate : option Z;
  f_year : option YearFilter;
  f_dataset : option string;
  f_customFilter : option (Event -> bool)
}.

Definition no_filters : Filters := mkFilters None None None None None None.

(** [events.sort((a, b) => new Date(a.date) - new Date(b.date))]: the sort
    is stable, so it is the insertion of every event before the first one
    that is not earlier. *)
Fixpoint insert_by_date (x : Event) (l : list Event) : list Event :=
  match l with
  | [] => [x]
  | y :: ys => if date y <? date x then y :: insert_by_date x ys else x :: y :: ys
  end.

Definition sort_by_date (l : list Event) : list Event :=
  foldr insert_by_date [] l.

Definition normalize_into (dataset_name : string) (raw_event : RawEvent)
  : list Event :=
  match normalizeEvent dataset_name raw_event with
  | Some n =>
      match n_date n with
      | Some d => [ {| date := d;
                       category := n_category n;
                       label := n_label n;
                       description := n_description n;
                       fields := n_fields n;
                       dataset := dataset_name |} ]
      | None => []
      end
  | None => []
  end.

Definition buildEventIndex (D : DATA) : list Event :=
  let events :=
    flat_map (fun dataset_name =>
                match collections D !! dataset_name with
                | Some (Arr ds) => flat_map (normalize_into dataset_name) ds
                | _ => []
                end)
             (map fst DataSchema.events) in
  sort_by_date events.

Record LoadReport : Type := mkReport { load_ok : bool; eventCount : Z }.

(** [loadFromObject(DATA)].  The three properties are assigned one after
    the other: [currentData] first, [baselineMap] once [createBaselineMap]
    has returned, [eventIndex] once [buildEventIndex] has.  Either of the two
    throws a [TypeError] when its [forEach] meets a [null] ([entry.Date],
    [raw_event[config.date_field]]), and what was assigned before stays.
    [buildEventIndex] reads the collections of the schema table only.  A
    validation that passes has found the baseline array, so the other two
    [TypeError] branches are never taken. *)
Definition loadFromObject (st : State) (D : option Payload)
  : result LoadReport * State :=
  let validation := validate (shape <$> D) in
  if negb (ok validation) then
    (Throw ("Invalid DATA structure: " ++ String.concat ", " (errors validation))%string,
     st)
  else
    match D with
    | Some data =>
        let stored := {| currentData := Some data;
                         baselineMap := baselineMap st;
                         eventIndex := eventIndex st |} in
        match p_baseline data with
        | Some (Arr entries) =>
            if holds_null (Arr entries) then (Throw "TypeError"%string, stored)
            else
              let mapped := {| currentData := Some data;
                               baselineMap :=
                                 Some (Utils.createBaselineMap (omap id entries));
                               eventIndex := eventIndex st |} in
              if existsb (fun dataset_name =>
                            match p_collections data !! dataset_name with
                            | Some ds => holds_null ds
                            | None => false
                            end)
                         (map fst DataSchema.events)
              then (Throw "TypeError"%string, mapped)
              else
                let idx := buildEventIndex (shape data) in
                (Ok {| load_ok := true; eventCount := Z.of_nat (List.length idx) |},
                 {| currentData := Some data;
                    baselineMap := Some (Utils.createBaselineMap (omap id entries));
                    eventIndex := Some idx |})
        | _ => (Throw "TypeError"%string, stored)
        end
    | None => (Throw "TypeError"%string, st)
    end.

Definition truthy (s : string) : bool := negb (String.eqb s EmptyString).

Definition getEvents (st : State) (filters : Filters) : list Event :=
  match eventIndex st with
  | None => []
  | Some index =>
      let filtered := index in
      let filtered :=
        match f_category filters with
        | Some c =>
            if truthy c && negb (String.eqb c "all")
            then List.filter (fun e => String.eqb (category e) c) filtered
            else filtered
        | None => filtered
        end in
      let filtered :=
        match f_startDate filters with
        | Some s => List.filter (fun e => s <=? date e) filtered
        | None => filtered
        end in
      let filtered :=
        match f_endDate filters with
        | Some s => List.filter (fun e => date e <=? s) filtered
        | None => filtered
        end in
      let filtered :=
        match f_year filters with
        | Some (Year y) => List.filter (fun e => Utils.getFullYear (date e) =? y) filtered
        | Some ALL | None => filtered
        end in
      let filtered :=
        match f_dataset filters with
        | Some ds =>
            if truthy ds then List.filter (fun e => String.eqb (dataset e) ds) filtered
            else filtered
        | None => filtered
        end in
      match f_customFilter filters with
      | Some g => List.filter g filtered
      | None => filtered
      end
  end.

Definition getEventsInWindow `{Zone} (st : State) (centerDate windowSize : Z)
  : list Event :=
  let dates := Utils.getDateWindow centerDate windowSize in
  getEvents st {| f_category := None;
                  f_startDate := head dates;
                  f_endDate := last dates;
                  f_year := None; f_dataset := None; f_customFilter := None |}.

Definition isLoaded (st : State) : bool :=
  match currentData st with Some _ => true | None => false end.

(** [[...new Set(l)]]: the distinct elements in the order of their first
    occurrence. *)
Definition distinct (l : list string) : list string :=
  foldl (fun seen x => if existsb (String.eqb x) seen then seen else seen ++ [x]) [] l.

Definition getCategories (st : State) : list string :=
  match eventIndex st with
  | None => []
  | Some index => distinct (map category index)
  end.

(** [getBaselineData(startDate, endDate)]: the pairs [{date, adiz_count}]. *)
Definition getBaselineData `{Zone} (st : State) (startDate endDate : Z)
  : list (Z * Q) :=
  match baselineMap st with
  | None => []
  | Some m =>
      map (fun d => (Utils.formatDate d, Utils.getADIZCount (Utils.formatDate d) m))
          (Utils.each_day (Utils.parseDate startDate) (Utils.parseDate endDate))
  end.

End DataConnector.

(** ** singleEvent.js *)

Module SingleEventAnalyzer.

Import DataConnector.

Record WindowStats : Type := mkWindowStats {
  ws_mean : Q; ws_max : Q; ws_min : Q; ws_stdDev : Surd
}.

Record Impact : Type := mkImpact {
  meanDelta : Q;
  meanDeltaPercent : option Q;      (* [None] is ['N/A'] *)
  timeToPeak : option Utils.Peak;
  persistence : Z;
  threshold : Surd
}.

Record Analysis : Type := mkAnalysis {
  event : Event;
  eventDate : Z;
  window_size : Z;
  window_data : list Utils.WindowPoint;
  baseline_days : Z;
  baseline_stats : Utils.BaselineStats;
  windowStats : WindowStats;
  impact : Impact;
  confounders : list Event
}.

Record State : Type := mkState {
  currentEvent : option Event;
  currentWindow : Z;
  currentBaseline : Z;
  currentAnalysis : option Analysis
}.

Definition initial : State := mkState None 7 30 None.

Record Options : Type := mkOptions { windowSize : option Z; baselineDays : option Z }.

(** [analyze(event, options)].  A loaded connector has its baseline map;
    without one the first lookup would fault with a [TypeError]. *)
Definition analyze `{Zone} (dc : DataConnector.State) (st : State)
    (event : Event) (options : Options) : result Analysis * State :=
  if negb (isLoaded dc) then (Throw "Data not loaded", st)
  else
    let currentWindow := num_or (windowSize options) 7 in
    let currentBaseline := num_or (baselineDays options) 30 in
    let st1 := mkState (Some event) currentWindow currentBaseline (currentAnalysis st) in
    match baselineMap dc with
    | None => (Throw "TypeError", st1)
    | Some baselineMap =>
        let eventDate := date event in
        let windowData := Utils.getWindowData eventDate currentWindow baselineMap in
        let baselineStats := Utils.getBaselineStats eventDate currentBaseline baselineMap in
        let windowValues :=
          map Utils.adiz_count
              (List.filter (fun d => 0 <=? Utils.days_from_event d) windowData) in
        let windowStats :=
          {| ws_mean := Utils.mean windowValues;
             ws_max := Utils.max windowValues;
             ws_min := Utils.min windowValues;
             ws_stdDev := Utils.stdDev windowValues |} in
        let meanDelta := (ws_mean windowStats - Utils.mean_ baselineStats)%Q in
        let meanDeltaPercent :=
          if Qlt_bool 0 (Utils.mean_ baselineStats)
          then Some (meanDelta / Utils.mean_ baselineStats * 100)%Q
          else None in
        let timeToPeak := Utils.getTimeToPeak windowData in
        let threshold := surd_add (Utils.mean_ baselineStats) (Utils.stdDev_ baselineStats) in
        let persistence := Utils.getPersistence windowData threshold in
        let confounders :=
          List.filter (fun e => negb (date e =? date event)
                                || negb (bool_decide (label e = label event)))
                      (getEventsInWindow dc eventDate currentWindow) in
        let analysis :=
          {| event := event;
             eventDate := eventDate;
             window_size := currentWindow;
             window_data := windowData;
             baseline_days := currentBaseline;
             baseline_stats := baselineStats;
             windowStats := windowStats;
             impact := mkImpact meanDelta meanDeltaPercent timeToPeak persistence threshold;
             confounders := confounders |} in
        (Ok analysis,
         mkState (Some event) currentWindow currentBaseline (Some analysis))
    end.

Record ChartData : Type := mkChart {
  x : list Z; y : list Q; event_date : Z; event_index : Z; chart_threshold : Surd
}.

(** [l.findIndex(p)], [-1] when no element satisfies [p]. *)
Fixpoint findIndex {A} (p : A -> bool) (l : list A) : Z :=
  match l with
  | [] => -1
  | a :: rest =>
      if p a then 0
      else let i := findIndex p rest in if i <? 0 then -1 else i + 1
  end.

Definition getChartData (st : State) : option ChartData :=
  match currentAnalysis st with
  | None => None
  | Some a =>
      let windowData := window_data a in
      Some {| x := map Utils.date windowData;
              y := map Utils.adiz_count windowData;
              event_date := eventDate a;
              event_index := findIndex (fun d => Utils.date d =? eventDate a) windowData;
              chart_threshold := threshold (impact a) |}
  end.

(** The summary card, its numbers before [toFixed] formatting. *)
Record SummaryCard : Type := mkCard {
  card_label : option string;
  card_date : Z;
  card_category : string;
  card_description : option string;
  baselineMean : Q;
  windowMean : Q;
  card_delta : Q;
  deltaPercent : option Q;
  maxSpike : Q;
  card_timeToPeak : option (Z * Q);   (* [None] is ['N/A'] *)
  card_persistence : Z;
  card_threshold : Surd;
  card_confounders : Z
}.

Definition getSummaryCard (st : State) : option SummaryCard :=
  match currentAnalysis st with
  | None => None
  | Some a =>
      Some {| card_label := label (event a);
              card_date := eventDate a;
              card_category := category (event a);
              card_description := description (event a);
              baselineMean := Utils.mean_ (baseline_stats a);
              windowMean := ws_mean (windowStats a);
              card_delta := meanDelta (impact a);
              deltaPercent := meanDeltaPercent (impact a);
              maxSpike := ws_max (windowStats a);
              card_timeToPeak :=
                (fun p => (Utils.days p, Utils.value p)) <$> timeToPeak (impact a);
              card_persistence := persistence (impact a);
              card_threshold := threshold (impact a);
              card_confounders := Z.of_nat (List.length (confounders a)) |}
  end.

(** The value returned, [None] standing for [null]. *)
Definition getConfounders (st : State) : option (list Event) :=
  match currentAnalysis st with
  | None => Some []
  | Some a => Some (confounders a)
  end.

End SingleEventAnalyzer.

(** ** The per-event and per-group computations that categoryAnalyzer.js and
       abCompare.js both spell out *)

Module Aggregate.

Import DataConnector.

Record EventAnalysis : Type := mkEventAnalysis {
  event : Event;
  windowData : list Utils.WindowPoint;
  baseline : Utils.BaselineStats;
  peak : Q;
  timeToPeak : option Z;
  avg7DaySpike : Q;
  delta : Q
}.

Definition analyzeOne `{Zone} (baselineMap : gmap Z Q) (windowSize : Z) (event : Event)
  : EventAnalysis :=
  let windowData := Utils.getWindowData (date event) windowSize baselineMap in
  let baselineStats := Utils.getBaselineStats (date event) 30 baselineMap in
  let postEventValues :=
    map Utils.adiz_count
        (List.filter (fun d => (0 <? Utils.days_from_event d)
                               && (Utils.days_from_event d <=? 7)) windowData) in
  let avg7DaySpike :=
    match postEventValues with
    | [] => 0%Q
    | _ => Utils.mean postEventValues
    end in
  let peak := Utils.max (map Utils.adiz_count windowData) in
  let timeToPeak := Utils.getTimeToPeak windowData in
  {| event := event;
     windowData := windowData;
     baseline := baselineStats;
     peak := peak;
     timeToPeak := Utils.days <$> timeToPeak;
     avg7DaySpike := avg7DaySpike;
     delta := (avg7DaySpike - Utils.mean_ baselineStats)%Q |}.

(** The counts that the analyses have at [offset]. *)
Definition valuesAtOffset (eventAnalyses : list EventAnalysis) (offset : Z) : list Q :=
  flat_map (fun a =>
              match List.find (fun d => Utils.days_from_event d =? offset) (windowData a) with
              | Some point => [Utils.adiz_count point]
              | None => []
              end)
           eventAnalyses.

(** The loop over the offsets [1 .. windowSize] that keeps the first offset
    with the highest average: [(maxSpikeDay, maxSpikeValue)]. *)
Definition maxSpike (eventAnalyses : list EventAnalysis) (windowSize : Z) : Z * Q :=
  foldl (fun '(maxSpikeDay, maxSpikeValue) offset =>
           match valuesAtOffset eventAnalyses offset with
           | [] => (maxSpikeDay, maxSpikeValue)
           | vs =>
               let avgAtOffset := Utils.mean vs in
               if Qlt_bool maxSpikeValue avgAtOffset then (offset, avgAtOffset)
               else (maxSpikeDay, maxSpikeValue)
           end)
        (0, 0%Q) (range 1 windowSize).

Record CurvePoint : Type := mkCurvePoint {
  offset : Z;
  c_mean : Q;
  c_stdDev : Surd;
  upperBound : Surd;
  lowerBound : Surd;
  c_count : Z
}.

Definition averageCurve (eventAnalyses : list EventAnalysis) (windowSize : Z)
  : list CurvePoint :=
  flat_map (fun offset =>
              match valuesAtOffset eventAnalyses offset with
              | [] => []
              | vs =>
                  let mean := Utils.mean vs in
                  let stdDev := Utils.stdDev vs in
                  [ {| offset := offset;
                       c_mean := mean;
                       c_stdDev := stdDev;
                       upperBound := surd_add mean stdDev;
                       lowerBound := surd_max0 (surd_sub mean stdDev);
                       c_count := Z.of_nat (List.length vs) |} ]
              end)
           (range (- windowSize) windowSize).

Definition median (values : list Q) : Q :=
  match values with
  | [] => 0%Q
  | _ =>
      let sorted := sort_by (fun v => v) values in
      let mid := (List.length sorted / 2)%nat in
      if (List.length sorted mod 2 =? 0)%nat
      then ((nth (mid - 1) sorted 0 + nth mid sorted 0) / 2)%Q
      else nth mid sorted 0%Q
  end.

Definition timesToPeak (eventAnalyses : list EventAnalysis) : list Q :=
  flat_map (fun a => match timeToPeak a with
                     | Some t => [inject_Z t]
                     | None => []
                     end) eventAnalyses.

Definition meanOrNull (values : list Q) : option Q :=
  match values with
  | [] => None
  | _ => Some (Utils.mean values)
  end.

End Aggregate.

(** ** categoryAnalyzer.js *)

Module CategoryAnalyzer.

Import DataConnector Aggregate.

Record Summary : Type := mkSummary {
  avgPeak : Q;
  avgPeakStdDev : Surd;
  s_avg7DaySpike : Q;
  avgDelta : Q;
  medianPeak : Q;
  maxPeak : Q;
  minPeak : Q;
  avgTimeToPeak : option Q;
  maxSpikeDay : Z;
  maxSpikeValue : Q;
  avgBaseline : Q;
  avgIncrease : Q
}.

Record Analysis : Type := mkAnalysis {
  filters : Filters;
  eventCount : Z;
  a_windowSize : Z;
  avgCurve : list CurvePoint;
  eventAnalyses : list EventAnalysis;
  summary : Summary;
  topEvents : list EventAnalysis;
  bottomEvents : list EventAnalysis
}.

Record Options : Type := mkOptions { windowSize : option Z }.

(** [analyze(categoryFilters, options)]; [current] is [currentAnalysis]. *)
Definition analyze `{Zone} (dc : DataConnector.State) (current : option Analysis)
    (categoryFilters : Filters) (options : Options)
  : result Analysis * option Analysis :=
  if negb (isLoaded dc) then (Throw "Data not loaded", current)
  else
    let windowSize := num_or (windowSize options) 14 in
    let events := getEvents dc categoryFilters in
    if (List.length events =? 0)%nat then
      (Throw "No events match these filters. Try different filter combination.",
       current)
    else
      match baselineMap dc with
      | None => (Throw "TypeError", current)
      | Some baselineMap =>
          let eventAnalyses := map (analyzeOne baselineMap windowSize) events in
          let allPeaks := map peak eventAnalyses in
          let all7DaySpikes := map avg7DaySpike eventAnalyses in
          let allDeltas := map delta eventAnalyses in
          let avgTimeToPeak := meanOrNull (timesToPeak eventAnalyses) in
          let avgBaseline :=
            Utils.mean (map (fun a => Utils.mean_ (baseline a)) eventAnalyses) in
          let avgPostEventADIZ := Utils.mean all7DaySpikes in
          let avgIncrease := (avgPostEventADIZ - avgBaseline)%Q in
          let '(maxSpikeDay, maxSpikeValue) := maxSpike eventAnalyses windowSize in
          let avgCurve := averageCurve eventAnalyses windowSize in
          let sortedByPeak := sort_by (fun a => (- peak a)%Q) eventAnalyses in
          let analysis :=
            {| filters := categoryFilters;
               eventCount := Z.of_nat (List.length events);
               a_windowSize := windowSize;
               avgCurve := avgCurve;
               eventAnalyses := eventAnalyses;
               summary :=
                 {| avgPeak := Utils.mean allPeaks;
                    avgPeakStdDev := Utils.stdDev allPeaks;
                    s_avg7DaySpike := Utils.mean all7DaySpikes;
                    avgDelta := Utils.mean allDeltas;
                    medianPeak := median allPeaks;
                    maxPeak := Utils.max allPeaks;
                    minPeak := Utils.min allPeaks;
                    avgTimeToPeak := avgTimeToPeak;
                    maxSpikeDay := maxSpikeDay;
                    maxSpikeValue := maxSpikeValue;
                    avgBaseline := avgBaseline;
                    avgIncrease := avgIncrease |};
               topEvents := slice 0 5 sortedByPeak;
               bottomEvents := rev (slice_last 5 sortedByPeak) |} in
          (Ok analysis, Some analysis)
      end.

(** The curve projected to arrays (without the [maxValue] of the chart). *)
Record CurveData : Type := mkCurveData {
  offsets : list Z;
  cd_mean : list Q;
  cd_upperBound : list Surd;
  cd_lowerBound : list Surd
}.

Definition getAverageCurveData (current : option Analysis) : option CurveData :=
  match current with
  | None => None
  | Some a =>
      let avgCurve := avgCurve a in
      Some {| offsets := map offset avgCurve;
              cd_mean := map c_mean avgCurve;
              cd_upperBound := map upperBound avgCurve;
              cd_lowerBound := map lowerBound avgCurve |}
  end.

Definition getEventOverlayData (current : option Analysis)
  : option (list (list Z * list Q * option string)) :=
  match current with
  | None => None
  | Some a =>
      Some (map (fun analysis =>
                   let points :=
                     flat_map (fun offset =>
                                 match List.find (fun d => Utils.days_from_event d =? offset)
                                                 (windowData analysis) with
                                 | Some point => [(offset, Utils.adiz_count point)]
                                 | None => []
                                 end)
                              (range (- a_windowSize a) (a_windowSize a)) in
                   (map fst points, map snd points, label (event analysis)))
                (eventAnalyses a))
  end.

(** The summary card, its numbers before [toFixed] formatting. *)
Definition getSummary (current : option Analysis) : option (Z * Summary) :=
  match current with
  | None => None
  | Some a => Some (eventCount a, summary a)
  end.

(** A row of the top / bottom tables, before formatting. *)
Record Row : Type := mkRow {
  row_date : Z; row_label : option string; row_peak : Q; avg7Day : Q; row_delta : Q
}.

Definition row_of (a : EventAnalysis) : Row :=
  {| row_date := date (event a);
     row_label := label (event a);
     row_peak := peak a;
     avg7Day := avg7DaySpike a;
     row_delta := delta a |}.

(** The value returned, [None] standing for [null]. *)
Definition getTopEvents (current : option Analysis) : option (list Row) :=
  match current with
  | None => Some []
  | Some a => Some (map row_of (topEvents a))
  end.

Definition getBottomEvents (current : option Analysis) : option (list Row) :=
  match current with
  | None => Some []
  | Some a => Some (map row_of (bottomEvents a))
  end.

End CategoryAnalyzer.

(** ** abCompare.js *)

Module ABCompare.

Import DataConnector Aggregate.

Record Stats : Type := mkStats {
  avgPeak : Q;
  avgPeakStdDev : Surd;
  s_avg7DaySpike : Q;
  avgDelta : Q;
  avgBaseline : Q;
  avgIncrease : Q;
  avgTimeToPeak : option Q;
  maxSpikeDay : Z;
  medianPeak : Q
}.

Record Group : Type := mkGroup {
  groupName : string;
  eventCount : Z;
  eventAnalyses : list EventAnalysis;
  avgCurve : list CurvePoint;
  stats : Stats
}.

(** The comparison, its recommendation reduced to the ratio it reports, the
    severity wording and the name of the weaker group. *)
Record Comparison : Type := mkComparison {
  peakRatio : num;
  increaseRatio : num;
  spikeRatio : num;
  peakDiff : Q;
  increaseDiff : Q;
  spikeDiff : Q;
  moreInflammatory : string;
  inflammatoryMargin : num;
  rec_ratio : num;
  severity : string;
  lessInflammatory : string
}.

Record Result : Type := mkResult {
  groupA : Group;
  groupB : Group;
  comparison : Comparison;
  r_windowSize : Z
}.

Record Options : Type := mkOptions { windowSize : option Z }.

Definition analyzeGroup `{Zone} (baselineMap : gmap Z Q) (events : list Event)
    (windowSize : Z) (groupName : string) : Group :=
  let eventAnalyses := map (analyzeOne baselineMap windowSize) events in
  let allPeaks := map peak eventAnalyses in
  let all7DaySpikes := map avg7DaySpike eventAnalyses in
  let allDeltas := map delta eventAnalyses in
  let avgBaseline :=
    Utils.mean (map (fun a => Utils.mean_ (baseline a)) eventAnalyses) in
  let avgIncrease := (Utils.mean all7DaySpikes - avgBaseline)%Q in
  let '(maxSpikeDay, _) := maxSpike eventAnalyses windowSize in
  {| groupName := groupName;
     eventCount := Z.of_nat (List.length events);
     eventAnalyses := eventAnalyses;
     avgCurve := averageCurve eventAnalyses windowSize;
     stats :=
       {| avgPeak := Utils.mean allPeaks;
          avgPeakStdDev := Utils.stdDev allPeaks;
          s_avg7DaySpike := Utils.mean all7DaySpikes;
          avgDelta := Utils.mean allDeltas;
          avgBaseline := avgBaseline;
          avgIncrease := avgIncrease;
          avgTimeToPeak := meanOrNull (timesToPeak eventAnalyses);
          maxSpikeDay := maxSpikeDay;
          medianPeak := median allPeaks |} |}.

Definition severity_of (ratio : num) : string :=
  if num_gt ratio 3 then "significantly more"
  else if num_gt ratio 2 then "much more"
  else if num_gt ratio 1.5 then "moderately more"
  else "somewhat more".

Definition calculateComparison (groupA groupB : Group) : Comparison :=
  let statsA := stats groupA in
  let statsB := stats groupB in
  let peakRatio := js_div (avgPeak statsA) (avgPeak statsB) in
  let moreInflammatory :=
    if Qlt_bool (avgIncrease statsB) (avgIncrease statsA) then "A"%string else "B"%string in
  let isA := String.eqb moreInflammatory "A" in
  let winner := if isA then groupA else groupB in
  let loser := if isA then groupB else groupA in
  let ratio := js_div (avgIncrease (stats winner)) (avgIncrease (stats loser)) in
  {| peakRatio := peakRatio;
     increaseRatio := js_div (Qabs (avgIncrease statsA)) (Qabs (avgIncrease statsB));
     spikeRatio := js_div (s_avg7DaySpike statsA) (s_avg7DaySpike statsB);
     peakDiff := (avgPeak statsA - avgPeak statsB)%Q;
     increaseDiff := (avgIncrease statsA - avgIncrease statsB)%Q;
     spikeDiff := (s_avg7DaySpike statsA - s_avg7DaySpike statsB)%Q;
     moreInflammatory := moreInflammatory;
     inflammatoryMargin := num_abs_diff_times peakRatio 1 100;
     rec_ratio := ratio;
     severity := severity_of ratio;
     lessInflammatory := if isA then "Group B" else "Group A" |}.

(** [compare(groupAFilters, groupBFilters, options)]; [current] is
    [currentComparison]. *)
Definition compare `{Zone} (dc : DataConnector.State) (current : option Result)
    (groupAFilters groupBFilters : Filters) (options : Options)
  : result Result * option Result :=
  if negb (isLoaded dc) then (Throw "Data not loaded", current)
  else
    let windowSize := num_or (windowSize options) 14 in
    let eventsA := getEvents dc groupAFilters in
    let eventsB := getEvents dc groupBFilters in
    if (List.length eventsA =? 0)%nat || (List.length eventsB =? 0)%nat then
      (Throw "One or both groups have no events. Adjust your filters.", current)
    else
      match baselineMap dc with
      | None => (Throw "TypeError", current)
      | Some baselineMap =>
          let groupA := analyzeGroup baselineMap eventsA windowSize "A" in
          let groupB := analyzeGroup baselineMap eventsB windowSize "B" in
          let comparison := calculateComparison groupA groupB in
          let r := {| groupA := groupA; groupB := groupB;
                      comparison := comparison; r_windowSize := windowSize |} in
          (Ok r, Some r)
      end.

Definition curve_arrays (g : Group) : list Z * list Q * list Surd * list Surd :=
  (map offset (avgCurve g), map c_mean (avgCurve g),
   map upperBound (avgCurve g), map lowerBound (avgCurve g)).

Definition getOverlaidCurvesData (current : option Result) :=
  match current with
  | None => None
  | Some r => Some (curve_arrays (groupA r), curve_arrays (groupB r))
  end.

(** [avgTimeToPeak || 0] *)
Definition or_zero (o : option Q) : Q := default 0%Q o.

Definition bar (g : Group) : list Q :=
  [ avgPeak (stats g); avgIncrease (stats g); s_avg7DaySpike (stats g);
    or_zero (avgTimeToPeak (stats g)) ].

Definition getComparisonBarData (current : option Result) : option (list Q * list Q) :=
  match current with
  | None => None
  | Some r => Some (bar (groupA r), bar (groupB r))
  end.

End ABCompare.

(** ** preplannedReactive.js *)

Module PreplannedReactive.

Import DataConnector.

Record SymbolicDate : Type := mkSymbolic { month : Z; day : Z; name : string }.

Definition SYMBOLIC_DATES : list SymbolicDate :=
  [ mkSymbolic 10 10 "Double Ten Day (ROC National Day)";
    mkSymbolic 1 1 "New Year's Day";
    mkSymbolic 5 20 "Taiwan Presidential Inauguration";
    mkSymbolic 7 1 "CCP Founding Day";
    mkSymbolic 10 1 "PRC National Day";
    mkSymbolic 12 10 "Human Rights Day" ]%string.

Record TemporalSignal : Type := mkTemporal {
  responseTime : option Z;
  t_category : string;
  t_reactiveScore : option Q
}.

Record BuildupSignal : Type := mkBuildup {
  trend : string;
  slope : option num;
  avgPreEvent : option Q;
  baseline : option Q;
  b_reactiveScore : option Q
}.

Record MagnitudeSignal : Type := mkMagnitude {
  thisPeak : option Q;
  avgSimilarPeak : option Q;
  ratio : option num;
  temporalDays : option Z;
  comparison : string;
  m_reactiveScore : option Q
}.

(** A political event near the classified one: [{...pe, daysDiff}]. *)
Record Nearby : Type := mkNearby { pe : Event; daysDiff : Z }.

Record SymbolicSignal : Type := mkSymbolicSignal {
  isSymbolic : bool;
  symbolicDate : option string;
  nearbyEvents : list Nearby;
  closestEvent : option Nearby;
  classification : option string;
  s_reactiveScore : option Q
}.

Record PatternSignal : Type := mkPattern {
  pattern_ : string;
  sharpness : num;
  decayRate : num;
  sustained : bool;
  p_reactiveScore : option Q
}.

Record Signals : Type := mkSignals {
  temporal : TemporalSignal;
  buildup : BuildupSignal;
  magnitude : MagnitudeSignal;
  symbolic : SymbolicSignal;
  pattern : PatternSignal
}.

Record Weights : Type := mkWeights {
  w_temporal : Q;
  w_buildup : Q;
  w_magnitude : Q;
  w_symbolic : Q;
  w_pattern : Q
}.

(** The classification record without its narrative [summary]. *)
Record Classification : Type := mkClassification {
  verdict : string;
  confidence : string;
  reactiveScore : num;
  prePlannedScore : num;
  weights : Weights
}.

Record Analysis : Type := mkAnalysis {
  a_event : Event;
  a_windowSize : Z;
  a_windowData : list Utils.WindowPoint;
  a_baselineStats : Utils.BaselineStats;
  a_signals : Signals;
  a_classification : Classification
}.

Record Options : Type := mkOptions { windowSize : option Z }.

Definition counts (windowData : list Utils.WindowPoint) : list Q :=
  map Utils.adiz_count windowData.

(** Signal 1: temporal proximity. *)
Definition analyzeTemporalProximity (windowData : list Utils.WindowPoint)
  : TemporalSignal :=
  match Utils.getTimeToPeak windowData with
  | None => mkTemporal None "unknown" (Some 0%Q)
  | Some timeToPeak =>
      let days := Utils.days timeToPeak in
      if (0 <=? days) && (days <=? 2) then
        mkTemporal (Some days) "immediate" (Some 0.9%Q)
      else if (3 <=? days) && (days <=? 9) then
        mkTemporal (Some days) "delayed" (Some 0.5%Q)
      else
        mkTemporal (Some days) "very_delayed" (Some 0.5%Q)
  end.

(** [x.reduce((sum, xi, i) => sum + f(xi, i), 0)] over the indices of [y]. *)
Fixpoint sum_indexed (f : Q -> Q -> Q) (i : Z) (y : list Q) : Q :=
  match y with
  | [] => 0%Q
  | yi :: rest => (f (inject_Z i) yi + sum_indexed f (i + 1) rest)%Q
  end.

Definition calculateTrendSlope (data : list Utils.WindowPoint) : num :=
  let n := Qlen data in
  let y := counts data in
  let sumX := sum_indexed (fun xi _ => xi) 0 y in
  let sumY := sum_indexed (fun _ yi => yi) 0 y in
  let sumXY := sum_indexed (fun xi yi => (xi * yi)%Q) 0 y in
  let sumXX := sum_indexed (fun xi _ => (xi * xi)%Q) 0 y in
  js_div (n * sumXY - sumX * sumY)%Q (n * sumXX - sumX * sumX)%Q.

(** Signal 2: pre-event buildup. *)
Definition analyzePreEventBuildup (windowData : list Utils.WindowPoint)
    (baselineStats : Utils.BaselineStats) : BuildupSignal :=
  let preEventData :=
    sort_by (fun d => inject_Z (Utils.days_from_event d))
      (List.filter (fun d => (Utils.days_from_event d <? 0)
                             && (-14 <=? Utils.days_from_event d)) windowData) in
  if (List.length preEventData <? 5)%nat then
    mkBuildup "insufficient_data" None None None (Some 0.5%Q)
  else
    let values := counts preEventData in
    let mean := Utils.mean values in
    let slope := calculateTrendSlope preEventData in
    let avgPreEvent := mean in
    let baseline := Utils.mean_ baselineStats in
    let isRising := num_gt slope 2 in
    let isElevated := Qlt_bool (baseline * 1.2) avgPreEvent in
    if isRising && isElevated then
      mkBuildup "rising" (Some slope) (Some avgPreEvent) (Some baseline) (Some 0.2%Q)
    else if isElevated then
      mkBuildup "elevated" (Some slope) (Some avgPreEvent) (Some baseline) (Some 0.4%Q)
    else
      mkBuildup "normal" (Some slope) (Some avgPreEvent) (Some baseline) (Some 0.8%Q).

(** The peak of a comparison event: the maximum over its own window of
    radius 14. *)
Definition similarPeak `{Zone} (baselineMap : gmap Z Q) (e : Event) : Q :=
  Utils.max (counts (Utils.getWindowData (date e) 14 baselineMap)).

Definition category_filter (c : string) : Filters :=
  mkFilters (Some c) None None None None None.

(** Signal 3: magnitude.  [baselineMap] is [DataConnector.baselineMap], which
    the caller has read already.  In the last branch the source has the
    labelled statement [reactiveScore: 0.5;], which assigns nothing: the
    score of a ['typical'] response stays [undefined]. *)
Definition analyzeMagnitude `{Zone} (st : State) (baselineMap : gmap Z Q) (event : Event)
    (windowData : list Utils.WindowPoint) (baselineStats : Utils.BaselineStats)
    (temporalDays : option Z) : MagnitudeSignal :=
  let similarEvents := getEvents st (category_filter (category event)) in
  if (List.length similarEvents <? 3)%nat then
    mkMagnitude None None None None "insufficient_data" (Some 0.5%Q)
  else
    let thisPeak := Utils.max (counts windowData) in
    let similarPeaks :=
      List.filter (fun p => Qlt_bool 0 p)
                  (map (similarPeak baselineMap) (slice 0 20 similarEvents)) in
    let avgSimilarPeak := Utils.mean similarPeaks in
    let ratio := js_div thisPeak avgSimilarPeak in
    let within (k : Z) :=
      match temporalDays with
      | Some t => t <=? k
      | None => false
      end in
    let out := mkMagnitude (Some thisPeak) (Some avgSimilarPeak) (Some ratio)
                           temporalDays in
    if num_gt ratio 2.5 && within 3 then out "much_larger_immediate" (Some 0.95%Q)
    else if num_gt ratio 2.0 && within 5 then out "large_near_immediate" (Some 0.85%Q)
    else if num_gt ratio 2.5 then out "much_larger" (Some 0.7%Q)
    else if num_gt ratio 1.5 then out "larger" (Some 0.6%Q)
    else out "typical" None.

Definition checkHardcodedSymbolicDates `{Zone} (eventDate : Z) : SymbolicSignal :=
  let date := Utils.localDay (Utils.parseDate eventDate) in
  let month_ := Utils.getMonth1 date in
  let day_ := Utils.getDate date in
  let matchingSymbolic :=
    List.find (fun sd =>
                 let daysDiff := Z.abs ((month_ * 100 + day_) - (month sd * 100 + day sd)) in
                 (daysDiff <=? 2) || (98 <=? daysDiff))
              SYMBOLIC_DATES in
  match matchingSymbolic with
  | Some sd => mkSymbolicSignal true (Some (name sd)) [] None None (Some 0.3%Q)
  | None => mkSymbolicSignal false None [] None None (Some 0.5%Q)
  end.

Definition lower (c : ascii) : ascii :=
  let n := nat_of_ascii c in
  if ((65 <=? n) && (n <=? 90))%nat then ascii_of_nat (n + 32) else c.

Fixpoint toLowerCase (s : string) : string :=
  match s with
  | EmptyString => EmptyString
  | String c t => String (lower c) (toLowerCase t)
  end.

Fixpoint includes (s sub : string) : bool :=
  String.prefix sub s
  || match s with
     | EmptyString => false
     | String _ t => includes t sub
     end.

(** Reading a string property of [{...pe, daysDiff}] by name.  The object
    has the properties of a normalized event ([date], [category], [label],
    [description], [fields], [dataset]) and [daysDiff]; the raw record's
    own properties live under [fields]. *)
Definition read_prop (n : Nearby) (prop : string) : option string :=
  if String.eqb prop "category" then Some (category (pe n))
  else if String.eqb prop "label" then label (pe n)
  else if String.eqb prop "description" then description (pe n)
  else if String.eqb prop "dataset" then Some (dataset (pe n))
  else None.

(** The keyword chain over [combinedText]: the score and the class. *)
Definition classifyText (combinedText : string) : Q * string :=
  let has := includes combinedText in
  if has "exercise" || has "drill" || has "maneuver" then
    (0.7%Q, "reactive_to_exercise")
  else if has "election" || has "vote" then
    (0.2%Q, "preplanned_election")
  else if has "congress" || has "ccp" || has "party" then
    (0.25%Q, "preplanned_congress")
  else if has "inauguration" || has "10-10" || has "double ten" || has "national day" then
    (0.2%Q, "preplanned_symbolic")
  else if has "lunar" || has "new year" || has "spring festival" then
    (0.3%Q, "preplanned_holiday")
  else
    (0.4%Q, "ambiguous_political").

(** Signal 4: symbolic timing. *)
Definition analyzeSymbolicTiming `{Zone} (st : State) (eventDate : Z) : SymbolicSignal :=
  let politicalEvents := getEvents st (category_filter "political") in
  match politicalEvents with
  | [] => checkHardcodedSymbolicDates eventDate
  | _ =>
      let nearbyEvents :=
        flat_map (fun pe =>
                    let daysDiff := Z.abs (eventDate - date pe) in
                    if daysDiff <=? 15 then [mkNearby pe daysDiff] else [])
                 politicalEvents in
      match sort_by (fun n => inject_Z (daysDiff n)) nearbyEvents with
      | [] => mkSymbolicSignal false None [] None None (Some 0.5%Q)
      | closest :: _ as sorted =>
          let eventType :=
            toLowerCase (default EmptyString
                           (str_or (read_prop closest "event_type") (Some EmptyString))) in
          let eventName :=
            toLowerCase (default EmptyString
                           (str_or (str_or (read_prop closest "event_name")
                                           (read_prop closest "short_label"))
                                   (Some EmptyString))) in
          let combinedText := (eventType ++ " " ++ eventName)%string in
          let '(score, class) := classifyText combinedText in
          mkSymbolicSignal true None sorted (Some closest) (Some class) (Some score)
      end
  end.

(** [values.indexOf(peak)], [-1] when absent. *)
Fixpoint indexOf (peak : Q) (values : list Q) : Z :=
  match values with
  | [] => -1
  | v :: rest =>
      if Qeq_bool v peak then 0
      else let i := indexOf peak rest in if i <? 0 then -1 else i + 1
  end.

Definition isSustained (windowData : list Utils.WindowPoint) : bool :=
  let postEvent :=
    List.filter (fun d => (0 <? Utils.days_from_event d)
                          && (Utils.days_from_event d <=? 7)) windowData in
  if (List.length postEvent <? 5)%nat then false
  else
    let values := counts postEvent in
    let peak := Utils.max values in
    let highDays := List.filter (fun v => Qle_bool (peak * 0.8) v) values in
    Qle_bool (Qlen values * 0.6) (Qlen highDays).

(** Signal 5: the shape of the response curve. *)
Definition analyzePattern (windowData : list Utils.WindowPoint) : PatternSignal :=
  let values := counts windowData in
  let peak := Utils.max values in
  let peakIndex := indexOf peak values in
  let half := Z.of_nat (List.length values) / 2 in
  let preEventMean := Utils.mean (slice 0 half values) in
  let sharpness := js_div peak preEventMean in
  let postPeakValues :=
    slice (peakIndex + 1)
          (Z.min (peakIndex + 8) (Z.of_nat (List.length values))) values in
  let decayRate :=
    match postPeakValues with
    | [] => Fin 0
    | _ => js_div (peak - Utils.mean postPeakValues) peak
    end in
  let sustained := isSustained windowData in
  let out := fun p s => mkPattern p sharpness decayRate sustained (Some s) in
  if num_gt sharpness 2.5 && num_gt decayRate 0.6 && negb sustained then
    out "sharp_spike_rapid_decay" 0.95%Q
  else if num_gt sharpness 2.5 && num_gt decayRate 0.4 && negb sustained then
    out "sharp_spike_moderate_decay" 0.85%Q
  else if num_gt sharpness 2.5 && negb sustained then
    out "sharp_spike" 0.70%Q
  else if sustained then
    out "sustained" 0.25%Q
  else
    out "gradual" 0.5%Q.

Inductive Key : Type := k_temporal | k_buildup | k_magnitude | k_symbolic | k_pattern.

(** [Object.keys(signals)] *)
Definition keys : list Key := [k_temporal; k_buildup; k_magnitude; k_symbolic; k_pattern].

(** [signals[key].reactiveScore] *)
Definition score_of (signals : Signals) (key : Key) : option Q :=
  match key with
  | k_temporal => t_reactiveScore (temporal signals)
  | k_buildup => b_reactiveScore (buildup signals)
  | k_magnitude => m_reactiveScore (magnitude signals)
  | k_symbolic => s_reactiveScore (symbolic signals)
  | k_pattern => p_reactiveScore (pattern signals)
  end.

(** [weights[key]] *)
Definition weight_of (w : Weights) (key : Key) : Q :=
  match key with
  | k_temporal => w_temporal w
  | k_buildup => w_buildup w
  | k_magnitude => w_magnitude w
  | k_symbolic => w_symbolic w
  | k_pattern => w_pattern w
  end.

Definition base_weights : Weights := mkWeights 0.35 0.25 0.20 0.10 0.10.
Definition spike_weights : Weights := mkWeights 0.30 0.20 0.25 0.05 0.20.
Definition compound_weights : Weights := mkWeights 0.30 0.20 0.30 0.10 0.10.

Definition select_weights (signals : Signals) : Weights :=
  if String.eqb (pattern_ (pattern signals)) "sharp_spike_rapid_decay" then
    spike_weights
  else if String.eqb (comparison (magnitude signals)) "much_larger_immediate"
          || String.eqb (comparison (magnitude signals)) "large_near_immediate" then
    compound_weights
  else base_weights.

(** The accumulation loop: the pair [(totalScore, totalWeight)]. *)
Definition accumulate (signals : Signals) (w : Weights) : Q * Q :=
  foldl (fun '(totalScore, totalWeight) key =>
           match score_of signals key with
           | Some s => ((totalScore + s * weight_of w key)%Q,
                        (totalWeight + weight_of w key)%Q)
           | None => (totalScore, totalWeight)
           end)
        (0%Q, 0%Q) keys.

Definition decide_verdict (reactiveScore : num) : string * string :=
  if num_ge reactiveScore 0.65 then
    ("reactive", if num_ge reactiveScore 0.8 then "high" else "medium")
  else if num_le reactiveScore 0.35 then
    ("pre-planned", if num_le reactiveScore 0.2 then "high" else "medium")
  else ("mixed", "low").

Definition calculateClassification (signals : Signals) : Classification :=
  let weights := select_weights signals in
  let '(totalScore, totalWeight) := accumulate signals weights in
  let reactiveScore := js_div totalScore totalWeight in
  let '(verdict, confidence) := decide_verdict reactiveScore in
  {| verdict := verdict;
     confidence := confidence;
     reactiveScore := reactiveScore;
     prePlannedScore := num_rsub 1 reactiveScore;
     weights := weights |}.

(** [this.analyzeTemporalProximity(windowData).days]: the temporal signal
    has the properties [responseTime], [category], [reactiveScore] and
    [explanation], so this read is [undefined] and the callee's default
    [temporalDays = null] applies. *)
Definition read_days (s : TemporalSignal) : option Z := None.

(** [classify(event, options)]; [current] is [currentAnalysis]. *)
Definition classify `{Zone} (st : State) (current : option Analysis)
    (event : Event) (options : Options) : result Analysis * option Analysis :=
  if negb (isLoaded st) then (Throw "Data not loaded", current)
  else
    match baselineMap st with
    | None => (Throw "TypeError", current)
    | Some baselineMap =>
        let windowSize := num_or (windowSize options) 21 in
        let windowData := Utils.getWindowData (date event) windowSize baselineMap in
        let baselineStats := Utils.getBaselineStats (date event) 30 baselineMap in
        let signals :=
          {| temporal := analyzeTemporalProximity windowData;
             buildup := analyzePreEventBuildup windowData baselineStats;
             magnitude :=
               analyzeMagnitude st baselineMap event windowData baselineStats
                                (read_days (analyzeTemporalProximity windowData));
             symbolic := analyzeSymbolicTiming st (date event);
             pattern := analyzePattern windowData |} in
        let classification := calculateClassification signals in
        let analysis :=
          {| a_event := event;
             a_windowSize := windowSize;
             a_windowData := windowData;
             a_baselineStats := baselineStats;
             a_signals := signals;
             a_classification := classification |} in
        (Ok analysis, Some analysis)
    end.

(** [x || 0.5] on a score. *)
Definition or_half (s : option Q) : Q :=
  match s with
  | Some q => if Qeq_bool q 0 then 0.5%Q else q
  | None => 0.5%Q
  end.

Definition getSignalBreakdown (current : option Analysis) : option (list Q) :=
  match current with
  | None => None
  | Some a =>
      let signals := a_signals a in
      Some (map (fun k => or_half (score_of signals k)) keys)
  end.

Definition getPreEventTrendData (current : option Analysis)
  : option (list Z * list Q) :=
  match current with
  | None => None
  | Some a =>
      let preEvent :=
        List.filter (fun d => Utils.days_from_event d <=? 0) (a_windowData a) in
      Some (map Utils.days_from_event preEvent, counts preEvent)
  end.

End PreplannedReactive.

(** ** Sample data *)

Module Examples.

Import DataSchema DataConnector.

(** An index that only knows 2024-03-15. *)
Definition one_day : gmap Z Q := {[ 19797 := 12%Q ]}.

Definition arms_sale (d : Z) (text : string) : RawEvent :=
  {| prop_date := Some d; prop_Date := None;
     props := {[ "weapon_sale"%string := text ]} |}.

(** Ten aircraft a day from 2023-07-10 to 2024-09-11. *)
Definition flat_series : list Utils.BaselineEntry :=
  map (fun d => Utils.mkEntry d (Some 10%Q)) (seqZ 19548 430).

(** Three arms sales (2024-03-15, 2023-08-31, 2024-06-26) over the flat
    series. *)
Definition flat_data : DATA :=
  {| adiz_baseline := Some (Arr flat_series);
     collections :=
       {[ "arms_sales"%string :=
            Arr [ arms_sale 19797 "F-16 sustainment";
                  arms_sale 19600 "Harpoon missiles";
                  arms_sale 19900 "Radar upgrade" ] ]} |}.

Definition flat_state : State :=
  snd (loadFromObject initial (Some (payload flat_data))).

(** The same three sales, with a day of 100 aircraft after the sale of
    2024-03-15 and a day of 25 after each of the two others. *)
Definition spiky_data : DATA :=
  {| adiz_baseline :=
       Some (Arr (flat_series
                  ++ [ Utils.mkEntry 19798 (Some 100%Q);
                       Utils.mkEntry 19601 (Some 25%Q);
                       Utils.mkEntry 19901 (Some 25%Q) ]));
     collections := collections flat_data |}.

Definition spiky_state : State :=
  snd (loadFromObject initial (Some (payload spiky_data))).

(** The sale of 2024-03-15 as the catalog holds it. *)
Definition sale_2024_03_15 : Event :=
  {| date := 19797;
     category := "arms";
     label := Some "F-16 sustainment..."%string;
     description := Some "F-16 sustainment"%string;
     fields := arms_sale 19797 "F-16 sustainment";
     dataset := "arms_sales" |}.

Definition map_of (st : State) : gmap Z Q := default ∅ (baselineMap st).

(** The classifier's window and baseline of that sale over the spiky
    series on a clock at UTC, and the catalog it is classified against. *)
Definition spiky_map : gmap Z Q := map_of spiky_state.
Definition spiky_window : list Utils.WindowPoint :=
  @Utils.getWindowData utc 19797 21 spiky_map.
Definition spiky_baseline : Utils.BaselineStats :=
  @Utils.getBaselineStats utc 19797 30 spiky_map.
Definition spiky_index : list Event := default [] (eventIndex spiky_state).

(** The analysis [classify] returns for an event with default options on a
    classifier that has not run before. *)
Definition classified `{Zone} (st : State) (event : Event)
  : option PreplannedReactive.Analysis :=
  match fst (PreplannedReactive.classify st None event
               (PreplannedReactive.mkOptions None)) with
  | Ok a => Some a
  | Throw _ => None
  end.

(** The flat series with the three sales and one political event, an
    election of 2024-03-20. *)
Definition political_data : DATA :=
  {| adiz_baseline := Some (Arr flat_series);
     collections :=
       {[ "arms_sales"%string :=
            Arr [ arms_sale 19797 "F-16 sustainment";
                  arms_sale 19600 "Harpoon missiles";
                  arms_sale 19900 "Radar upgrade" ];
          "political_symbolic"%string :=
            Arr [ {| prop_date := Some 19802; prop_Date := None;
                     props := {[ "event_name"%string := "Presidential election"%string;
                                 "event_type"%string := "election"%string ]} |} ] ]} |}.

Definition political_state : State :=
  snd (loadFromObject initial (Some (payload political_data))).

(** Ten aircraft a day and 100 on 2024-03-19, with three arms sales, one
    of them on 2024-03-05: fourteen days before the day of 100 and five
    days before the clocks of New York go forward. *)
Definition late_peak_data : DATA :=
  {| adiz_baseline :=
       Some (Arr (flat_series ++ [ Utils.mkEntry 19801 (Some 100%Q) ]));
     collections :=
       {[ "arms_sales"%string :=
            Arr [ arms_sale 19787 "Patriot missiles";
                  arms_sale 19600 "Harpoon missiles";
                  arms_sale 19900 "Radar upgrade" ] ]} |}.

Definition late_peak_state : State :=
  snd (loadFromObject initial (Some (payload late_peak_data))).

Definition late_peak_map : gmap Z Q := default ∅ (baselineMap late_peak_state).

Definition sale_2024_03_05 : Event :=
  {| date := 19787;
     category := "arms";
     label := Some "Patriot missiles..."%string;
     description := Some "Patriot missiles"%string;
     fields := arms_sale 19787 "Patriot missiles";
     dataset := "arms_sales" |}.

(** A crowded catalog: twenty-two arms sales in date order.  The index
    knows 30 aircraft on the day of the first sale, 60 on the day of the
    second and 900 on the day of the twenty-first; the days around the
    eighteen sales in between are unknown to it. *)
Definition crowded_dates : list Z :=
  [15000; 15100] ++ map (fun k => 15200 + 100 * k) (seqZ 0 18) ++ [19000; 19001].

Definition crowded_data : DATA :=
  {| adiz_baseline :=
       Some (Arr [ Utils.mkEntry 15000 (Some 30%Q);
                   Utils.mkEntry 15100 (Some 60%Q);
                   Utils.mkEntry 19000 (Some 900%Q) ]);
     collections :=
       {[ "arms_sales"%string :=
            Arr (map (fun d => arms_sale d "Stinger missiles") crowded_dates) ]} |}.

Definition crowded_state : State :=
  snd (loadFromObject initial (Some (payload crowded_data))).

Definition crowded_map : gmap Z Q := default ∅ (baselineMap crowded_state).

Definition first_crowded_sale : Event :=
  {| date := 15000;
     category := "arms";
     label := Some "Stinger missiles..."%string;
     description := Some "Stinger missiles"%string;
     fields := arms_sale 15000 "Stinger missiles";
     dataset := "arms_sales" |}.

(** A payload that [validate] accepts and [buildEventIndex] fails on: an
    empty baseline array and an arms-sale array that holds [null]. *)
Definition broken_payload : Payload :=
  {| p_baseline := Some (Arr []);
     p_collections := {[ "arms_sales"%string := Arr [None] ]} |}.

Definition half_loaded : State :=
  snd (loadFromObject initial (Some broken_payload)).

End Examples.

(** ** The notions the properties are stated with *)

Module Spec.

Import DataSchema DataConnector PreplannedReactive.

(** The values of the [n + 1] days that end the day before the event. *)
Definition baselineValues (baselineMap : gmap Z Q) (eventDate baselineDays : Z)
  : list Q :=
  map (fun d => Utils.getADIZCount d baselineMap)
      (seqZ (eventDate - 1 - baselineDays) (baselineDays + 1)).

(** A score is admissible when it is absent or lies in [[0, 1]]. *)
Definition score_ok (s : option Q) : Prop :=
  match s with
  | Some q => (0 <= q <= 1)%Q
  | None => True
  end.

(** The signals that enter the combination: those with a score. *)
Definition defined_keys (signals : Signals) : list Key :=
  List.filter (fun k => match score_of signals k with
                        | Some _ => true
                        | None => false
                        end) keys.


(** The event's month and day lie within two calendar days of a symbolic
    date; shifting the date itself handles the turn of the year. *)
Definition near_symbolic_date (eventDate : Z) : bool :=
  existsb (fun sd =>
             existsb (fun k => (Utils.getMonth1 (eventDate + k) =? month sd)
                               && (Utils.getDate (eventDate + k) =? day sd))
                     [-2; -1; 0; 1; 2])
          SYMBOLIC_DATES.

(** Two catalog entries are the same event when date and label agree (the
    identity singleEvent.js uses for its confounders). *)
Definition same_event (a b : Event) : bool :=
  (date a =? date b) && bool_decide (label a = label b).

(** The events of the classified event's category other than itself. *)
Definition other_events (st : State) (event : Event) : list Event :=
  List.filter (fun e => negb (same_event e event))
              (getEvents st (category_filter (category event))).

(** The magnitude signal as a comparison with the OTHER events of the
    category: neutral below three of them, else their average peak as the
    denominator. *)
Definition compares_with_others `{Zone} (st : State) (baselineMap : gmap Z Q)
    (event : Event) (windowData : list Utils.WindowPoint)
    (baselineStats : Utils.BaselineStats) (temporalDays : option Z) : Prop :=
  let signal :=
    analyzeMagnitude st baselineMap event windowData baselineStats temporalDays in
  let others := other_events st event in
  if (List.length others <? 3)%nat then m_reactiveScore signal = Some 0.5%Q
  else exists avg,
      avgSimilarPeak signal = Some avg
      /\ (avg == Utils.mean (List.filter (fun p => Qlt_bool 0 p)
                               (map (similarPeak baselineMap) (slice 0 20 others))))%Q.

(** Every accessor answers [null] before its analysis has run. *)
Definition accessors_null_before_analysis : Prop :=
  SingleEventAnalyzer.getChartData SingleEventAnalyzer.initial = None
  /\ SingleEventAnalyzer.getSummaryCard SingleEventAnalyzer.initial = None
  /\ SingleEventAnalyzer.getConfounders SingleEventAnalyzer.initial = None
  /\ getSignalBreakdown None = None
  /\ CategoryAnalyzer.getTopEvents None = None
  /\ CategoryAnalyzer.getBottomEvents None = None.

(** The states the connector can be in when it is handed well-formed
    [DATA] only (arrays of records): the initial one and those a call of
    [loadFromObject] leaves behind. *)
Inductive reachable : State -> Prop :=
  | reach_initial : reachable initial
  | reach_load (st : State) (D : option DATA) :
      reachable st -> reachable (snd (loadFromObject st (payload <$> D))).

(** The states the connector can be in whatever it is handed, arrays that
    hold [null] included. *)
Inductive attainable : State -> Prop :=
  | attain_initial : attainable initial
  | attain_load (st : State) (D : option Payload) :
      attainable st -> attainable (snd (loadFromObject st D)).

(** A catalog in ascending date order. *)
Definition ascending (l : list Event) : Prop :=
  StronglySorted Z.le (map date l).

(** An event passes a set of filters when it passes every filter that is
    switched on: a category other than the empty string and ['all'], a
    start date, an end date, a year other than ['ALL'], a non-empty dataset
    name, a custom predicate. *)
Definition passes (filters : Filters) (e : Event) : bool :=
  match f_category filters with
  | Some c => if truthy c && negb (String.eqb c "all")
              then String.eqb (category e) c else true
  | None => true
  end
  && match f_startDate filters with
     | Some s => s <=? date e
     | None => true
     end
  && match f_endDate filters with
     | Some s => date e <=? s
     | None => true
     end
  && match f_year filters with
     | Some (Year y) => Utils.getFullYear (date e) =? y
     | Some ALL | None => true
     end
  && match f_dataset filters with
     | Some ds => if truthy ds then String.eqb (dataset e) ds else true
     | None => true
     end
  && match f_customFilter filters with
     | Some g => g e
     | None => true
     end.

(** The record [buildEventIndex] makes of a raw record of a collection. *)
Definition catalog_entry (name : string) (config : Config) (raw : RawEvent) (d : Z)
  : Event :=
  {| date := d;
     category := category_of config;
     label := getEventLabel name raw;
     description := getEventDescription name raw;
     fields := raw;
     dataset := name |}.

End Spec.

(** * Properties *)

(** ** Loops over integer ranges *)

Section Ranges.

(** With enough fuel the loop stops at its guard: it yields the
    consecutive integers from [i] to [hi]. *)
Lemma for_upto_seqZ (fuel : nat) (i hi : Z) :
  (Z.to_nat (hi - i + 1) <= fuel)%nat ->
  for_upto fuel i hi = seqZ i (hi - i + 1).
Proof.
  revert i. induction fuel as [|k IH]; intros i Hfuel; simpl.
  - rewrite seqZ_nil; [reflexivity | lia].
  - destruct (Z.leb_spec i hi) as [Hle | Hgt].
    + rewrite seqZ_cons by lia. f_equal.
      rewrite IH by lia. f_equal; lia.
    + rewrite seqZ_nil; [reflexivity | lia].
Qed.

Lemma range_seqZ (lo hi : Z) : range lo hi = seqZ lo (hi - lo + 1).
Proof. unfold range. apply for_upto_seqZ. lia. Qed.

(** More fuel than [range] provides changes nothing. *)
Lemma for_upto_fuel (fuel : nat) (lo hi : Z) :
  (Z.to_nat (hi - lo + 1) <= fuel)%nat -> for_upto fuel lo hi = range lo hi.
Proof. intros H. rewrite range_seqZ. now apply for_upto_seqZ. Qed.

Lemma length_range (lo hi : Z) : List.length (range lo hi) = Z.to_nat (hi - lo + 1).
Proof. rewrite range_seqZ. apply length_seqZ. Qed.

Lemma map_seqZ_shift (f : Z -> Z) (a n k : Z) :
  (forall d, f d = d + k) -> map f (seqZ a n) = seqZ (a + k) n.
Proof.
  intros Hf. remember (Z.to_nat n) as m eqn:Hm. revert a n Hm.
  induction m as [|m IH]; intros a n Hm.
  - rewrite !seqZ_nil by lia. reflexivity.
  - rewrite (seqZ_cons a), (seqZ_cons (a + k)) by lia. simpl.
    rewrite Hf. f_equal.
    rewrite (IH (Z.succ a) (Z.pred n)) by lia. f_equal. lia.
Qed.

End Ranges.

(** ** Windows and baselines (utils.js) *)

#[export] Instance utc_steady : Steady utc.
Proof. exists 0. split; reflexivity. Qed.

(** On a clock that never changes the day loops visit the midnights UTC of
    consecutive days, and the windows are the days around the event. *)
Section Windowing.

Context {tz : Zone} {steady_tz : Steady tz}.

Variable baselineMap : gmap Z Q.

Lemma addDays_steady (date days : Z) :
  Utils.addDays date days = date + days * msPerDay.
Proof.
  destruct steady_tz as (c & Hutc & Hlocal). unfold Utils.addDays. cbv zeta.
  rewrite Hutc, Hlocal.
  pose proof (Z.div_mod (date + c) msPerDay) as Hdm. unfold msPerDay in *. lia.
Qed.

Lemma for_each_day_steady (fuel : nat) (a n : Z) :
  (Z.to_nat n <= fuel)%nat ->
  map Utils.formatDate
      (Utils.for_each_day fuel (a * msPerDay) ((a + n - 1) * msPerDay))
  = seqZ a n.
Proof.
  revert a n. induction fuel as [| k IH]; intros a n Hfuel.
  - cbn. rewrite seqZ_nil by lia. reflexivity.
  - cbn [Utils.for_each_day].
    destruct (Z.leb_spec (a * msPerDay) ((a + n - 1) * msPerDay)) as [Hle | Hgt].
    + assert (Hn : 0 < n) by (unfold msPerDay in *; lia).
      rewrite addDays_steady.
      replace (a * msPerDay + 1 * msPerDay) with ((a + 1) * msPerDay) by lia.
      replace ((a + n - 1) * msPerDay) with ((a + 1 + (n - 1) - 1) * msPerDay)
        by (f_equal; lia).
      cbn [map]. rewrite IH by lia. rewrite (seqZ_cons a n) by lia. f_equal.
      unfold Utils.formatDate. apply Z.div_mul. discriminate.
    + rewrite seqZ_nil; [reflexivity | unfold msPerDay in *; lia].
Qed.

Lemma each_day_steady (a n : Z) :
  map Utils.formatDate (Utils.each_day (a * msPerDay) ((a + n - 1) * msPerDay))
  = seqZ a n.
Proof.
  unfold Utils.each_day. apply for_each_day_steady.
  replace ((a + n - 1) * msPerDay - a * msPerDay) with (24 * (n - 1) * msPerHour)
    by (unfold msPerDay, msPerHour; lia).
  rewrite Z.div_mul by discriminate. lia.
Qed.

Lemma getDateWindow_seqZ (eventDate r : Z) :
  Utils.getDateWindow eventDate r = seqZ (eventDate - r) (2 * r + 1).
Proof.
  unfold Utils.getDateWindow, Utils.parseDate. cbv zeta. rewrite !addDays_steady.
  replace (eventDate * msPerDay + - r * msPerDay) with ((eventDate - r) * msPerDay)
    by lia.
  replace (eventDate * msPerDay + r * msPerDay)
    with ((eventDate - r + (2 * r + 1) - 1) * msPerDay) by lia.
  apply each_day_steady.
Qed.

(** An absent date reads as [0]; a stored date reads as its value. *)
Lemma getADIZCount_absent (d : Z) :
  baselineMap !! d = None -> Utils.getADIZCount d baselineMap = 0%Q.
Proof. intros H. unfold Utils.getADIZCount. now rewrite H. Qed.

Lemma getADIZCount_default (d : Z) :
  (Utils.getADIZCount d baselineMap == default 0 (baselineMap !! d))%Q.
Proof.
  unfold Utils.getADIZCount. destruct (baselineMap !! d) as [c|]; simpl.
  - destruct (Qeq_bool c 0) eqn:E; [|reflexivity].
    apply Qeq_bool_eq in E. now symmetry.
  - reflexivity.
Qed.

Lemma getWindowData_offsets (eventDate r : Z) :
  map Utils.days_from_event (Utils.getWindowData eventDate r baselineMap)
  = seqZ (- r) (2 * r + 1).
Proof.
  unfold Utils.getWindowData. rewrite map_map. cbn [Utils.days_from_event].
  rewrite getDateWindow_seqZ.
  rewrite (map_seqZ_shift _ _ _ (- eventDate)).
  - f_equal. lia.
  - intros d. unfold Utils.daysDiff. lia.
Qed.

Lemma getWindowData_dates (eventDate r : Z) :
  map Utils.date (Utils.getWindowData eventDate r baselineMap)
  = seqZ (eventDate - r) (2 * r + 1).
Proof.
  unfold Utils.getWindowData. rewrite map_map. cbn [Utils.date].
  rewrite map_id. apply getDateWindow_seqZ.
Qed.

Lemma getWindowData_points (eventDate r : Z) :
  Forall (fun p =>
            Utils.date p = eventDate + Utils.days_from_event p
            /\ (Utils.adiz_count p == default 0 (baselineMap !! Utils.date p))%Q
            /\ (baselineMap !! Utils.date p = None -> Utils.adiz_count p = 0%Q))
         (Utils.getWindowData eventDate r baselineMap).
Proof.
  unfold Utils.getWindowData. apply Forall_forall. intros p Hp.
  apply list_elem_of_In, in_map_iff in Hp. destruct Hp as (d & <- & _). simpl.
  split; [unfold Utils.daysDiff; lia |].
  split; [apply getADIZCount_default | apply getADIZCount_absent].
Qed.

(** On a clock that never changes, for every anchor date and every radius
    [r >= 0], [getWindowData] returns exactly [2r + 1] points; their offsets
    are the consecutive integers [-r, ..., r]; every point sits on the
    calendar day [anchor + offset] and carries the index value of that day,
    or [0] when the index has no entry for it. *)
Lemma getWindowData_steady_dense (anchor r : Z) :
  0 <= r ->
  let w := Utils.getWindowData anchor r baselineMap in
  Z.of_nat (List.length w) = 2 * r + 1
  /\ map Utils.days_from_event w = seqZ (- r) (2 * r + 1)
  /\ Forall (fun p =>
               Utils.date p = anchor + Utils.days_from_event p
               /\ (Utils.adiz_count p == default 0 (baselineMap !! Utils.date p))%Q
               /\ (baselineMap !! Utils.date p = None -> Utils.adiz_count p = 0%Q))
            w.
Proof.
  intros Hr w. subst w. split; [| split].
  - rewrite <- (length_map Utils.days_from_event), getWindowData_offsets.
    rewrite length_seqZ. lia.
  - apply getWindowData_offsets.
  - apply getWindowData_points.
Qed.

Lemma getBaselineStats_values (eventDate n : Z) :
  Utils.getBaselineStats eventDate n baselineMap
  = {| Utils.mean_ := Utils.mean (Spec.baselineValues baselineMap eventDate n);
       Utils.stdDev_ := Utils.stdDev (Spec.baselineValues baselineMap eventDate n);
       Utils.max_ := Utils.max (Spec.baselineValues baselineMap eventDate n);
       Utils.min_ := Utils.min (Spec.baselineValues baselineMap eventDate n);
       Utils.count := Z.of_nat (List.length (Spec.baselineValues baselineMap eventDate n)) |}.
Proof.
  unfold Utils.getBaselineStats, Spec.baselineValues, Utils.parseDate. cbv zeta.
  rewrite !addDays_steady.
  replace (eventDate * msPerDay + -1 * msPerDay + - n * msPerDay)
    with ((eventDate - 1 - n) * msPerDay) by lia.
  replace (eventDate * msPerDay + -1 * msPerDay)
    with ((eventDate - 1 - n + (n + 1) - 1) * msPerDay) by lia.
  rewrite <- (map_map Utils.formatDate (fun d => Utils.getADIZCount d baselineMap)).
  rewrite each_day_steady. reflexivity.
Qed.

(** The lookback loop is inclusive at both ends: it visits the [n + 1] days
    from [anchor - 1 - n] to [anchor - 1]. *)
Lemma getBaselineStats_count (eventDate n : Z) :
  0 <= n -> Utils.count (Utils.getBaselineStats eventDate n baselineMap) = n + 1.
Proof.
  intros Hn. rewrite getBaselineStats_values. cbn [Utils.count].
  unfold Spec.baselineValues. rewrite length_map, length_seqZ. lia.
Qed.

(** The day of the event is not among the days of its baseline, the day
    before it is the last of them. *)
Lemma baseline_days_before_event (eventDate n d : Z) :
  d ∈ seqZ (eventDate - 1 - n) (n + 1) <-> eventDate - 1 - n <= d <= eventDate - 1.
Proof. rewrite elem_of_seqZ. lia. Qed.

End Windowing.

(** ** The lookback and the window on concrete clocks *)

Section Clocks.

(* The clock of this section is at UTC. *)
#[local] Existing Instance utc.

(** C5 (the code departs from it): [getWindowData] steps through the
    days with [setDate] on the local clock and names them with
    [toISOString] at UTC.  On a clock that never changes this gives the
    [2r + 1] days from [anchor - r] to [anchor + r], offsets [-r .. r], each
    with the index value of its day or [0], as claimed.  On the clock of New
    York, whose day of 2024-03-10 has 23 hours, the window of radius 7
    around 2024-03-05 holds 2024-03-10 twice and ends on 2024-03-11: its
    offsets are [-7 .. 5, 5, 6], not strictly increasing and without [7];
    more rounds of the loop change nothing.  Around 2024-11-10, after the day
    of 25 hours, the window of radius 14 starts at offset [-15] and has no
    point at offset [-7]. *)
Theorem getWindowData_repeats_a_day :
  (forall (tz : Zone) (baselineMap : gmap Z Q) (anchor r : Z),
      Steady tz -> 0 <= r ->
      let w := @Utils.getWindowData tz anchor r baselineMap in
      Z.of_nat (List.length w) = 2 * r + 1
      /\ map Utils.days_from_event w = seqZ (- r) (2 * r + 1)
      /\ Forall (fun p =>
                   Utils.date p = anchor + Utils.days_from_event p
                   /\ (Utils.adiz_count p == default 0 (baselineMap !! Utils.date p))%Q
                   /\ (baselineMap !! Utils.date p = None -> Utils.adiz_count p = 0%Q))
                w)
  /\ Steady utc
  /\ (forall baselineMap : gmap Z Q,
         map Utils.days_from_event (@Utils.getWindowData new_york 19787 7 baselineMap)
         = [-7; -6; -5; -4; -3; -2; -1; 0; 1; 2; 3; 4; 5; 5; 6]
         /\ map Utils.date (@Utils.getWindowData new_york 19787 7 baselineMap)
            = [19780; 19781; 19782; 19783; 19784; 19785; 19786; 19787; 19788; 19789;
               19790; 19791; 19792; 19792; 19793]
         /\ map Utils.days_from_event (@Utils.getWindowData utc 19787 7 baselineMap)
            = [-7; -6; -5; -4; -3; -2; -1; 0; 1; 2; 3; 4; 5; 6; 7])
  /\ (forall extra : nat,
         map Utils.formatDate
             (@Utils.for_each_day new_york (15 + extra)
                (@Utils.addDays new_york (Utils.parseDate 19787) (-7))
                (@Utils.addDays new_york (Utils.parseDate 19787) 7))
         = [19780; 19781; 19782; 19783; 19784; 19785; 19786; 19787; 19788; 19789;
            19790; 19791; 19792; 19792; 19793])
  /\ (forall baselineMap : gmap Z Q,
         map Utils.days_from_event (@Utils.getWindowData new_york 20037 14 baselineMap)
         = [-15; -14; -13; -12; -11; -10; -9; -8; -6; -5; -4; -3; -2; -1; 0; 1; 2; 3;
            4; 5; 6; 7; 8; 9; 10; 11; 12; 13; 14]).
Proof.
  split; [intros tz baselineMap anchor r Hsteady Hr;
          exact (@getWindowData_steady_dense tz Hsteady baselineMap anchor r Hr) |].
  split; [exact utc_steady |].
  split; [intros baselineMap; unfold Utils.getWindowData; rewrite !map_map;
          cbn [Utils.days_from_event Utils.date];
          repeat split; vm_compute; reflexivity |].
  split; [intros [| extra]; vm_compute; reflexivity |].
  intros baselineMap. unfold Utils.getWindowData. rewrite map_map.
  cbn [Utils.days_from_event]. vm_compute. reflexivity.
Qed.

(** C4 (the code departs from it): a lookback of [n = 30] days yields 31
    samples, whatever the anchor and however sparse the index, because the
    loop runs from [anchor - 1 - n] to [anchor - 1] with both ends included.
    The day of the event is left out and absent days count as [0], as
    claimed; the sample count is [n + 1], not [n]. *)
Theorem getBaselineStats_thirty_days_counts_31 :
  forall (anchor : Z) (baselineMap : gmap Z Q),
    Utils.count (Utils.getBaselineStats anchor 30 baselineMap) = 31
    /\ Utils.count (Utils.getBaselineStats 19797 30 ∅) = 30 + 1
    /\ (Utils.mean_ (Utils.getBaselineStats 19797 30 ∅) == 0)%Q.
Proof.
  intros anchor baselineMap. split; [| split].
  - rewrite getBaselineStats_count; lia.
  - rewrite getBaselineStats_count; lia.
  - vm_compute. reflexivity.
Qed.

End Clocks.

(** ** Rational arithmetic of the model *)

Section Numbers.

Lemma Qlt_bool_iff (a b : Q) : Qlt_bool a b = true <-> (a < b)%Q.
Proof.
  unfold Qlt_bool. rewrite negb_true_iff, <- not_true_iff_false, Qle_bool_iff.
  split; [apply Qnot_le_lt | apply Qlt_not_le].
Qed.

Lemma Qlt_bool_false (a b : Q) : Qlt_bool a b = false <-> (b <= a)%Q.
Proof.
  unfold Qlt_bool. rewrite negb_false_iff. apply Qle_bool_iff.
Qed.

Lemma Qle_bool_false (a b : Q) : Qle_bool a b = false <-> (b < a)%Q.
Proof.
  rewrite <- not_true_iff_false, Qle_bool_iff.
  split; [apply Qnot_le_lt | apply Qlt_not_le].
Qed.

Lemma js_div_pos (a b : Q) : (0 < b)%Q -> js_div a b = Fin (a / b).
Proof.
  intros Hb. unfold js_div. destruct (Qeq_bool b 0) eqn:E; [| reflexivity].
  apply Qeq_bool_eq in E. rewrite E in Hb. exfalso. lra.
Qed.

End Numbers.

(** ** The weighted combination (preplannedReactive.js) *)

Section Classification.

Context {tz : Zone}.

Import PreplannedReactive Spec.

Lemma calculateClassification_unfold (signals : Signals) :
  calculateClassification signals
  = let w := select_weights signals in
    let acc := accumulate signals w in
    let r := js_div (fst acc) (snd acc) in
    {| verdict := fst (decide_verdict r);
       confidence := snd (decide_verdict r);
       reactiveScore := r;
       prePlannedScore := num_rsub 1 r;
       weights := w |}.
Proof.
  unfold calculateClassification.
  destruct (accumulate signals (select_weights signals)) as [ts tw]. simpl.
  destruct (decide_verdict (js_div ts tw)). reflexivity.
Qed.


Lemma select_weights_cases (signals : Signals) :
  let pat := pattern_ (pattern signals) in
  let cmp := comparison (magnitude signals) in
  (pat = "sharp_spike_rapid_decay"%string
   /\ select_weights signals = mkWeights 0.30 0.20 0.25 0.05 0.20)
  \/ (pat <> "sharp_spike_rapid_decay"%string
      /\ (cmp = "much_larger_immediate"%string \/ cmp = "large_near_immediate"%string)
      /\ select_weights signals = mkWeights 0.30 0.20 0.30 0.10 0.10)
  \/ (pat <> "sharp_spike_rapid_decay"%string
      /\ cmp <> "much_larger_immediate"%string
      /\ cmp <> "large_near_immediate"%string
      /\ select_weights signals = mkWeights 0.35 0.25 0.20 0.10 0.10).
Proof.
  intros pat cmp. unfold select_weights. fold pat. fold cmp.
  destruct (String.eqb_spec pat "sharp_spike_rapid_decay") as [Hp | Hp].
  - left. split; [assumption | reflexivity].
  - right. destruct (String.eqb_spec cmp "much_larger_immediate") as [Hc | Hc].
    + left. split; [assumption |]. split; [now left | reflexivity].
    + destruct (String.eqb_spec cmp "large_near_immediate") as [Hd | Hd].
      * left. split; [assumption |]. split; [now right | reflexivity].
      * right. repeat split; assumption.
Qed.



End Classification.

(** ** The five signals stay in the unit interval *)

Section Signals.

Context {tz : Zone}.

Import DataConnector PreplannedReactive Spec.

Ltac split_ifs :=
  repeat match goal with
         | |- context [if ?b then _ else _] => destruct b
         end.

Ltac unit_interval := cbn; try exact I; split; lra.

Lemma analyzeTemporalProximity_score (windowData : list Utils.WindowPoint) :
  exists q, t_reactiveScore (analyzeTemporalProximity windowData) = Some q
            /\ (0 <= q <= 1)%Q.
Proof.
  unfold analyzeTemporalProximity.
  destruct (Utils.getTimeToPeak windowData); split_ifs;
    eexists; (split; [reflexivity | split; lra]).
Qed.

Lemma analyzePreEventBuildup_score windowData baselineStats :
  score_ok (b_reactiveScore (analyzePreEventBuildup windowData baselineStats)).
Proof. unfold analyzePreEventBuildup. split_ifs; unit_interval. Qed.

Lemma analyzeMagnitude_score st baselineMap event windowData baselineStats temporalDays :
  score_ok (m_reactiveScore
              (analyzeMagnitude st baselineMap event windowData baselineStats
                                temporalDays)).
Proof. unfold analyzeMagnitude. split_ifs; unit_interval. Qed.

Lemma classifyText_score (combinedText : string) :
  (0 <= fst (classifyText combinedText) <= 1)%Q.
Proof. unfold classifyText. split_ifs; cbn; split; lra. Qed.

Lemma checkHardcodedSymbolicDates_score (eventDate : Z) :
  score_ok (s_reactiveScore (checkHardcodedSymbolicDates eventDate)).
Proof.
  unfold checkHardcodedSymbolicDates.
  destruct (List.find _ SYMBOLIC_DATES); unit_interval.
Qed.

Lemma analyzeSymbolicTiming_score st eventDate :
  score_ok (s_reactiveScore (analyzeSymbolicTiming st eventDate)).
Proof.
  unfold analyzeSymbolicTiming.
  destruct (getEvents st (category_filter "political")) as [| pe0 rest].
  - apply checkHardcodedSymbolicDates_score.
  - destruct (sort_by _ _) as [| closest sorted]; [unit_interval |].
    match goal with
    | |- context [classifyText ?t] =>
        pose proof (classifyText_score t) as H; destruct (classifyText t) as [score class]
    end.
    cbn in *. exact H.
Qed.

Lemma analyzePattern_score windowData :
  score_ok (p_reactiveScore (analyzePattern windowData)).
Proof. unfold analyzePattern. split_ifs; unit_interval. Qed.

End Signals.

(** ** The connector's states (dataConnector.js) *)

Section Connector.

Import DataSchema DataConnector Spec.

Lemma validation_errors_grow (data : DATA) (names : list string) (errs : list string) :
  (List.length errs
   <= List.length
        (foldl (fun errs dataset =>
                  match collections data !! dataset with
                  | Some v =>
                      if isArray v then errs
                      else errs ++ [(dataset ++ " must be an array")%string]
                  | None => errs
                  end) errs names))%nat.
Proof.
  revert errs. induction names as [| n names IH]; intros errs; simpl; [lia |].
  etransitivity; [| apply IH].
  destruct (collections data !! n) as [v |]; [| lia].
  destruct (isArray v); [lia |]. rewrite length_app. simpl. lia.
Qed.

(** A validation that passes has found the baseline array. *)
Lemma validate_ok (D : option DATA) :
  ok (validate D) = true ->
  exists data entries, D = Some data /\ adiz_baseline data = Some (Arr entries).
Proof.
  destruct D as [data |]; [| discriminate]. intros Hok.
  destruct (adiz_baseline data) as [[| entries] |] eqn:Hb.
  - exfalso. unfold validate in Hok. rewrite Hb in Hok. cbn [ok] in Hok.
    apply Nat.eqb_eq in Hok.
    pose proof (validation_errors_grow data (map fst events)
                  ["Missing or invalid adiz_baseline array"%string]) as Hlen.
    rewrite Hok in Hlen. simpl in Hlen. lia.
  - eauto.
  - exfalso. unfold validate in Hok. rewrite Hb in Hok. cbn [ok] in Hok.
    apply Nat.eqb_eq in Hok.
    pose proof (validation_errors_grow data (map fst events)
                  ["Missing or invalid adiz_baseline array"%string]) as Hlen.
    rewrite Hok in Hlen. simpl in Hlen. lia.
Qed.

Lemma omap_id_Some {A} (l : list A) : omap id (map Some l) = l.
Proof. induction l as [| x xs IH]; cbn; [reflexivity | now rewrite IH]. Qed.

Lemma records_all_records {A} (s : Slot A) : records (all_records s) = s.
Proof. destruct s as [| l]; cbn; [reflexivity | now rewrite omap_id_Some]. Qed.

Lemma holds_null_all_records {A} (s : Slot A) : holds_null (all_records s) = false.
Proof.
  destruct s as [| l]; cbn; [reflexivity |].
  induction l as [| x xs IH]; cbn; [reflexivity | exact IH].
Qed.

(** A payload made of records has the shape of its [DATA]. *)
Lemma shape_payload (data : DATA) : shape (payload data) = data.
Proof.
  destruct data as [b cs]. unfold shape, payload. cbn. f_equal.
  - destruct b as [s |]; cbn; [now rewrite records_all_records | reflexivity].
  - apply map_eq. intros name. rewrite !lookup_fmap.
    destruct (cs !! name) as [s |]; cbn; [now rewrite records_all_records | reflexivity].
Qed.

(** A load of well-formed [DATA] either throws and leaves the state alone,
    or replaces the data, the baseline map and the event index together. *)
Lemma loadFromObject_cases (st : State) (D : option DATA) :
  (exists message, loadFromObject st (payload <$> D) = (Throw message, st))
  \/ (exists data entries report,
        D = Some data
        /\ adiz_baseline data = Some (Arr entries)
        /\ loadFromObject st (payload <$> D)
           = (Ok report,
              {| currentData := Some (payload data);
                 baselineMap := Some (Utils.createBaselineMap entries);
                 eventIndex := Some (buildEventIndex data) |})).
Proof.
  unfold loadFromObject.
  assert (Hshape : shape <$> (payload <$> D) = D)
    by (destruct D as [data |]; cbn; [now rewrite shape_payload | reflexivity]).
  rewrite Hshape. destruct (ok (validate D)) eqn:Hok; cbn [negb].
  - right. destruct (validate_ok D Hok) as (data & entries & -> & Hb).
    cbn [fmap option_fmap option_map payload p_baseline p_collections].
    rewrite Hb. cbn [fmap option_fmap option_map all_records].
    change (Arr (map Some entries)) with (all_records (Arr entries)).
    rewrite holds_null_all_records, !omap_id_Some.
    assert (Hnone : existsb (fun dataset_name =>
                               match (all_records <$> collections data) !! dataset_name with
                               | Some ds => holds_null ds
                               | None => false
                               end) (map fst events) = false).
    { apply not_true_iff_false. intros Hex. apply existsb_exists in Hex.
      destruct Hex as (name & _ & Hname). rewrite lookup_fmap in Hname.
      destruct (collections data !! name) as [s0 |]; cbn in Hname; [| discriminate].
      rewrite holds_null_all_records in Hname. discriminate. }
    rewrite Hnone, shape_payload. eauto 6.
  - left. eauto.
Qed.

Lemma Forall_insert_by_date (P : Z -> Prop) (x : Event) (l : list Event) :
  P (date x) -> Forall P (map date l) -> Forall P (map date (insert_by_date x l)).
Proof.
  intros Hx. induction l as [| y ys IH]; simpl; intros Hl.
  - constructor; [assumption | constructor].
  - inversion Hl; subst. destruct (date y <? date x); simpl.
    + constructor; [assumption | now apply IH].
    + constructor; [assumption |]. constructor; assumption.
Qed.

Lemma insert_by_date_ascending (x : Event) (l : list Event) :
  ascending l -> ascending (insert_by_date x l).
Proof.
  unfold ascending. induction l as [| y ys IH]; simpl; intros Hl.
  - constructor; constructor.
  - inversion Hl as [| ? ? Hys Hall]; subst.
    destruct (Z.ltb_spec (date y) (date x)) as [Hlt | Hge]; simpl.
    + constructor; [now apply IH |].
      apply Forall_insert_by_date; [lia | assumption].
    + constructor; [assumption |]. constructor; [assumption |].
      eapply Forall_impl; [exact Hall |]. simpl. intros. lia.
Qed.

Lemma sort_by_date_ascending (l : list Event) : ascending (sort_by_date l).
Proof.
  unfold sort_by_date. induction l as [| x xs IH]; simpl.
  - constructor.
  - now apply insert_by_date_ascending.
Qed.

Lemma filter_ascending (p : Event -> bool) (l : list Event) :
  ascending l -> ascending (List.filter p l).
Proof.
  unfold ascending. induction l as [| x xs IH]; simpl; intros Hl; [constructor |].
  inversion Hl as [| ? ? Hxs Hall]; subst.
  destruct (p x); simpl; [| now apply IH].
  constructor; [now apply IH |].
  apply Forall_forall. intros d Hd.
  apply list_elem_of_In, in_map_iff in Hd. destruct Hd as (e & <- & He).
  apply filter_In in He. destruct He as [He _].
  rewrite Forall_forall in Hall. apply Hall.
  apply list_elem_of_In, in_map_iff. eauto.
Qed.

(** Every query answers in the order of the index. *)
Lemma getEvents_ascending (st : State) (filters : Filters) (index : list Event) :
  eventIndex st = Some index -> ascending index -> ascending (getEvents st filters).
Proof.
  intros Hidx Hasc. unfold getEvents. rewrite Hidx.
  repeat match goal with
         | |- ascending (match ?o with _ => _ end) => destruct o
         | |- ascending (if ?b then _ else _) => destruct b
         | |- ascending (List.filter _ _) => apply filter_ascending
         end; assumption.
Qed.

Lemma In_insert_by_date (e x : Event) (l : list Event) :
  In e (insert_by_date x l) <-> e = x \/ In e l.
Proof.
  induction l as [| y ys IH]; simpl; [intuition congruence |].
  destruct (date y <? date x); simpl; rewrite ?IH; intuition congruence.
Qed.

Lemma In_sort_by_date (e : Event) (l : list Event) :
  In e (sort_by_date l) <-> In e l.
Proof.
  unfold sort_by_date. induction l as [| x xs IH]; simpl; [tauto |].
  rewrite In_insert_by_date, IH. intuition congruence.
Qed.

(** The categories of the index are those of the schema table. *)
Lemma buildEventIndex_category (data : DATA) (e : Event) :
  In e (buildEventIndex data) ->
  In (category e) ["arms"; "diplomatic"; "bills"; "ships"; "political"]%string.
Proof.
  unfold buildEventIndex. rewrite In_sort_by_date, in_flat_map.
  intros (name & Hname & He).
  destruct (collections data !! name) as [[| ds] |]; try contradiction.
  apply in_flat_map in He. destruct He as (raw & _ & He).
  unfold normalize_into, normalizeEvent in He.
  cbn in Hname.
  destruct Hname as [<- | [<- | [<- | [<- | [<- | []]]]]]; cbn in He;
    match type of He with
    | context [match ?o with Some _ => _ | None => _ end] => destruct o
    end; try contradiction;
    destruct He as [<- | []]; cbn; tauto.
Qed.

Lemma reachable_index_category (st : State) (index : list Event) (e : Event) :
  reachable st -> eventIndex st = Some index -> In e index ->
  category e <> EmptyString /\ category e <> "all"%string.
Proof.
  intros Hreach. revert index. induction Hreach as [| st D Hreach IH];
    [discriminate |].
  intros index.
  destruct (loadFromObject_cases st D)
    as [[message ->] | (data & entries & report & -> & Hb & ->)]; cbn [snd].
  - apply IH.
  - cbn. intros [= <-] Hin. apply buildEventIndex_category in Hin. cbn in Hin.
    destruct Hin as [<- | [<- | [<- | [<- | [<- | []]]]]]; split; discriminate.
Qed.

(** Once loaded, a reachable state has its baseline map and an event index
    in ascending date order. *)
Lemma reachable_loaded (st : State) :
  reachable st -> isLoaded st = true ->
  exists bm index,
    baselineMap st = Some bm /\ eventIndex st = Some index /\ ascending index.
Proof.
  induction 1 as [| st D Hreach IH]; [discriminate |].
  destruct (loadFromObject_cases st D)
    as [[message ->] | (data & entries & report & -> & Hb & ->)]; cbn [snd].
  - exact IH.
  - intros _. eexists _, _. cbn.
    split; [reflexivity |]. split; [reflexivity |]. apply sort_by_date_ascending.
Qed.

(** The state after the first load of well-formed [DATA]. *)
Lemma reachable_loading (data : DATA) :
  reachable (snd (loadFromObject initial (Some (payload data)))).
Proof. exact (reach_load initial (Some data) reach_initial). Qed.

End Connector.

(** ** Score range and verdict (preplannedReactive.js) *)

Section Verdict.

Context {tz : Zone}.

Import DataConnector PreplannedReactive Spec.

(** What [classify] returns once the data is there. *)
Lemma classify_loaded (st : State) (current : option Analysis) (event : Event)
    (options : Options) (bm : gmap Z Q) :
  isLoaded st = true -> baselineMap st = Some bm ->
  exists a,
    classify st current event options = (Ok a, Some a)
    /\ a_event a = event
    /\ a_windowData a
       = Utils.getWindowData (date event) (num_or (windowSize options) 21) bm
    /\ temporal (a_signals a) = analyzeTemporalProximity (a_windowData a)
    /\ buildup (a_signals a)
       = analyzePreEventBuildup (a_windowData a) (a_baselineStats a)
    /\ magnitude (a_signals a)
       = analyzeMagnitude st bm event (a_windowData a) (a_baselineStats a) None
    /\ symbolic (a_signals a) = analyzeSymbolicTiming st (date event)
    /\ pattern (a_signals a) = analyzePattern (a_windowData a)
    /\ a_classification a = calculateClassification (a_signals a).
Proof.
  intros Hloaded Hbm. unfold classify. rewrite Hloaded, Hbm. cbn [negb].
  eexists. split; [reflexivity |]. cbn. repeat split.
Qed.

Lemma decide_verdict_thresholds (q : Q) :
  let v := fst (decide_verdict (Fin q)) in
  let c := snd (decide_verdict (Fin q)) in
  (v = "reactive"%string <-> (0.65 <= q)%Q)
  /\ (v = "pre-planned"%string <-> (q <= 0.35)%Q)
  /\ (v = "mixed"%string <-> (0.35 < q < 0.65)%Q)
  /\ ((0.65 <= q)%Q ->
      (c = "high"%string <-> (0.8 <= q)%Q) /\ (c = "medium"%string <-> (q < 0.8)%Q))
  /\ ((q <= 0.35)%Q ->
      (c = "high"%string <-> (q <= 0.2)%Q) /\ (c = "medium"%string <-> (0.2 < q)%Q))
  /\ ((0.35 < q < 0.65)%Q -> c = "low"%string).
Proof.
  unfold decide_verdict, num_ge, num_le.
  destruct (Qle_bool 0.65 q) eqn:E1; [apply Qle_bool_iff in E1 | apply Qle_bool_false in E1];
    [destruct (Qle_bool 0.8 q) eqn:E2;
       [apply Qle_bool_iff in E2 | apply Qle_bool_false in E2]
    | destruct (Qle_bool q 0.35) eqn:E3;
       [apply Qle_bool_iff in E3 | apply Qle_bool_false in E3];
       [destruct (Qle_bool q 0.2) eqn:E4;
          [apply Qle_bool_iff in E4 | apply Qle_bool_false in E4] |]];
    cbn [fst snd];
    repeat split; intros; try discriminate; try reflexivity; try lra.
Qed.

Lemma calculateClassification_bounded (signals : Signals) :
  (exists q, t_reactiveScore (temporal signals) = Some q /\ (0 <= q <= 1)%Q) ->
  score_ok (b_reactiveScore (buildup signals)) ->
  score_ok (m_reactiveScore (magnitude signals)) ->
  score_ok (s_reactiveScore (symbolic signals)) ->
  score_ok (p_reactiveScore (pattern signals)) ->
  exists q, reactiveScore (calculateClassification signals) = Fin q /\ (0 <= q <= 1)%Q.
Proof.
  intros (qt & Ht & Hqt) Hb Hm Hs Hp.
  rewrite calculateClassification_unfold. cbn [reactiveScore].
  assert (Hw : select_weights signals = spike_weights
               \/ select_weights signals = compound_weights
               \/ select_weights signals = base_weights).
  { unfold select_weights.
    destruct (String.eqb _ _); [now left |].
    destruct (_ || _); [right; now left | right; now right]. }
  unfold accumulate, keys.
  destruct signals as [[? ? ts] [? ? ? ? bs] [? ? ? ? ? ms] [? ? ? ? ? ss] [? ? ? ? ps]].
  cbn [temporal buildup magnitude symbolic pattern t_reactiveScore
       b_reactiveScore m_reactiveScore s_reactiveScore p_reactiveScore] in *.
  subst ts.
  destruct Hw as [-> | [-> | ->]];
    unfold spike_weights, compound_weights, base_weights;
    destruct bs as [qb |], ms as [qm |], ss as [qs |], ps as [qp |];
    cbn [foldl fst snd score_of weight_of
         temporal buildup magnitude symbolic pattern t_reactiveScore
         b_reactiveScore m_reactiveScore s_reactiveScore p_reactiveScore
         w_temporal w_buildup w_magnitude w_symbolic w_pattern score_ok] in *;
    (rewrite js_div_pos by lra);
    (eexists; split; [reflexivity |]);
    (split; [apply Qle_shift_div_l | apply Qle_shift_div_r]; lra).
Qed.

(** C2: on loaded data every [classify] call returns a classification whose
    score is a number of [[0, 1]]; the verdict is ['reactive'] exactly when
    the score is at least 0.65, ['pre-planned'] exactly when it is at most
    0.35 and ['mixed'] exactly in between; the confidence is ['high'] from
    0.8 up and ['medium'] below for a reactive verdict, ['high'] down from
    0.2 and ['medium'] above for a pre-planned one, and ['low'] for a mixed
    one. *)
Theorem classify_score_and_verdict (st : State) (current : option Analysis)
    (event : Event) (options : Options) :
  reachable st -> isLoaded st = true ->
  exists a q,
    classify st current event options = (Ok a, Some a)
    /\ reactiveScore (a_classification a) = Fin q
    /\ (0 <= q <= 1)%Q
    /\ (verdict (a_classification a) = "reactive"%string <-> (0.65 <= q)%Q)
    /\ (verdict (a_classification a) = "pre-planned"%string <-> (q <= 0.35)%Q)
    /\ (verdict (a_classification a) = "mixed"%string <-> (0.35 < q < 0.65)%Q)
    /\ ((0.65 <= q)%Q ->
        (confidence (a_classification a) = "high"%string <-> (0.8 <= q)%Q)
        /\ (confidence (a_classification a) = "medium"%string <-> (q < 0.8)%Q))
    /\ ((q <= 0.35)%Q ->
        (confidence (a_classification a) = "high"%string <-> (q <= 0.2)%Q)
        /\ (confidence (a_classification a) = "medium"%string <-> (0.2 < q)%Q))
    /\ ((0.35 < q < 0.65)%Q -> confidence (a_classification a) = "low"%string).
Proof.
  intros Hreach Hloaded.
  destruct (reachable_loaded st Hreach Hloaded) as (bm & index & Hbm & _ & _).
  destruct (classify_loaded st current event options bm Hloaded Hbm)
    as (a & Hcall & _ & _ & Ht & Hb & Hm & Hs & Hp & Hc).
  destruct (calculateClassification_bounded (a_signals a)) as (q & Hq & Hrange).
  - rewrite Ht. apply analyzeTemporalProximity_score.
  - rewrite Hb. apply analyzePreEventBuildup_score.
  - rewrite Hm. apply analyzeMagnitude_score.
  - rewrite Hs. apply analyzeSymbolicTiming_score.
  - rewrite Hp. apply analyzePattern_score.
  - exists a, q. rewrite Hc. split; [exact Hcall |]. split; [exact Hq |].
    split; [exact Hrange |].
    rewrite calculateClassification_unfold in Hq |- *.
    cbn [reactiveScore verdict confidence] in Hq |- *. rewrite Hq.
    apply decide_verdict_thresholds.
Qed.

End Verdict.

(** ** The magnitude signal of a typical response *)

Section TypicalMagnitude.

(* The clock of this section is at UTC. *)
#[local] Existing Instance utc.

Import DataConnector PreplannedReactive Spec.

(** The ['typical'] branch is the only one that leaves the score unset. *)
Lemma analyzeMagnitude_typical st baselineMap event windowData baselineStats temporalDays :
  comparison (analyzeMagnitude st baselineMap event windowData baselineStats
                               temporalDays) = "typical"%string
  <-> m_reactiveScore (analyzeMagnitude st baselineMap event windowData baselineStats
                                        temporalDays) = None.
Proof.
  unfold analyzeMagnitude.
  repeat match goal with
         | |- context [if ?b then _ else _] => destruct b
         end; cbn; split; intros H; try discriminate; reflexivity.
Qed.

(** C3 (the code departs from it): three arms sales over a flat series of
    ten aircraft a day, the sale of 2024-03-15 classified.  The magnitude
    ratio is 1, no compound rule fires and the comparison is ['typical'],
    yet the score of the magnitude signal is [undefined] rather than 0.5,
    and the signal is left out of the combination: the weights that enter
    add up to 0.80, the base vector without the 0.20 of magnitude. *)
Theorem typical_magnitude_is_dropped :
  comparison ∘ magnitude ∘ a_signals <$> Examples.classified Examples.flat_state
                                           Examples.sale_2024_03_15
  = Some "typical"%string
  /\ ratio ∘ magnitude ∘ a_signals <$> Examples.classified Examples.flat_state
                                         Examples.sale_2024_03_15
     = Some (Some (Fin (30 # 30)))
  /\ m_reactiveScore ∘ magnitude ∘ a_signals
       <$> Examples.classified Examples.flat_state Examples.sale_2024_03_15
     = Some None
  /\ defined_keys ∘ a_signals
       <$> Examples.classified Examples.flat_state Examples.sale_2024_03_15
     = Some [k_temporal; k_buildup; k_symbolic; k_pattern]
  /\ weights ∘ a_classification
       <$> Examples.classified Examples.flat_state Examples.sale_2024_03_15
     = Some base_weights
  /\ (fun a => Qred (snd (accumulate (a_signals a) (weights (a_classification a)))))
       <$> Examples.classified Examples.flat_state Examples.sale_2024_03_15
     = Some (4 # 5).
Proof. repeat split; vm_compute; reflexivity. Qed.

End TypicalMagnitude.

(** ** The fallback table of symbolic dates *)

Section SymbolicDates.

(* The clock of this section is at UTC. *)
#[local] Existing Instance utc.

Import DataConnector PreplannedReactive Spec.

(** Whatever the month and the day, the distance test of the first or of
    the second table entry succeeds: a distance below 98 from 10-10 puts
    [month * 100 + day] above 912, at least 98 away from 01-01. *)
Lemma checkHardcodedSymbolicDates_always (eventDate : Z) :
  isSymbolic (checkHardcodedSymbolicDates eventDate) = true
  /\ s_reactiveScore (checkHardcodedSymbolicDates eventDate) = Some 0.3%Q.
Proof.
  unfold checkHardcodedSymbolicDates, SYMBOLIC_DATES. cbv zeta.
  set (md := Utils.getMonth1 (Utils.localDay (Utils.parseDate eventDate)) * 100
             + Utils.getDate (Utils.localDay (Utils.parseDate eventDate))).
  cbn [List.find month day].
  destruct ((Z.abs (md - (10 * 100 + 10)) <=? 2) || (98 <=? Z.abs (md - (10 * 100 + 10))))
    eqn:E1; [split; reflexivity |].
  destruct ((Z.abs (md - (1 * 100 + 1)) <=? 2) || (98 <=? Z.abs (md - (1 * 100 + 1))))
    eqn:E2; [split; reflexivity |].
  exfalso. apply orb_false_iff in E1, E2. lia.
Qed.

(** C6 (the code departs from it): with no political event in the catalog
    the fallback reports a symbolic match with score 0.3 for every date,
    also for 2024-03-15, which is not within two days of any of the six
    symbolic dates: a distance of 98 or more, meant for the turn of the
    year, is taken for a match. *)
Theorem symbolic_fallback_matches_every_date :
  (forall eventDate : Z,
      isSymbolic (checkHardcodedSymbolicDates eventDate) = true
      /\ s_reactiveScore (checkHardcodedSymbolicDates eventDate) = Some 0.3%Q)
  /\ getEvents Examples.flat_state (category_filter "political") = []
  /\ near_symbolic_date 19797 = false
  /\ isSymbolic (analyzeSymbolicTiming Examples.flat_state 19797) = true
  /\ symbolicDate (analyzeSymbolicTiming Examples.flat_state 19797)
     = Some "Double Ten Day (ROC National Day)"%string
  /\ s_reactiveScore (analyzeSymbolicTiming Examples.flat_state 19797) = Some 0.3%Q.
Proof.
  split; [exact checkHardcodedSymbolicDates_always |].
  repeat split; vm_compute; reflexivity.
Qed.

End SymbolicDates.

(** ** The comparison set of the magnitude signal *)

Section Magnitude.

Context {tz : Zone}.

Import DataConnector PreplannedReactive Spec.

Lemma getEvents_category (st : State) (c : string) (index : list Event) :
  eventIndex st = Some index -> c <> EmptyString -> c <> "all"%string ->
  getEvents st (category_filter c)
  = List.filter (fun e => String.eqb (category e) c) index.
Proof.
  intros Hidx Hne Hall. unfold getEvents, category_filter. rewrite Hidx.
  cbn [f_category f_startDate f_endDate f_year f_dataset f_customFilter].
  unfold truthy.
  destruct (String.eqb_spec c EmptyString) as [-> | _]; [contradiction |].
  destruct (String.eqb_spec c "all") as [-> | _]; [contradiction |].
  reflexivity.
Qed.

Lemma slice_0_20 {A} (l : list A) : slice 0 20 l = take 20 l.
Proof. reflexivity. Qed.

Lemma reachable_index_ascending (st : State) (index : list Event) :
  reachable st -> eventIndex st = Some index -> ascending index.
Proof.
  induction 1 as [| st D Hreach IH]; [discriminate |].
  destruct (loadFromObject_cases st D)
    as [[message ->] | (data & entries & report & -> & Hb & ->)]; cbn [snd].
  - exact IH.
  - cbn. intros [= <-]. apply sort_by_date_ascending.
Qed.

Lemma reachable_getEvents_ascending (st : State) (filters : Filters) :
  reachable st -> ascending (getEvents st filters).
Proof.
  intros Hreach. destruct (eventIndex st) as [index |] eqn:Hidx.
  - eapply getEvents_ascending; [exact Hidx |].
    now apply reachable_index_ascending with st.
  - unfold getEvents. rewrite Hidx. constructor.
Qed.

Lemma filter_positive (l : list Q) :
  Forall (fun p => (0 < p)%Q) (List.filter (fun p => Qlt_bool 0 p) l).
Proof.
  apply Forall_forall. intros p Hp.
  apply list_elem_of_In, filter_In in Hp. now apply Qlt_bool_iff.
Qed.

(** C7, as the code has it: for every classified event of the catalog the
    candidates of the comparison are the events of its category as the
    catalog holds them, the classified event among them; with fewer than
    three of them (the classified one counted) the signal is neutral
    (0.5), otherwise the event's peak is set against the average of the
    positive peaks of the first twenty of them, each peak taken over the
    event's own window of radius 14; the peak of the classified event
    itself enters that average whenever the event is among these twenty
    and its peak is positive. *)
Theorem magnitude_compares_with_whole_category (st : State) (baselineMap : gmap Z Q)
    (event : Event) (windowData : list Utils.WindowPoint)
    (baselineStats : Utils.BaselineStats) (temporalDays : option Z)
    (index : list Event) :
  reachable st -> eventIndex st = Some index -> In event index ->
  let similar := getEvents st (category_filter (category event)) in
  let signal :=
    analyzeMagnitude st baselineMap event windowData baselineStats temporalDays in
  similar = List.filter (fun e => String.eqb (category e) (category event)) index
  /\ In event similar
  /\ if (List.length similar <? 3)%nat
     then comparison signal = "insufficient_data"%string
          /\ m_reactiveScore signal = Some 0.5%Q
     else thisPeak signal = Some (Utils.max (counts windowData))
          /\ avgSimilarPeak signal
             = Some (Utils.mean
                       (List.filter (fun p => Qlt_bool 0 p)
                          (map (similarPeak baselineMap) (take 20 similar))))
          /\ ratio signal
             = Some (js_div (Utils.max (counts windowData))
                       (Utils.mean
                          (List.filter (fun p => Qlt_bool 0 p)
                             (map (similarPeak baselineMap) (take 20 similar)))))
          /\ (forall e, similarPeak baselineMap e
                        = Utils.max (counts (Utils.getWindowData (date e) 14
                                               baselineMap)))
          /\ (In event (take 20 similar) ->
              (0 < similarPeak baselineMap event)%Q ->
              In (similarPeak baselineMap event)
                 (List.filter (fun p => Qlt_bool 0 p)
                    (map (similarPeak baselineMap) (take 20 similar)))).
Proof.
  intros Hreach Hidx Hin similar signal.
  destruct (reachable_index_category st index event Hreach Hidx Hin) as [Hne Hall].
  assert (Hsim : similar
                 = List.filter (fun e => String.eqb (category e) (category event)) index)
    by (subst similar; now apply getEvents_category).
  split; [exact Hsim |]. split.
  - rewrite Hsim. apply filter_In. split; [assumption | apply String.eqb_refl].
  - subst signal. unfold analyzeMagnitude. fold similar. rewrite slice_0_20.
    destruct (List.length similar <? 3)%nat; [split; reflexivity |].
    assert (Hself : In event (take 20 similar) ->
                    (0 < similarPeak baselineMap event)%Q ->
                    In (similarPeak baselineMap event)
                       (List.filter (fun p => Qlt_bool 0 p)
                          (map (similarPeak baselineMap) (take 20 similar)))).
    { intros Hfirst Hpos. apply filter_In. split; [now apply in_map |].
      now apply Qlt_bool_iff. }
    repeat match goal with
           | |- context [if ?b then _ else _] => destruct b
           end; repeat split; exact Hself.
Qed.

(** The selection behind the comparison average, on every clock. *)
Lemma similar_peaks_selection (st : State) (baselineMap : gmap Z Q)
    (event : Event) (windowData : list Utils.WindowPoint)
    (baselineStats : Utils.BaselineStats) (temporalDays : option Z) :
  reachable st ->
  category event <> EmptyString -> category event <> "all"%string ->
  (3 <= List.length (getEvents st (category_filter (category event))))%nat ->
  let similar := getEvents st (category_filter (category event)) in
  let compared := take 20 similar in
  let peaks :=
    map (fun e => Utils.max (counts (Utils.getWindowData (date e) 14 baselineMap)))
        compared in
  let averaged := List.filter (fun p => Qlt_bool 0 p) peaks in
  similar = List.filter (fun e => String.eqb (category e) (category event))
                        (default [] (eventIndex st))
  /\ ascending similar
  /\ compared ++ drop 20 similar = similar
  /\ (List.length compared <= 20)%nat
  /\ avgSimilarPeak
       (analyzeMagnitude st baselineMap event windowData baselineStats temporalDays)
     = Some (Utils.mean averaged)
  /\ Forall (fun p => (0 < p)%Q) averaged
  /\ Forall (fun p => ~ (p == 0)%Q) averaged.
Proof.
  intros Hreach Hne Hall Hlen similar compared peaks averaged.
  assert (Hpos : Forall (fun p => (0 < p)%Q) averaged) by apply filter_positive.
  split.
  { destruct (eventIndex st) as [index |] eqn:Hidx.
    - subst similar. now apply getEvents_category.
    - exfalso. unfold getEvents in Hlen. rewrite Hidx in Hlen. cbn in Hlen. lia. }
  split; [now apply reachable_getEvents_ascending |].
  split; [apply take_drop |].
  split; [subst compared; rewrite length_take; lia |].
  split; [| split; [exact Hpos |]].
  - unfold analyzeMagnitude. fold similar.
    destruct (Nat.ltb_spec (List.length similar) 3) as [Hlt | _];
      [subst similar; lia |].
    rewrite slice_0_20. fold compared.
    change (map (similarPeak baselineMap) compared) with peaks.
    fold averaged.
    repeat match goal with
           | |- context [if ?b then _ else _] => destruct b
           end; reflexivity.
  - eapply Forall_impl; [exact Hpos |]. cbn. intros p Hp Hzero. rewrite Hzero in Hp.
    now apply Qlt_irrefl in Hp.
Qed.

(** C10 (the code departs from it): on every clock the comparison average
    is the mean of the positive peaks of at most the first twenty events
    of the category in the catalog's ascending date order, each peak the
    maximum over the window [getWindowData] returns for that event and the
    fixed radius 14.  That window is not always the 29 days from 14 before
    to 14 after the event: on the clock of New York the window of the sale
    of 2024-03-05 holds 2024-03-10 twice and ends on 2024-03-18, so the 100
    aircraft of 2024-03-19, the fourteenth day after the sale, are missed.
    The sale's peak over the 29 days is 100, the peak that enters the
    average is 10, and the average is 10 where the same call on a clock at
    UTC gives 40.  The cap and the exclusion at work, on a clock at UTC: of
    twenty-two sales with the peaks 30, 60, eighteen times 0, 900 and 900
    the first is compared with 45, the mean of 30 and 60. *)
Theorem similar_peaks_miss_a_day :
  (forall (st : State) (baselineMap : gmap Z Q) (event : Event)
          (windowData : list Utils.WindowPoint) (baselineStats : Utils.BaselineStats)
          (temporalDays : option Z),
      reachable st ->
      category event <> EmptyString -> category event <> "all"%string ->
      (3 <= List.length (getEvents st (category_filter (category event))))%nat ->
      let similar := getEvents st (category_filter (category event)) in
      let compared := take 20 similar in
      let peaks :=
        map (fun e => Utils.max (counts (Utils.getWindowData (date e) 14 baselineMap)))
            compared in
      let averaged := List.filter (fun p => Qlt_bool 0 p) peaks in
      similar = List.filter (fun e => String.eqb (category e) (category event))
                            (default [] (eventIndex st))
      /\ ascending similar
      /\ compared ++ drop 20 similar = similar
      /\ (List.length compared <= 20)%nat
      /\ avgSimilarPeak
           (analyzeMagnitude st baselineMap event windowData baselineStats
                             temporalDays)
         = Some (Utils.mean averaged)
      /\ Forall (fun p => (0 < p)%Q) averaged
      /\ Forall (fun p => ~ (p == 0)%Q) averaged)
  /\ map Utils.days_from_event
         (@Utils.getWindowData new_york 19787 14 Examples.late_peak_map)
     = [-14; -13; -12; -11; -10; -9; -8; -7; -6; -5; -4; -3; -2; -1; 0; 1; 2; 3; 4;
        5; 5; 6; 7; 8; 9; 10; 11; 12; 13]
  /\ Utils.getADIZCount (19787 + 14) Examples.late_peak_map = 100%Q
  /\ Utils.max (map (fun d => Utils.getADIZCount d Examples.late_peak_map)
                    (seqZ (19787 - 14) 29)) = 100%Q
  /\ @similarPeak new_york Examples.late_peak_map Examples.sale_2024_03_05 = 10%Q
  /\ @similarPeak utc Examples.late_peak_map Examples.sale_2024_03_05 = 100%Q
  /\ (exists avg,
         avgSimilarPeak
           (@analyzeMagnitude new_york Examples.late_peak_state Examples.late_peak_map
              Examples.sale_2024_03_05
              (@Utils.getWindowData new_york 19787 21 Examples.late_peak_map)
              (@Utils.getBaselineStats new_york 19787 30 Examples.late_peak_map) None)
         = Some avg
         /\ (avg == 10)%Q)
  /\ (exists avg,
         avgSimilarPeak
           (@analyzeMagnitude utc Examples.late_peak_state Examples.late_peak_map
              Examples.sale_2024_03_05
              (@Utils.getWindowData utc 19787 21 Examples.late_peak_map)
              (@Utils.getBaselineStats utc 19787 30 Examples.late_peak_map) None)
         = Some avg
         /\ (avg == 40)%Q)
  /\ map date (getEvents Examples.crowded_state (category_filter "arms"))
     = Examples.crowded_dates
  /\ In Examples.first_crowded_sale
        (getEvents Examples.crowded_state (category_filter "arms"))
  /\ map (@similarPeak utc Examples.crowded_map)
         (getEvents Examples.crowded_state (category_filter "arms"))
     = ([30; 60] ++ repeat 0 18 ++ [900; 900])%Q
  /\ (exists avg,
         avgSimilarPeak
           (@analyzeMagnitude utc Examples.crowded_state Examples.crowded_map
              Examples.first_crowded_sale
              (@Utils.getWindowData utc 15000 21 Examples.crowded_map)
              (@Utils.getBaselineStats utc 15000 30 Examples.crowded_map) None)
         = Some avg
         /\ (avg == 45)%Q).
Proof.
  split; [exact similar_peaks_selection |].
  split; [vm_compute; reflexivity |]. split; [vm_compute; reflexivity |].
  split; [vm_compute; reflexivity |]. split; [vm_compute; reflexivity |].
  split; [vm_compute; reflexivity |].
  split; [eexists; split; vm_compute; reflexivity |].
  split; [eexists; split; vm_compute; reflexivity |].
  split; [vm_compute; reflexivity |]. split; [vm_compute; tauto |].
  split; [vm_compute; reflexivity |].
  eexists; split; vm_compute; reflexivity.
Qed.

End Magnitude.

(** ** Guards of the entry points *)

Section Guards.

Context {tz : Zone}.

Import DataConnector Spec.

Lemma length_zero {A} (l : list A) : l = [] -> (List.length l =? 0)%nat = true.
Proof. now intros ->. Qed.

(** While the connector holds no data the four entry points throw
    ['Data not loaded'] and leave their analyzer as it was. *)
Lemma guarded_without_data (dc : State) :
  isLoaded dc = false ->
  (forall st event options,
      SingleEventAnalyzer.analyze dc st event options
      = (Throw "Data not loaded", st))
  /\ (forall current filters options,
         CategoryAnalyzer.analyze dc current filters options
         = (Throw "Data not loaded", current))
  /\ (forall current filtersA filtersB options,
         ABCompare.compare dc current filtersA filtersB options
         = (Throw "Data not loaded", current))
  /\ (forall current event options,
         PreplannedReactive.classify dc current event options
         = (Throw "Data not loaded", current)).
Proof.
  intros Hdata. repeat split; intros.
  - unfold SingleEventAnalyzer.analyze. now rewrite Hdata.
  - unfold CategoryAnalyzer.analyze. now rewrite Hdata.
  - unfold ABCompare.compare. now rewrite Hdata.
  - unfold PreplannedReactive.classify. now rewrite Hdata.
Qed.

(** With data and no matching event the category analyzer and the
    comparator throw their own errors. *)
Lemma guarded_without_events (loaded : State) :
  isLoaded loaded = true ->
  (forall current filters options,
      getEvents loaded filters = [] ->
      CategoryAnalyzer.analyze loaded current filters options
      = (Throw "No events match these filters. Try different filter combination.",
         current))
  /\ (forall current filtersA filtersB options,
         getEvents loaded filtersA = [] \/ getEvents loaded filtersB = [] ->
         ABCompare.compare loaded current filtersA filtersB options
         = (Throw "One or both groups have no events. Adjust your filters.",
            current)).
Proof.
  intros Hloaded. split.
  - intros current filters options Hnone.
    unfold CategoryAnalyzer.analyze. rewrite Hloaded. cbn [negb].
    now rewrite (length_zero _ Hnone).
  - intros current filtersA filtersB options Hnone.
    unfold ABCompare.compare. rewrite Hloaded. cbn [negb].
    destruct Hnone as [Hnone | Hnone]; rewrite (length_zero _ Hnone).
    + reflexivity.
    + now rewrite orb_true_r.
Qed.

(** C8 (the code departs from it): the guard of the four entry points is
    [isLoaded()], and the two empty-result errors are distinct from it, as
    claimed.  But [loadFromObject] stores the data before it builds the map
    and the index, so a load that fails after the validation leaves the
    connector counted as loaded.  The payload
    [{adiz_baseline: [], arms_sales: [null]}] passes [validate], the load
    throws a [TypeError] in [buildEventIndex], and afterwards, with no load
    ever having succeeded, [classify] and the single-event [analyze] return
    a result for every event instead of throwing ['Data not loaded'], and
    the category analyzer and the comparator report that no event matches. *)
Theorem failed_load_opens_the_guard :
  (forall dc : State,
      isLoaded dc = false ->
      (forall st event options,
          SingleEventAnalyzer.analyze dc st event options
          = (Throw "Data not loaded", st))
      /\ (forall current filters options,
             CategoryAnalyzer.analyze dc current filters options
             = (Throw "Data not loaded", current))
      /\ (forall current filtersA filtersB options,
             ABCompare.compare dc current filtersA filtersB options
             = (Throw "Data not loaded", current))
      /\ (forall current event options,
             PreplannedReactive.classify dc current event options
             = (Throw "Data not loaded", current)))
  /\ (forall loaded : State,
         isLoaded loaded = true ->
         (forall current filters options,
             getEvents loaded filters = [] ->
             CategoryAnalyzer.analyze loaded current filters options
             = (Throw "No events match these filters. Try different filter combination.",
                current))
         /\ (forall current filtersA filtersB options,
                getEvents loaded filtersA = [] \/ getEvents loaded filtersB = [] ->
                ABCompare.compare loaded current filtersA filtersB options
                = (Throw "One or both groups have no events. Adjust your filters.",
                   current)))
  /\ "No events match these filters. Try different filter combination."%string
     <> "Data not loaded"%string
  /\ "One or both groups have no events. Adjust your filters."%string
     <> "Data not loaded"%string
  /\ isLoaded initial = false
  /\ DataSchema.ok (DataSchema.validate (Some (DataSchema.shape Examples.broken_payload)))
     = true
  /\ loadFromObject initial (Some Examples.broken_payload)
     = (Throw "TypeError",
        {| currentData := Some Examples.broken_payload;
           baselineMap := Some ∅;
           eventIndex := None |})
  /\ isLoaded Examples.half_loaded = true
  /\ (forall current event options,
         exists a,
           PreplannedReactive.classify Examples.half_loaded current event options
           = (Ok a, Some a))
  /\ (forall st event options,
         exists a st',
           SingleEventAnalyzer.analyze Examples.half_loaded st event options
           = (Ok a, st'))
  /\ (forall current filters options,
         CategoryAnalyzer.analyze Examples.half_loaded current filters options
         = (Throw "No events match these filters. Try different filter combination.",
            current))
  /\ (forall current filtersA filtersB options,
         ABCompare.compare Examples.half_loaded current filtersA filtersB options
         = (Throw "One or both groups have no events. Adjust your filters.",
            current)).
Proof.
  assert (Hloaded : isLoaded Examples.half_loaded = true) by reflexivity.
  assert (Hmap : baselineMap Examples.half_loaded = Some ∅) by reflexivity.
  assert (Hnone : forall filters, getEvents Examples.half_loaded filters = [])
    by reflexivity.
  split; [exact guarded_without_data |]. split; [exact guarded_without_events |].
  split; [discriminate |]. split; [discriminate |]. split; [reflexivity |].
  split; [vm_compute; reflexivity |]. split; [vm_compute; reflexivity |].
  split; [exact Hloaded |]. split; [| split; [| split]].
  - intros current event options. unfold PreplannedReactive.classify.
    rewrite Hloaded, Hmap. cbn [negb]. eexists. reflexivity.
  - intros st event options. unfold SingleEventAnalyzer.analyze.
    rewrite Hloaded, Hmap. cbn [negb]. eexists _, _. reflexivity.
  - intros current filters options.
    now apply (proj1 (guarded_without_events Examples.half_loaded Hloaded)).
  - intros current filtersA filtersB options.
    apply (proj2 (guarded_without_events Examples.half_loaded Hloaded)).
    left. apply Hnone.
Qed.

End Guards.

(** ** Accessors before the first analysis *)

Section Accessors.

Context {tz : Zone}.

Import DataConnector Spec.

(** A call that throws leaves the slot of the last analysis as it was. *)
Lemma analyze_throw_keeps_slot dc st event options message st' :
  SingleEventAnalyzer.analyze dc st event options = (Throw message, st') ->
  SingleEventAnalyzer.currentAnalysis st' = SingleEventAnalyzer.currentAnalysis st.
Proof.
  unfold SingleEventAnalyzer.analyze.
  destruct (negb (isLoaded dc)); [now intros [= _ <-] |].
  destruct (baselineMap dc); [discriminate | now intros [= _ <-]].
Qed.

(** C9, as the code has it: before the first analysis the accessors that
    return a record (chart data, summary card, signal breakdown, trend
    data, curve data, overlay data, summary, comparison data) return
    [null]; the accessors that return a list (confounders, top events,
    bottom events) return the empty list. *)
Theorem accessors_before_analysis (st : SingleEventAnalyzer.State) :
  SingleEventAnalyzer.currentAnalysis st = None ->
  SingleEventAnalyzer.getChartData st = None
  /\ SingleEventAnalyzer.getSummaryCard st = None
  /\ SingleEventAnalyzer.getConfounders st = Some []
  /\ PreplannedReactive.getSignalBreakdown None = None
  /\ PreplannedReactive.getPreEventTrendData None = None
  /\ CategoryAnalyzer.getAverageCurveData None = None
  /\ CategoryAnalyzer.getEventOverlayData None = None
  /\ CategoryAnalyzer.getSummary None = None
  /\ CategoryAnalyzer.getTopEvents None = Some []
  /\ CategoryAnalyzer.getBottomEvents None = Some []
  /\ ABCompare.getOverlaidCurvesData None = None
  /\ ABCompare.getComparisonBarData None = None.
Proof.
  intros Hnone.
  unfold SingleEventAnalyzer.getChartData, SingleEventAnalyzer.getSummaryCard,
    SingleEventAnalyzer.getConfounders.
  rewrite Hnone. repeat split.
Qed.

End Accessors.

(** ** Instances and counterexamples *)

Section Instances.

(* The clock of this section is at UTC. *)
#[local] Existing Instance utc.

Import DataConnector PreplannedReactive Spec.

(** C2 at the sale of 2024-03-15 over the flat series. *)
Lemma classify_score_and_verdict_witness :
  reachable Examples.flat_state
  /\ isLoaded Examples.flat_state = true
  /\ exists a q,
      classify Examples.flat_state None Examples.sale_2024_03_15 (mkOptions None)
      = (Ok a, Some a)
      /\ reactiveScore (a_classification a) = Fin q
      /\ (0 <= q <= 1)%Q
      /\ (verdict (a_classification a) = "reactive"%string <-> (0.65 <= q)%Q)
      /\ (verdict (a_classification a) = "pre-planned"%string <-> (q <= 0.35)%Q)
      /\ (verdict (a_classification a) = "mixed"%string <-> (0.35 < q < 0.65)%Q)
      /\ ((0.65 <= q)%Q ->
          (confidence (a_classification a) = "high"%string <-> (0.8 <= q)%Q)
          /\ (confidence (a_classification a) = "medium"%string <-> (q < 0.8)%Q))
      /\ ((q <= 0.35)%Q ->
          (confidence (a_classification a) = "high"%string <-> (q <= 0.2)%Q)
          /\ (confidence (a_classification a) = "medium"%string <-> (0.2 < q)%Q))
      /\ ((0.35 < q < 0.65)%Q -> confidence (a_classification a) = "low"%string).
Proof.
  split; [apply reachable_loading |].
  split; [reflexivity |].
  apply classify_score_and_verdict; [apply reachable_loading | reflexivity].
Defined.

(** C7: two other arms sales are in the catalog, so a comparison with the
    other events has too few of them and would be neutral; the code
    counts the classified sale itself, averages its peak of 100 with the
    two peaks of 25 and scores 0.6. *)
Lemma magnitude_counts_the_event_itself :
  ~ compares_with_others Examples.spiky_state Examples.spiky_map
      Examples.sale_2024_03_15 Examples.spiky_window Examples.spiky_baseline None.
Proof.
  unfold compares_with_others.
  replace (List.length (other_events Examples.spiky_state Examples.sale_2024_03_15))
    with 2%nat by (vm_compute; reflexivity).
  cbn [Nat.ltb Nat.leb]. vm_compute. discriminate.
Qed.

(** C7, as the code has it, at the same input. *)
Lemma magnitude_compares_with_whole_category_witness :
  reachable Examples.spiky_state
  /\ eventIndex Examples.spiky_state = Some Examples.spiky_index
  /\ In Examples.sale_2024_03_15 Examples.spiky_index
  /\ (let similar :=
        getEvents Examples.spiky_state
                  (category_filter (category Examples.sale_2024_03_15)) in
      let signal :=
        analyzeMagnitude Examples.spiky_state Examples.spiky_map
          Examples.sale_2024_03_15 Examples.spiky_window Examples.spiky_baseline None in
      similar
      = List.filter (fun e => String.eqb (category e)
                                         (category Examples.sale_2024_03_15))
                    Examples.spiky_index
      /\ In Examples.sale_2024_03_15 similar
      /\ if (List.length similar <? 3)%nat
         then comparison signal = "insufficient_data"%string
              /\ m_reactiveScore signal = Some 0.5%Q
         else thisPeak signal = Some (Utils.max (counts Examples.spiky_window))
              /\ avgSimilarPeak signal
                 = Some (Utils.mean
                           (List.filter (fun p => Qlt_bool 0 p)
                              (map (similarPeak Examples.spiky_map) (take 20 similar))))
              /\ ratio signal
                 = Some (js_div (Utils.max (counts Examples.spiky_window))
                           (Utils.mean
                              (List.filter (fun p => Qlt_bool 0 p)
                                 (map (similarPeak Examples.spiky_map)
                                      (take 20 similar)))))
              /\ (forall e, similarPeak Examples.spiky_map e
                            = Utils.max (counts (Utils.getWindowData (date e) 14
                                                   Examples.spiky_map)))
              /\ (In Examples.sale_2024_03_15 (take 20 similar) ->
                  (0 < similarPeak Examples.spiky_map Examples.sale_2024_03_15)%Q ->
                  In (similarPeak Examples.spiky_map Examples.sale_2024_03_15)
                     (List.filter (fun p => Qlt_bool 0 p)
                        (map (similarPeak Examples.spiky_map) (take 20 similar))))).
Proof.
  assert (Hreach : reachable Examples.spiky_state) by apply reachable_loading.
  assert (Hidx : eventIndex Examples.spiky_state = Some Examples.spiky_index)
    by reflexivity.
  assert (Hin : In Examples.sale_2024_03_15 Examples.spiky_index)
    by (vm_compute; right; left; reflexivity).
  split; [exact Hreach |]. split; [exact Hidx |]. split; [exact Hin |].
  exact (magnitude_compares_with_whole_category Examples.spiky_state
           Examples.spiky_map Examples.sale_2024_03_15 Examples.spiky_window
           Examples.spiky_baseline None Examples.spiky_index Hreach Hidx Hin).
Defined.

(** C9: the confounders of an analyzer that has not run are the empty
    list, not [null] (and so are the top and bottom events). *)
Lemma list_accessors_return_empty_lists : ~ accessors_null_before_analysis.
Proof. intros (_ & _ & H & _). discriminate H. Qed.

(** C9, as the code has it, at the initial analyzer. *)
Lemma accessors_before_analysis_witness :
  SingleEventAnalyzer.currentAnalysis SingleEventAnalyzer.initial = None
  /\ SingleEventAnalyzer.getChartData SingleEventAnalyzer.initial = None
  /\ SingleEventAnalyzer.getSummaryCard SingleEventAnalyzer.initial = None
  /\ SingleEventAnalyzer.getConfounders SingleEventAnalyzer.initial = Some []
  /\ PreplannedReactive.getSignalBreakdown None = None
  /\ PreplannedReactive.getPreEventTrendData None = None
  /\ CategoryAnalyzer.getAverageCurveData None = None
  /\ CategoryAnalyzer.getEventOverlayData None = None
  /\ CategoryAnalyzer.getSummary None = None
  /\ CategoryAnalyzer.getTopEvents None = Some []
  /\ CategoryAnalyzer.getBottomEvents None = Some []
  /\ ABCompare.getOverlaidCurvesData None = None
  /\ ABCompare.getComparisonBarData None = None.
Proof.
  split; [reflexivity |].
  apply (accessors_before_analysis SingleEventAnalyzer.initial). reflexivity.
Defined.

(** The sale of 2024-03-15 over the series with three spikes: the peak of
    100 comes one day after the event, nothing builds up before it, and the
    curve is a sharp spike with rapid decay; the verdict is reactive. *)
Example spiky_sale_is_reactive :
  (fun a => (responseTime (temporal (a_signals a)),
             t_reactiveScore (temporal (a_signals a)),
             trend (buildup (a_signals a)),
             pattern_ (pattern (a_signals a)),
             verdict (a_classification a),
             confidence (a_classification a)))
    <$> Examples.classified Examples.spiky_state Examples.sale_2024_03_15
  = Some (Some 1, Some 0.9%Q, "normal", "sharp_spike_rapid_decay",
          "reactive", "medium")%string.
Proof. vm_compute. reflexivity. Qed.

End Instances.

(** * Further properties of the code *)

(** ** Descriptive statistics (utils.js) *)

Section Statistics.

Lemma Qmax_cases (x y : Q) : Qmax x y = x \/ Qmax x y = y.
Proof.
  unfold Qmax, GenericMinMax.gmax. destruct (x ?= y)%Q; auto.
Qed.

Lemma Qmin_cases (x y : Q) : Qmin x y = x \/ Qmin x y = y.
Proof.
  unfold Qmin, GenericMinMax.gmin. destruct (x ?= y)%Q; auto.
Qed.

Lemma foldl_Qmax (vs : list Q) (v : Q) :
  In (foldl Qmax v vs) (v :: vs)
  /\ Forall (fun x => (x <= foldl Qmax v vs)%Q) (v :: vs).
Proof.
  revert v. induction vs as [| y ys IH]; intros v; simpl.
  - split; [now left | constructor; [lra | constructor]].
  - destruct (IH (Qmax v y)) as [Hin Hall]. inversion Hall as [| ? ? Hhd Htl]; subst.
    split.
    + destruct Hin as [Hin | Hin]; [| now right; right].
      destruct (Qmax_cases v y) as [E | E]; [left | right; left]; congruence.
    + pose proof (Q.le_max_l v y). pose proof (Q.le_max_r v y).
      constructor; [lra |]. constructor; [lra | assumption].
Qed.

Lemma foldl_Qmin (vs : list Q) (v : Q) :
  In (foldl Qmin v vs) (v :: vs)
  /\ Forall (fun x => (foldl Qmin v vs <= x)%Q) (v :: vs).
Proof.
  revert v. induction vs as [| y ys IH]; intros v; simpl.
  - split; [now left | constructor; [lra | constructor]].
  - destruct (IH (Qmin v y)) as [Hin Hall]. inversion Hall as [| ? ? Hhd Htl]; subst.
    split.
    + destruct Hin as [Hin | Hin]; [| now right; right].
      destruct (Qmin_cases v y) as [E | E]; [left | right; left]; congruence.
    + pose proof (Q.le_min_l v y). pose proof (Q.le_min_r v y).
      constructor; [lra |]. constructor; [lra | assumption].
Qed.

Lemma foldl_Qplus (l : list Q) (acc : Q) :
  (foldl Qplus acc l == acc + Qsum l)%Q.
Proof.
  unfold Qsum. revert acc. induction l as [| x xs IH]; intros acc; simpl.
  - lra.
  - rewrite IH, (IH (0 + x)%Q). lra.
Qed.

Lemma Qsum_cons (x : Q) (l : list Q) : (Qsum (x :: l) == x + Qsum l)%Q.
Proof. unfold Qsum at 1. simpl. rewrite foldl_Qplus. lra. Qed.

(** The mean of a list of zeros is [0]: every partial sum is [0], and so is
    the quotient. *)
Lemma mean_zeros (values : list Q) :
  (forall v, In v values -> v = 0%Q) -> (Utils.mean values == 0)%Q.
Proof.
  intros Hzero. destruct values as [| v vs]; [reflexivity |].
  unfold Utils.mean.
  assert (Hsum : (Qsum (v :: vs) == 0)%Q).
  { clear - Hzero. induction (v :: vs) as [| x xs IH]; [reflexivity |].
    rewrite Qsum_cons, IH by (intros y Hy; apply Hzero; now right).
    rewrite (Hzero x) by now left. lra. }
  rewrite Hsum. unfold Qdiv. apply Qmult_0_l.
Qed.

(** On a non-empty list [max] and [min] are elements that bound the list. *)
Lemma extremes (values : list Q) :
  values <> [] ->
  In (Utils.max values) values
  /\ In (Utils.min values) values
  /\ Forall (fun v => (Utils.min values <= v <= Utils.max values)%Q) values.
Proof.
  intros Hne. destruct values as [| v vs]; [contradiction |].
  destruct (foldl_Qmax vs v) as [Hmax_in Hmax]. destruct (foldl_Qmin vs v) as [Hmin_in Hmin].
  split; [exact Hmax_in |]. split; [exact Hmin_in |].
  cbn [Utils.max Utils.min]. rewrite Forall_forall in Hmax, Hmin.
  apply Forall_forall. intros x Hx. split; [now apply Hmin | now apply Hmax].
Qed.

(** X1: on a non-empty list [max] and [min] return elements of the list
    that bound every element; on the empty list both return [0]. *)
Theorem max_min_bounds (values : list Q) :
  values <> [] ->
  In (Utils.max values) values
  /\ In (Utils.min values) values
  /\ Forall (fun v => (Utils.min values <= v <= Utils.max values)%Q) values
  /\ Utils.max [] = 0%Q /\ Utils.min [] = 0%Q.
Proof.
  intros Hne. destruct (extremes values Hne) as (Hmax_in & Hmin_in & Hall).
  split; [exact Hmax_in |]. split; [exact Hmin_in |]. split; [exact Hall |].
  split; reflexivity.
Qed.

Lemma max_min_bounds_witness :
  [3; 1; 2]%Q <> []
  /\ In (Utils.max [3; 1; 2]%Q) [3; 1; 2]%Q
  /\ In (Utils.min [3; 1; 2]%Q) [3; 1; 2]%Q
  /\ Forall (fun v => (Utils.min [3; 1; 2]%Q <= v <= Utils.max [3; 1; 2]%Q)%Q)
            [3; 1; 2]%Q
  /\ Utils.max [] = 0%Q /\ Utils.min [] = 0%Q.
Proof.
  split; [discriminate |].
  apply (max_min_bounds [3; 1; 2]%Q). discriminate.
Defined.

End Statistics.

(** ** Peak, persistence and the baseline map (utils.js) *)

Section PeakAndPersistence.

(** The scan of [reduce] keeps the first entry with the highest count. *)
Lemma first_maximum (ps : list Utils.WindowPoint) (acc : Utils.WindowPoint) :
  let m := foldl (fun mx curr : Utils.WindowPoint =>
                    if Qlt_bool (Utils.adiz_count mx) (Utils.adiz_count curr)
                    then curr else mx) acc ps in
  (m = acc
   /\ Forall (fun d => (Utils.adiz_count d <= Utils.adiz_count acc)%Q) ps)
  \/ (exists pre rest,
         ps = pre ++ m :: rest
         /\ (Utils.adiz_count acc < Utils.adiz_count m)%Q
         /\ Forall (fun d => (Utils.adiz_count d < Utils.adiz_count m)%Q) pre
         /\ Forall (fun d => (Utils.adiz_count d <= Utils.adiz_count m)%Q) rest).
Proof.
  revert acc. induction ps as [| x xs IH]; intros acc m; subst m.
  - left. split; [reflexivity | constructor].
  - cbn [foldl].
    destruct (Qlt_bool (Utils.adiz_count acc) (Utils.adiz_count x)) eqn:E.
    + apply Qlt_bool_iff in E. right.
      destruct (IH x) as [[Hm Hall] | (pre & rest & Hxs & Hlt & Hpre & Hrest)].
      * exists [], xs. rewrite Hm. repeat split; [assumption | constructor | assumption].
      * exists (x :: pre), rest. rewrite Hxs at 1.
        repeat split; [lra | | assumption].
        constructor; [assumption | assumption].
    + apply Qlt_bool_false in E.
      destruct (IH acc) as [[Hm Hall] | (pre & rest & Hxs & Hlt & Hpre & Hrest)].
      * left. split; [assumption |]. constructor; assumption.
      * right. exists (x :: pre), rest. rewrite Hxs at 1.
        repeat split; [assumption | | assumption].
        constructor; [lra | assumption].
Qed.

(** X2: [getTimeToPeak] answers [null] exactly when no point has a
    non-negative offset; otherwise it reports the offset, count and date of
    one post-event point whose count is strictly above every earlier
    post-event point and at least that of every later one: the first
    maximum. *)
Theorem getTimeToPeak_first_maximum (windowData : list Utils.WindowPoint) :
  let postEvent := List.filter (fun d => 0 <=? Utils.days_from_event d) windowData in
  match Utils.getTimeToPeak windowData with
  | None => postEvent = []
  | Some peak =>
      exists pre p rest,
        postEvent = pre ++ p :: rest
        /\ Utils.days peak = Utils.days_from_event p
        /\ Utils.value peak = Utils.adiz_count p
        /\ Utils.peak_date peak = Utils.date p
        /\ 0 <= Utils.days peak
        /\ Forall (fun d => (Utils.adiz_count d < Utils.adiz_count p)%Q) pre
        /\ Forall (fun d => (Utils.adiz_count d <= Utils.adiz_count p)%Q) rest
  end.
Proof.
  intros postEvent. unfold Utils.getTimeToPeak. fold postEvent.
  destruct postEvent as [| p0 ps] eqn:Hpost; [reflexivity |].
  assert (Hnonneg : Forall (fun d => 0 <= Utils.days_from_event d) (p0 :: ps)).
  { rewrite <- Hpost. apply Forall_forall. intros d Hd.
    apply list_elem_of_In, filter_In in Hd. destruct Hd as [_ Hd]. lia. }
  destruct (first_maximum ps p0) as [[Hm Hall] | (pre & rest & Hps & Hlt & Hpre & Hrest)].
  - exists [], p0, ps. cbn [Utils.days Utils.value Utils.peak_date]. rewrite Hm.
    inversion Hnonneg; subst.
    repeat split; [assumption | constructor | assumption].
  - match goal with
    | |- context [foldl ?f p0 ps] => set (m := foldl f p0 ps) in *
    end.
    exists (p0 :: pre), m, rest. cbn [Utils.days Utils.value Utils.peak_date].
    assert (Hm : 0 <= Utils.days_from_event m).
    { rewrite Forall_forall in Hnonneg. apply Hnonneg. rewrite Hps.
      apply list_elem_of_In. right. apply in_or_app. right. now left. }
    repeat split; [now rewrite Hps at 1 | assumption | | assumption].
    constructor; assumption.
Qed.

Lemma filter_length_le {A} (p q : A -> bool) (l : list A) :
  (forall x, p x = true -> q x = true) ->
  (List.length (List.filter p l) <= List.length (List.filter q l))%nat.
Proof.
  intros Himp. induction l as [| x xs IH]; simpl; [lia |].
  destruct (p x) eqn:Ep.
  - rewrite (Himp x Ep). simpl. lia.
  - destruct (q x); simpl; lia.
Qed.

Lemma above_antitone (c : Q) (t1 t2 : Surd) :
  (rat t1 <= rat t2)%Q -> coef t1 = coef t2 -> radicand t1 = radicand t2 ->
  Utils.above c t2 = true -> Utils.above c t1 = true.
Proof.
  unfold Utils.above. intros Hrat -> ->.
  rewrite !andb_true_iff, !Qlt_bool_iff. intros [Hpos Hsq]. split; [lra |].
  apply Qlt_le_trans with ((c - rat t2) * (c - rat t2))%Q; [assumption |].
  apply Qmult_le_compat_nonneg; split; lra.
Qed.

(** X3: [getPersistence] never exceeds the number of post-event points, and
    a higher threshold (same spread, higher level) never counts more days. *)
Theorem getPersistence_antitone (windowData : list Utils.WindowPoint)
    (low high : Surd) :
  (rat low <= rat high)%Q -> coef low = coef high -> radicand low = radicand high ->
  0 <= Utils.getPersistence windowData high
    <= Utils.getPersistence windowData low
  /\ Utils.getPersistence windowData low
     <= Z.of_nat (List.length
                    (List.filter (fun d => 0 <=? Utils.days_from_event d) windowData)).
Proof.
  intros Hrat Hcoef Hrad. unfold Utils.getPersistence. split; [split; [lia |] |].
  - apply inj_le, filter_length_le. intros d.
    rewrite !andb_true_iff. intros [Hd Habove]. split; [assumption |].
    now apply (above_antitone _ low high).
  - apply inj_le, filter_length_le. intros d.
    rewrite andb_true_iff. tauto.
Qed.

Lemma getPersistence_antitone_witness :
  (rat (mkSurd 10 1 4) <= rat (mkSurd 11 1 4))%Q
  /\ coef (mkSurd 10 1 4) = coef (mkSurd 11 1 4)
  /\ radicand (mkSurd 10 1 4) = radicand (mkSurd 11 1 4)
  /\ (0 <= Utils.getPersistence Examples.spiky_window (mkSurd 11 1 4)
        <= Utils.getPersistence Examples.spiky_window (mkSurd 10 1 4)
      /\ Utils.getPersistence Examples.spiky_window (mkSurd 10 1 4)
         <= Z.of_nat (List.length
                        (List.filter (fun d => 0 <=? Utils.days_from_event d)
                                     Examples.spiky_window))).
Proof.
  assert (H1 : (rat (mkSurd 10 1 4) <= rat (mkSurd 11 1 4))%Q) by (cbn; lra).
  split; [exact H1 |]. split; [reflexivity |]. split; [reflexivity |].
  exact (getPersistence_antitone Examples.spiky_window (mkSurd 10 1 4) (mkSurd 11 1 4)
           H1 eq_refl eq_refl).
Defined.

(** X4: in the map [createBaselineMap] builds, a date reads as the parsed
    count of the LAST record that carries it (an unreadable count as [0]),
    and a date no record carries is absent. *)
Theorem createBaselineMap_last_write_wins (entries : list Utils.BaselineEntry) (d : Z) :
  Utils.createBaselineMap entries !! d
  = (fun e => Utils.parseCount (Utils.ADIZ_count e))
      <$> last (List.filter (fun e => Utils.Date e =? d) entries).
Proof.
  unfold Utils.createBaselineMap.
  induction entries as [| e es IH] using rev_ind.
  - reflexivity.
  - rewrite foldl_snoc, List.filter_app. cbn [List.filter].
    destruct (Z.eqb_spec (Utils.Date e) d) as [-> | Hne].
    + rewrite lookup_insert_eq, last_snoc. reflexivity.
    + rewrite lookup_insert_ne by assumption. rewrite app_nil_r. exact IH.
Qed.

End PeakAndPersistence.

(** ** Baselines over sparse data, smoothing (utils.js) *)

Section SparseBaseline.

Context {tz : Zone} {steady_tz : Steady tz}.

Variable baselineMap : gmap Z Q.

Lemma baselineValues_nonempty (anchor n : Z) :
  0 <= n -> Spec.baselineValues baselineMap anchor n <> [].
Proof.
  intros Hn Hnil. apply (f_equal (@List.length Q)) in Hnil.
  unfold Spec.baselineValues in Hnil. rewrite length_map, length_seqZ in Hnil.
  cbn in Hnil. lia.
Qed.

(** X5: on a clock that never changes, for a lookback [n >= 0] the
    baseline maximum and minimum are the counts of two of the days
    [anchor - 1 - n .. anchor - 1] (the day of the event is not one of
    them), and the count of every such day lies between them. *)
Theorem getBaselineStats_bounds (anchor n : Z) :
  0 <= n ->
  let stats := Utils.getBaselineStats anchor n baselineMap in
  (exists d, anchor - 1 - n <= d <= anchor - 1
             /\ Utils.max_ stats = Utils.getADIZCount d baselineMap)
  /\ (exists d, anchor - 1 - n <= d <= anchor - 1
                /\ Utils.min_ stats = Utils.getADIZCount d baselineMap)
  /\ (forall d, anchor - 1 - n <= d <= anchor - 1 ->
                (Utils.min_ stats <= Utils.getADIZCount d baselineMap
                 <= Utils.max_ stats)%Q).
Proof.
  intros Hn stats. subst stats. rewrite getBaselineStats_values.
  cbn [Utils.max_ Utils.min_ Utils.mean_].
  destruct (extremes (Spec.baselineValues baselineMap anchor n)
              (baselineValues_nonempty anchor n Hn))
    as (Hmax & Hmin & Hall).
  assert (Hday : forall v, In v (Spec.baselineValues baselineMap anchor n) ->
                           exists d, anchor - 1 - n <= d <= anchor - 1
                                     /\ v = Utils.getADIZCount d baselineMap).
  { intros v Hv. apply in_map_iff in Hv. destruct Hv as (d & <- & Hd).
    exists d. split; [| reflexivity].
    apply list_elem_of_In, elem_of_seqZ in Hd. lia. }
  split; [now apply Hday |]. split; [now apply Hday |].
  intros d Hd. rewrite Forall_forall in Hall. apply Hall.
  apply list_elem_of_In, in_map_iff. exists d. split; [reflexivity |].
  apply list_elem_of_In, elem_of_seqZ. lia.
Qed.

(** X6: on a clock that never changes, when the index knows none of the
    lookback days the call does not fail: every one of the [n + 1] days
    counts as [0], so mean, maximum and minimum are [0]. *)
Theorem getBaselineStats_unknown_days (anchor n : Z) :
  0 <= n ->
  (forall d, anchor - 1 - n <= d <= anchor - 1 -> baselineMap !! d = None) ->
  let stats := Utils.getBaselineStats anchor n baselineMap in
  Utils.count stats = n + 1
  /\ (Utils.mean_ stats == 0)%Q
  /\ Utils.max_ stats = 0%Q
  /\ Utils.min_ stats = 0%Q.
Proof.
  intros Hn Hnone stats.
  split; [now apply getBaselineStats_count |].
  subst stats. rewrite getBaselineStats_values.
  cbn [Utils.max_ Utils.min_ Utils.mean_].
  destruct (extremes (Spec.baselineValues baselineMap anchor n)
              (baselineValues_nonempty anchor n Hn))
    as (Hmax & Hmin & Hall).
  assert (Hzero : forall v, In v (Spec.baselineValues baselineMap anchor n) -> v = 0%Q).
  { intros v Hv. apply in_map_iff in Hv. destruct Hv as (d & <- & Hd).
    apply list_elem_of_In, elem_of_seqZ in Hd.
    apply getADIZCount_absent, Hnone. lia. }
  split; [now apply mean_zeros |]. split; now apply Hzero.
Qed.

End SparseBaseline.

Section SparseBaselineInstances.

(* The clock of this section is at UTC. *)
#[local] Existing Instance utc.

Lemma getBaselineStats_bounds_witness :
  Steady utc
  /\ 0 <= 30
  /\ (let stats := Utils.getBaselineStats 19797 30 Examples.spiky_map in
      (exists d, 19797 - 1 - 30 <= d <= 19797 - 1
                 /\ Utils.max_ stats = Utils.getADIZCount d Examples.spiky_map)
      /\ (exists d, 19797 - 1 - 30 <= d <= 19797 - 1
                    /\ Utils.min_ stats = Utils.getADIZCount d Examples.spiky_map)
      /\ (forall d, 19797 - 1 - 30 <= d <= 19797 - 1 ->
                    (Utils.min_ stats <= Utils.getADIZCount d Examples.spiky_map
                     <= Utils.max_ stats)%Q)).
Proof.
  split; [exact utc_steady |]. split; [lia |].
  apply (getBaselineStats_bounds Examples.spiky_map 19797 30). lia.
Defined.

Lemma getBaselineStats_unknown_days_witness :
  Steady utc
  /\ 0 <= 30
  /\ (forall d, 19797 - 1 - 30 <= d <= 19797 - 1 -> Examples.one_day !! d = None)
  /\ (let stats := Utils.getBaselineStats 19797 30 Examples.one_day in
      Utils.count stats = 30 + 1
      /\ (Utils.mean_ stats == 0)%Q
      /\ Utils.max_ stats = 0%Q
      /\ Utils.min_ stats = 0%Q).
Proof.
  assert (Hn : 0 <= 30) by lia.
  assert (Hnone : forall d, 19797 - 1 - 30 <= d <= 19797 - 1 ->
                            Examples.one_day !! d = None).
  { intros d Hd. unfold Examples.one_day. apply lookup_singleton_ne. lia. }
  split; [exact utc_steady |]. split; [exact Hn |]. split; [exact Hnone |].
  exact (getBaselineStats_unknown_days Examples.one_day 19797 30 Hn Hnone).
Defined.

End SparseBaselineInstances.


(** ** Validation and normalisation (schema.js) *)

Section Schema.

Import DataSchema.

Lemma validation_errors_fold (data : DATA) (names : list string) (errs : list string) :
  foldl (fun errs dataset =>
           match collections data !! dataset with
           | Some v =>
               if isArray v then errs
               else errs ++ [(dataset ++ " must be an array")%string]
           | None => errs
           end) errs names
  = errs ++ flat_map (fun dataset =>
                        match collections data !! dataset with
                        | Some Other => [(dataset ++ " must be an array")%string]
                        | _ => []
                        end) names.
Proof.
  revert errs. induction names as [| n names IH]; intros errs; cbn [foldl flat_map].
  - now rewrite app_nil_r.
  - rewrite IH. destruct (collections data !! n) as [[| ds] |]; cbn [isArray].
    + now rewrite <- app_assoc.
    + reflexivity.
    + reflexivity.
Qed.

Lemma flat_map_nil {A B} (f : A -> list B) (l : list A) :
  (forall x, In x l -> f x = []) -> flat_map f l = [].
Proof.
  induction l as [| x xs IH]; intros H; cbn [flat_map]; [reflexivity |].
  rewrite (H x) by now left. apply IH. intros y Hy. apply H. now right.
Qed.

(** X8: [validate] lists one error for a missing or non-array baseline,
    then one per known collection that is present but not an array, in the
    order of the schema table; it accepts exactly when there is none: the
    baseline is an array and no known collection is a non-array.  An
    argument that is not an object gets the single error of its own. *)
Theorem validate_errors (data : DATA) :
  errors (validate (Some data))
  = match adiz_baseline data with
    | Some (Arr _) => []
    | _ => ["Missing or invalid adiz_baseline array"%string]
    end
    ++ flat_map (fun dataset =>
                   match collections data !! dataset with
                   | Some Other => [(dataset ++ " must be an array")%string]
                   | _ => []
                   end)
                ["arms_sales"; "diplomatic"; "bills"; "ships"; "political_symbolic"]%string
  /\ (ok (validate (Some data)) = true
      <-> (exists entries, adiz_baseline data = Some (Arr entries))
          /\ forall dataset,
               In dataset ["arms_sales"; "diplomatic"; "bills"; "ships";
                           "political_symbolic"]%string ->
               collections data !! dataset <> Some Other)
  /\ validate None = mkValidation false ["DATA is not an object"%string].
Proof.
  assert (Herr : errors (validate (Some data))
                 = match adiz_baseline data with
                   | Some (Arr _) => []
                   | _ => ["Missing or invalid adiz_baseline array"%string]
                   end
                   ++ flat_map (fun dataset =>
                                  match collections data !! dataset with
                                  | Some Other => [(dataset ++ " must be an array")%string]
                                  | _ => []
                                  end)
                               ["arms_sales"; "diplomatic"; "bills"; "ships";
                                "political_symbolic"]%string).
  { unfold validate. cbn [errors]. now rewrite validation_errors_fold. }
  split; [exact Herr |]. split; [| reflexivity].
  assert (Hok : ok (validate (Some data)) = true <-> errors (validate (Some data)) = []).
  { unfold validate. cbn [ok errors]. rewrite Nat.eqb_eq. apply length_zero_iff_nil. }
  rewrite Hok, Herr. split.
  - intros Hnil. apply app_eq_nil in Hnil. destruct Hnil as [Hbase Hcoll]. split.
    + destruct (adiz_baseline data) as [[| entries] |]; try discriminate. eauto.
    + intros dataset Hin Hother.
      assert (Hmem : In (dataset ++ " must be an array")%string
                        (flat_map (fun dataset =>
                                     match collections data !! dataset with
                                     | Some Other => [(dataset ++ " must be an array")%string]
                                     | _ => []
                                     end)
                                  ["arms_sales"; "diplomatic"; "bills"; "ships";
                                   "political_symbolic"]%string)).
      { apply in_flat_map. exists dataset. split; [exact Hin |].
        rewrite Hother. now left. }
      rewrite Hcoll in Hmem. contradiction.
  - intros [[entries Hbase] Hcoll]. rewrite Hbase. cbn [app].
    apply flat_map_nil. intros dataset Hin. specialize (Hcoll dataset Hin).
    destruct (collections data !! dataset) as [[| ds] |]; congruence.
Qed.

Lemma length_substring (n m : nat) (s : string) :
  (String.length (substring n m s) <= m)%nat.
Proof.
  revert n m. induction s as [| c s IH]; intros n m.
  - destruct n, m; cbn; lia.
  - destruct n as [| n]; [destruct m as [| m] |]; cbn; [lia | | apply IH].
    specialize (IH 0%nat m). lia.
Qed.

Lemma length_append (a b : string) :
  String.length (a ++ b)%string = (String.length a + String.length b)%nat.
Proof. induction a as [| c a IH]; simpl; [reflexivity | now rewrite IH]. Qed.

(** X9: the label of an arms-sale record is the first 50 characters of its
    [weapon_sale] text followed by ['...'], at most 53 characters long, and
    ['undefined...'] when the record has no such text; the fallback
    ['Arms Sale'] is never produced.  The same holds for a diplomatic record
    with [Descriptor] and ['Diplomatic Event']. *)
Theorem getEventLabel_never_falls_back (raw : RawEvent) :
  getEventLabel "arms_sales" raw
  = Some (match props raw !! "weapon_sale"%string with
          | Some text => substring 0 50 text
          | None => "undefined"%string
          end ++ "...")%string
  /\ getEventLabel "diplomatic" raw
     = Some (match props raw !! "Descriptor"%string with
             | Some text => substring 0 50 text
             | None => "undefined"%string
             end ++ "...")%string
  /\ getEventLabel "arms_sales" raw <> Some "Arms Sale"%string
  /\ getEventLabel "diplomatic" raw <> Some "Diplomatic Event"%string
  /\ (forall l, getEventLabel "arms_sales" raw = Some l \/
                getEventLabel "diplomatic" raw = Some l ->
                (String.length l <= 53)%nat).
Proof.
  assert (Hkeep : forall p : string,
             str_or (Some (p ++ "...")%string) (Some "Arms Sale"%string)
             = Some (p ++ "...")%string
             /\ str_or (Some (p ++ "...")%string) (Some "Diplomatic Event"%string)
                = Some (p ++ "...")%string).
  { intros p. unfold str_or.
    destruct (String.eqb_spec (p ++ "...")%string EmptyString) as [E | _]; [| now split].
    apply (f_equal String.length) in E. rewrite length_append in E. simpl in E. lia. }
  assert (Ha : getEventLabel "arms_sales" raw
               = Some (match props raw !! "weapon_sale"%string with
                       | Some text => substring 0 50 text
                       | None => "undefined"%string
                       end ++ "...")%string).
  { unfold getEventLabel. simpl String.eqb. cbv iota. unfold tmpl.
    destruct (props raw !! "weapon_sale"%string); cbn [fmap option_fmap option_map default];
      apply Hkeep. }
  assert (Hd : getEventLabel "diplomatic" raw
               = Some (match props raw !! "Descriptor"%string with
                       | Some text => substring 0 50 text
                       | None => "undefined"%string
                       end ++ "...")%string).
  { unfold getEventLabel. simpl String.eqb. cbv iota. unfold tmpl.
    destruct (props raw !! "Descriptor"%string); cbn [fmap option_fmap option_map default];
      apply Hkeep. }
  assert (Hlen : forall o : option string,
             (String.length (match o with
                             | Some text => substring 0 50 text
                             | None => "undefined"%string
                             end ++ "...")%string <= 53)%nat).
  { intros o. rewrite length_append. destruct o as [text |]; cbn [String.length].
    - pose proof (length_substring 0 50 text). lia.
    - lia. }
  split; [exact Ha |]. split; [exact Hd |]. split; [| split].
  - rewrite Ha. intros [= E]. revert E. generalize (match props raw !! "weapon_sale"%string with
                              | Some text => substring 0 50 text
                              | None => "undefined"%string
                              end).
    intros p E.
    assert (Hp : String.length p = 6%nat)
      by (apply (f_equal String.length) in E; rewrite length_append in E; simpl in E; lia).
    do 7 (destruct p as [| ? p]; simpl in Hp; try lia).
    cbv in E. congruence.
  - rewrite Hd. intros [= E]. revert E. generalize (match props raw !! "Descriptor"%string with
                              | Some text => substring 0 50 text
                              | None => "undefined"%string
                              end).
    intros p E.
    assert (Hp : String.length p = 13%nat)
      by (apply (f_equal String.length) in E; rewrite length_append in E; simpl in E; lia).
    do 14 (destruct p as [| ? p]; simpl in Hp; try lia).
    cbv in E. congruence.
  - intros l [E | E]; [rewrite Ha in E | rewrite Hd in E]; injection E as <-; apply Hlen.
Qed.

End Schema.

(** ** Loading and querying (dataConnector.js) *)

Section Catalog.

Import DataSchema DataConnector Spec.

Lemma lookup_config_In (name : string) (config : Config) (tbl : list (string * Config)) :
  lookup_config name tbl = Some config -> In name (map fst tbl).
Proof.
  induction tbl as [| [k c] rest IH]; cbn [lookup_config map fst]; [discriminate |].
  destruct (String.eqb_spec k name) as [-> | _]; [now left |].
  intros H. right. now apply IH.
Qed.

Lemma lookup_config_known (name : string) :
  In name (map fst events) -> exists config, lookup_config name events = Some config.
Proof.
  cbn. intros [<- | [<- | [<- | [<- | [<- | []]]]]]; eexists; reflexivity.
Qed.

(** X10: the index holds exactly the records of the known collections that
    are arrays and carry a date under the collection's date field, each
    normalised with the category of its collection; records without that
    date and collections the schema does not know leave no entry; the
    entries are in ascending date order. *)
Theorem buildEventIndex_members (data : DATA) (e : Event) :
  (In e (buildEventIndex data)
   <-> exists name config ds raw d,
         lookup_config name events = Some config
         /\ collections data !! name = Some (Arr ds)
         /\ In raw ds
         /\ read_date (date_field config) raw = Some d
         /\ e = catalog_entry name config raw d)
  /\ ascending (buildEventIndex data).
Proof.
  split; [| apply sort_by_date_ascending].
  unfold buildEventIndex. rewrite In_sort_by_date, in_flat_map. split.
  - intros (name & Hname & He).
    destruct (collections data !! name) as [[| ds] |] eqn:Hcoll; try contradiction.
    apply in_flat_map in He. destruct He as (raw & Hraw & He).
    unfold normalize_into, normalizeEvent in He.
    destruct (lookup_config name events) as [config |] eqn:Hcfg; [| contradiction].
    cbn [n_date n_category n_label n_description n_fields] in He.
    destruct (read_date (date_field config) raw) as [d |] eqn:Hd; [| contradiction].
    destruct He as [<- | []]. exists name, config, ds, raw, d. repeat split; assumption.
  - intros (name & config & ds & raw & d & Hcfg & Hcoll & Hraw & Hd & ->).
    exists name. split; [now apply lookup_config_In with config |].
    rewrite Hcoll. apply in_flat_map. exists raw. split; [assumption |].
    unfold normalize_into, normalizeEvent. rewrite Hcfg.
    cbn [n_date n_category n_label n_description n_fields]. rewrite Hd. now left.
Qed.

Lemma holds_null_In {A} (l : list (option A)) :
  holds_null (Arr l) = true <-> In None l.
Proof.
  cbn [holds_null]. rewrite existsb_exists. split.
  - intros ([x |] & Hin & Hx); [discriminate | exact Hin].
  - intros Hin. exists None. split; [exact Hin | reflexivity].
Qed.

Lemma known_null (data : Payload) :
  existsb (fun dataset_name =>
             match p_collections data !! dataset_name with
             | Some ds => holds_null ds
             | None => false
             end) (map fst events) = true
  <-> exists name ds, In name (map fst events)
                      /\ p_collections data !! name = Some (Arr ds) /\ In None ds.
Proof.
  rewrite existsb_exists. split.
  - intros (name & Hname & Hnull).
    destruct (p_collections data !! name) as [[| ds] |] eqn:Hcoll; try discriminate.
    exists name, ds. split; [exact Hname |]. split; [exact Hcoll |].
    now apply holds_null_In.
  - intros (name & ds & Hname & Hcoll & Hnull). exists name.
    split; [exact Hname |]. rewrite Hcoll. now apply holds_null_In.
Qed.

Lemma validate_shape_ok (D : option Payload) :
  ok (validate (shape <$> D)) = true ->
  exists data entries, D = Some data /\ p_baseline data = Some (Arr entries).
Proof.
  intros Hok. destruct (validate_ok _ Hok) as (d & es & Hd & Hb).
  destruct D as [data |]; [| discriminate]. cbn in Hd. injection Hd as <-.
  cbn [shape adiz_baseline] in Hb.
  destruct (p_baseline data) as [[| entries] |] eqn:Hp; try discriminate. eauto.
Qed.

(** X11: a load is not all or nothing.  When validation fails the call
    throws the joined list of errors and the connector keeps what it had.
    When it passes, the data is stored at once; a [null] in the baseline
    array then stops the load with a [TypeError] and the old map and index
    stay; otherwise the new map is stored, and a [null] in a collection of
    the schema table stops the load with the old index still in place; only
    without any such [null] are all three replaced and the index counted. *)
Theorem loadFromObject_stepwise (st : State) (D : option Payload) :
  (ok (validate (shape <$> D)) = false
   /\ loadFromObject st D
      = (Throw ("Invalid DATA structure: "
                ++ String.concat ", " (errors (validate (shape <$> D))))%string, st))
  \/ (ok (validate (shape <$> D)) = true
      /\ exists data entries,
          D = Some data
          /\ p_baseline data = Some (Arr entries)
          /\ ((In None entries
               /\ loadFromObject st D
                  = (Throw "TypeError",
                     {| currentData := Some data;
                        baselineMap := baselineMap st;
                        eventIndex := eventIndex st |}))
              \/ (~ In None entries
                  /\ (exists name ds,
                         In name (map fst events)
                         /\ p_collections data !! name = Some (Arr ds)
                         /\ In None ds)
                  /\ loadFromObject st D
                     = (Throw "TypeError",
                        {| currentData := Some data;
                           baselineMap :=
                             Some (Utils.createBaselineMap (omap id entries));
                           eventIndex := eventIndex st |}))
              \/ (~ In None entries
                  /\ (forall name ds,
                         In name (map fst events) ->
                         p_collections data !! name = Some (Arr ds) -> ~ In None ds)
                  /\ loadFromObject st D
                     = (Ok {| load_ok := true;
                              eventCount :=
                                Z.of_nat (List.length (buildEventIndex (shape data))) |},
                        {| currentData := Some data;
                           baselineMap :=
                             Some (Utils.createBaselineMap (omap id entries));
                           eventIndex := Some (buildEventIndex (shape data)) |})))).
Proof.
  unfold loadFromObject. destruct (ok (validate (shape <$> D))) eqn:Hok; cbn [negb].
  - right. split; [reflexivity |].
    destruct (validate_shape_ok D Hok) as (data & entries & -> & Hb).
    exists data, entries. split; [reflexivity |]. split; [exact Hb |]. rewrite Hb.
    destruct (holds_null (Arr entries)) eqn:Hnull.
    + left. split; [now apply holds_null_In | reflexivity].
    + right.
      assert (Hclean : ~ In None entries)
        by (intros Hin; apply holds_null_In in Hin; congruence).
      match goal with
      | |- context [if ?b then _ else _] => destruct b eqn:Hknown
      end.
      * left. split; [exact Hclean |]. split; [now apply known_null | reflexivity].
      * right. split; [exact Hclean |]. split; [| reflexivity].
        intros name ds Hname Hcoll Hin.
        assert (Hex : exists name ds, In name (map fst events)
                                      /\ p_collections data !! name = Some (Arr ds)
                                      /\ In None ds) by eauto.
        apply known_null in Hex. congruence.
  - left. split; reflexivity.
Qed.

(** The state a call of [loadFromObject] leaves: the old one, or the new
    data with the old map and index, or with a new map and the old index, or
    with a new map and a new index. *)
Lemma loadFromObject_state (st : State) (D : option Payload) :
  snd (loadFromObject st D) = st
  \/ exists data,
      snd (loadFromObject st D)
      = {| currentData := Some data;
           baselineMap := baselineMap st;
           eventIndex := eventIndex st |}
      \/ (exists m,
             snd (loadFromObject st D)
             = {| currentData := Some data;
                  baselineMap := Some m;
                  eventIndex := eventIndex st |})
      \/ (exists m idx,
             snd (loadFromObject st D)
             = {| currentData := Some data;
                  baselineMap := Some m;
                  eventIndex := Some idx |}).
Proof.
  unfold loadFromObject. destruct (ok (validate (shape <$> D))) eqn:Hok; cbn [negb];
    [| left; reflexivity].
  destruct (validate_shape_ok D Hok) as (data & entries & -> & Hb).
  right. exists data. rewrite Hb.
  destruct (holds_null (Arr entries)); [left; reflexivity | right].
  match goal with
  | |- context [if ?b then _ else _] => destruct b
  end; [left | right]; eauto.
Qed.

(** X12: whatever the connector has been handed, its three slots are
    filled in order: without data it is in its initial state, a baseline
    map is there only with data, and an event index only with a baseline
    map. *)
Theorem attainable_slots_in_order (st : State) :
  attainable st ->
  (isLoaded st = false -> st = initial)
  /\ (baselineMap st <> None -> isLoaded st = true)
  /\ (eventIndex st <> None -> baselineMap st <> None).
Proof.
  induction 1 as [| st D Hattain IH]; [repeat split; intros H; now try contradiction |].
  destruct (loadFromObject_state st D)
    as [-> | (data & [-> | [(m & ->) | (m & idx & ->)]])];
    [exact IH | | |]; destruct IH as (_ & _ & IH);
    unfold isLoaded; cbn [currentData baselineMap eventIndex];
    (split; [discriminate |]); split; intros H; try reflexivity;
    try discriminate; auto.
Qed.

Lemma attainable_slots_in_order_witness :
  attainable Examples.half_loaded
  /\ (isLoaded Examples.half_loaded = false -> Examples.half_loaded = initial)
  /\ (baselineMap Examples.half_loaded <> None -> isLoaded Examples.half_loaded = true)
  /\ (eventIndex Examples.half_loaded <> None
      -> baselineMap Examples.half_loaded <> None).
Proof.
  assert (H : attainable Examples.half_loaded)
    by exact (attain_load initial (Some Examples.broken_payload) attain_initial).
  split; [exact H |]. exact (attainable_slots_in_order Examples.half_loaded H).
Defined.

Lemma filter_filter_and {A} (p q : A -> bool) (l : list A) :
  List.filter p (List.filter q l) = List.filter (fun x => q x && p x) l.
Proof.
  induction l as [| x xs IH]; cbn [List.filter]; [reflexivity |].
  destruct (q x); cbn [List.filter andb]; [| exact IH].
  destruct (p x); now rewrite IH.
Qed.

Lemma filter_all {A} (l : list A) : List.filter (fun _ => true) l = l.
Proof. induction l as [| x xs IH]; cbn; [reflexivity | now rewrite IH]. Qed.

Lemma getEvents_filter (st : State) (f : Filters) :
  getEvents st f = List.filter (passes f) (default [] (eventIndex st)).
Proof.
  unfold getEvents, passes.
  destruct (eventIndex st) as [index |]; [| reflexivity]. cbn [default].
  destruct f as [cat sd ed yr ds cf].
  cbn [f_category f_startDate f_endDate f_year f_dataset f_customFilter].
  destruct cat as [c |]; [destruct (truthy c && negb (String.eqb c "all")) |];
    destruct sd, ed; destruct yr as [[| y] |];
    (destruct ds as [d |]; [destruct (truthy d) |]); destruct cf;
    rewrite <- (filter_all index) at 1;
    rewrite ?filter_filter_and;
    apply List.filter_ext; intros e; cbn [andb];
    rewrite ?andb_assoc, ?andb_true_r; reflexivity.
Qed.

Lemma getEvents_no_filters (st : State) :
  getEvents st no_filters = default [] (eventIndex st).
Proof. rewrite getEvents_filter. apply filter_all. Qed.

(** X13: the filters of [getEvents] combine conjunctively and keep the
    order of the index: the answer is the index restricted to the events
    that pass every filter that is switched on.  Without an index the answer
    is empty; without filters, or with the category ['all'], it is the whole
    index. *)
Theorem getEvents_passes (st : State) (filters : Filters) :
  getEvents st filters
  = List.filter (passes filters) (default [] (eventIndex st))
  /\ getEvents st no_filters = default [] (eventIndex st)
  /\ getEvents st (mkFilters (Some "all"%string) None None None None None)
     = default [] (eventIndex st).
Proof.
  split; [apply getEvents_filter |]. split.
  - apply getEvents_no_filters.
  - rewrite getEvents_filter. apply filter_all.
Qed.

End Catalog.

Section WindowQueries.

Context {tz : Zone} {steady_tz : Steady tz}.

Import DataSchema DataConnector Spec.

Lemma head_last_seqZ (m n : Z) :
  0 < n -> head (seqZ m n) = Some m /\ last (seqZ m n) = Some (m + n - 1).
Proof.
  intros Hn. split.
  - rewrite seqZ_cons by lia. reflexivity.
  - rewrite last_lookup, length_seqZ.
    rewrite lookup_seqZ_lt by lia. f_equal. lia.
Qed.

Lemma getEventsInWindow_filter (st : State) (centerDate windowSize : Z) :
  0 <= windowSize ->
  getEventsInWindow st centerDate windowSize
  = List.filter (fun e => (centerDate - windowSize <=? date e)
                          && (date e <=? centerDate + windowSize))
                (default [] (eventIndex st)).
Proof.
  intros Hw. unfold getEventsInWindow. rewrite getEvents_filter.
  rewrite getDateWindow_seqZ.
  destruct (head_last_seqZ (centerDate - windowSize) (2 * windowSize + 1)) as [-> ->];
    [lia |].
  apply List.filter_ext. intros e. unfold passes.
  cbn [f_category f_startDate f_endDate f_year f_dataset f_customFilter andb].
  rewrite !andb_true_r. do 2 f_equal. lia.
Qed.

(** X14: on a clock that never changes, for a window radius [>= 0],
    [getEventsInWindow] answers with the
    events of the index dated from [center - radius] to [center + radius],
    both days included, in the order of the index. *)
Theorem getEventsInWindow_range (st : State) (centerDate windowSize : Z) :
  0 <= windowSize ->
  getEventsInWindow st centerDate windowSize
  = List.filter (fun e => (centerDate - windowSize <=? date e)
                          && (date e <=? centerDate + windowSize))
                (default [] (eventIndex st)).
Proof.
  intros Hw. rewrite getEventsInWindow_filter by exact Hw.
  apply List.filter_ext. intros e. reflexivity.
Qed.

(** X17: on a clock that never changes, [getBaselineData] over the days
    of a window returns the dates and counts of [getWindowData], day for
    day; over a range that ends before it starts, and on a connector
    without a map, it returns nothing. *)
Theorem getBaselineData_window (st : State) (m : gmap Z Q) (anchor r : Z) :
  baselineMap st = Some m ->
  getBaselineData st (anchor - r) (anchor + r)
  = map (fun p => (Utils.date p, Utils.adiz_count p)) (Utils.getWindowData anchor r m)
  /\ (forall startDate endDate, endDate < startDate ->
                                getBaselineData st startDate endDate = [])
  /\ (forall startDate endDate, getBaselineData initial startDate endDate = []).
Proof.
  intros Hm. unfold getBaselineData. rewrite Hm. split; [| split].
  - unfold Utils.getWindowData. rewrite getDateWindow_seqZ, map_map.
    cbn [Utils.date Utils.adiz_count].
    rewrite <- (map_map Utils.formatDate (fun d => (d, Utils.getADIZCount d m))).
    unfold Utils.parseDate.
    replace ((anchor + r) * msPerDay)
      with ((anchor - r + (2 * r + 1) - 1) * msPerDay) by (f_equal; lia).
    now rewrite each_day_steady.
  - intros startDate endDate Hlt. unfold Utils.each_day, Utils.parseDate.
    destruct (Z.to_nat _) as [| k]; [reflexivity |]. cbn [Utils.for_each_day].
    destruct (Z.leb_spec (startDate * msPerDay) (endDate * msPerDay)) as [Hle | _];
      [unfold msPerDay in Hle; lia | reflexivity].
  - reflexivity.
Qed.

End WindowQueries.

Section Categories.

Import DataSchema DataConnector Spec.

Lemma distinct_fold (l seen : list string) :
  NoDup seen ->
  NoDup (foldl (fun seen x => if existsb (String.eqb x) seen then seen else seen ++ [x])
               seen l)
  /\ forall x,
       In x (foldl (fun seen x => if existsb (String.eqb x) seen then seen else seen ++ [x])
                   seen l)
       <-> In x seen \/ In x l.
Proof.
  revert seen. induction l as [| y ys IH]; intros seen Hnd; cbn [foldl].
  - split; [assumption | intros x; cbn; tauto].
  - destruct (existsb (String.eqb y) seen) eqn:E.
    + destruct (IH seen Hnd) as [Hnd' Hmem]. split; [assumption |].
      intros x. rewrite Hmem. cbn [In]. split; [tauto |].
      intros [H | [<- | H]]; auto.
      left. apply existsb_exists in E. destruct E as (z & Hz & Ez).
      apply String.eqb_eq in Ez. now subst z.
    + assert (Hnew : ~ In y seen).
      { intros Hin. apply not_true_iff_false in E. apply E.
        apply existsb_exists. exists y. split; [assumption | apply String.eqb_refl]. }
      destruct (IH (seen ++ [y])) as [Hnd' Hmem].
      { apply NoDup_app. split; [assumption |]. split.
        - intros z Hz Hz'. apply list_elem_of_In in Hz.
          apply list_elem_of_In in Hz'. destruct Hz' as [<- | []]. contradiction.
        - apply NoDup_singleton. }
      split; [assumption |]. intros x. rewrite Hmem, in_app_iff. cbn [In]. tauto.
Qed.

(** X16: [getCategories] lists every category that occurs in the index,
    each once; without an index it is empty; in a reachable state it lists
    nothing but the five categories of the schema table. *)
Theorem getCategories_distinct (st : State) :
  reachable st ->
  NoDup (getCategories st)
  /\ (forall c, In c (getCategories st)
                <-> exists e, In e (default [] (eventIndex st)) /\ category e = c)
  /\ (forall c, In c (getCategories st) ->
                In c ["arms"; "diplomatic"; "bills"; "ships"; "political"]%string)
  /\ (eventIndex st = None -> getCategories st = []).
Proof.
  intros Hreach.
  assert (Hmem : forall c, In c (getCategories st)
                           <-> exists e, In e (default [] (eventIndex st))
                                         /\ category e = c).
  { intros c. unfold getCategories. destruct (eventIndex st) as [index |]; cbn [default].
    - unfold distinct. destruct (distinct_fold (map category index) []) as [_ H];
        [apply NoDup_nil_2 |].
      rewrite H, in_map_iff. cbn [In]. split.
      + intros [[] | (e & He & Hin)]. eauto.
      + intros (e & Hin & He). right. eauto.
    - cbn. split; [tauto | intros (e & [] & _)]. }
  split; [| split; [exact Hmem | split]].
  - unfold getCategories. destruct (eventIndex st); [| apply NoDup_nil_2].
    unfold distinct. apply distinct_fold, NoDup_nil_2.
  - intros c Hc. apply Hmem in Hc. destruct Hc as (e & He & <-).
    clear Hmem. induction Hreach as [| st D Hreach IH]; [destruct He |].
    destruct (loadFromObject_cases st D)
      as [[message Hload] | (data & entries & report & _ & _ & Hload)];
      rewrite Hload in He; cbn [snd] in He.
    + now apply IH.
    + cbn in He. now apply buildEventIndex_category with data.
  - intros Hnone. unfold getCategories. now rewrite Hnone.
Qed.

Lemma getCategories_distinct_witness :
  reachable Examples.flat_state
  /\ NoDup (getCategories Examples.flat_state)
  /\ (forall c, In c (getCategories Examples.flat_state)
                <-> exists e, In e (default [] (eventIndex Examples.flat_state))
                              /\ category e = c)
  /\ (forall c, In c (getCategories Examples.flat_state) ->
                In c ["arms"; "diplomatic"; "bills"; "ships"; "political"]%string)
  /\ (eventIndex Examples.flat_state = None -> getCategories Examples.flat_state = []).
Proof.
  assert (H : reachable Examples.flat_state) by apply reachable_loading.
  split; [exact H |]. exact (getCategories_distinct Examples.flat_state H).
Defined.

End Categories.

Section WindowQueriesInstances.

(* The clock of this section is at UTC. *)
#[local] Existing Instance utc.

Import DataSchema DataConnector Spec.

Lemma getEventsInWindow_range_witness :
  0 <= 7
  /\ getEventsInWindow Examples.flat_state 19797 7
     = List.filter (fun e => (19797 - 7 <=? date e) && (date e <=? 19797 + 7))
                   (default [] (eventIndex Examples.flat_state)).
Proof.
  split; [lia |]. apply (getEventsInWindow_range Examples.flat_state 19797 7). lia.
Defined.



Lemma getBaselineData_window_witness :
  baselineMap Examples.spiky_state = Some Examples.spiky_map
  /\ getBaselineData Examples.spiky_state (19797 - 21) (19797 + 21)
     = map (fun p => (Utils.date p, Utils.adiz_count p))
           (Utils.getWindowData 19797 21 Examples.spiky_map)
  /\ (forall startDate endDate, endDate < startDate ->
                                getBaselineData Examples.spiky_state startDate endDate = [])
  /\ (forall startDate endDate, getBaselineData initial startDate endDate = []).
Proof.
  assert (H : baselineMap Examples.spiky_state = Some Examples.spiky_map) by reflexivity.
  split; [exact H |].
  exact (getBaselineData_window Examples.spiky_state Examples.spiky_map 19797 21 H).
Defined.

End WindowQueriesInstances.

(** ** Sorting and interval filters used by the analyzers *)

Section SortingAndIntervals.

Context {tz : Zone} {steady_tz : Steady tz}.

Lemma In_insert_by {A} (key : A -> Q) (x e : A) (l : list A) :
  In e (insert_by key x l) <-> e = x \/ In e l.
Proof.
  induction l as [| y ys IH]; cbn [insert_by In]; [intuition congruence |].
  destruct (Qlt_bool (key y) (key x)); cbn [In]; rewrite ?IH; intuition congruence.
Qed.

Lemma In_sort_by {A} (key : A -> Q) (e : A) (l : list A) :
  In e (sort_by key l) <-> In e l.
Proof.
  unfold sort_by. induction l as [| x xs IH]; cbn [foldr In]; [tauto |].
  rewrite In_insert_by, IH. intuition congruence.
Qed.

Lemma length_insert_by {A} (key : A -> Q) (x : A) (l : list A) :
  List.length (insert_by key x l) = S (List.length l).
Proof.
  induction l as [| y ys IH]; cbn [insert_by List.length]; [reflexivity |].
  destruct (Qlt_bool (key y) (key x)); cbn [List.length]; now rewrite ?IH.
Qed.

Lemma length_sort_by {A} (key : A -> Q) (l : list A) :
  List.length (sort_by key l) = List.length l.
Proof.
  unfold sort_by. induction l as [| x xs IH]; cbn [foldr List.length]; [reflexivity |].
  now rewrite length_insert_by, IH.
Qed.

Lemma sorted_insert_by {A} (key : A -> Q) (x : A) (l : list A) :
  StronglySorted (fun a b => (key a <= key b)%Q) l ->
  StronglySorted (fun a b => (key a <= key b)%Q) (insert_by key x l).
Proof.
  induction l as [| y ys IH]; cbn [insert_by]; intros Hl.
  - constructor; constructor.
  - inversion Hl as [| ? ? Hys Hall]; subst.
    destruct (Qlt_bool (key y) (key x)) eqn:E.
    + apply Qlt_bool_iff in E. constructor; [now apply IH |].
      apply Forall_forall. intros z Hz. apply list_elem_of_In, In_insert_by in Hz.
      destruct Hz as [-> | Hz]; [lra |].
      rewrite Forall_forall in Hall. now apply Hall, list_elem_of_In.
    + apply Qlt_bool_false in E. constructor; [assumption |].
      constructor; [assumption |].
      eapply Forall_impl; [exact Hall |]. cbn. intros z Hz. lra.
Qed.

Lemma sorted_sort_by {A} (key : A -> Q) (l : list A) :
  StronglySorted (fun a b => (key a <= key b)%Q) (sort_by key l).
Proof.
  unfold sort_by. induction l as [| x xs IH]; cbn [foldr]; [constructor |].
  now apply sorted_insert_by.
Qed.

(** The integers of a run that fall in an interval form a run again. *)
Lemma filter_seqZ_interval (lo hi a n : Z) :
  List.filter (fun z => (lo <=? z) && (z <=? hi)) (seqZ a n)
  = seqZ (Z.max a lo) (Z.min (a + n - 1) hi - Z.max a lo + 1).
Proof.
  remember (Z.to_nat n) as k eqn:Hk. revert a n Hk.
  induction k as [| k IH]; intros a n Hk.
  - rewrite (seqZ_nil a) by lia. rewrite seqZ_nil by lia. reflexivity.
  - rewrite (seqZ_cons a) by lia. cbn [List.filter].
    rewrite (IH (Z.succ a) (Z.pred n)) by lia.
    destruct (Z.leb_spec lo a) as [Hlo | Hlo]; cbn [andb].
    + destruct (Z.leb_spec a hi) as [Hhi | Hhi].
      * rewrite (seqZ_cons (Z.max a lo)) by lia.
        rewrite (Z.max_l a lo) by lia. f_equal. f_equal; lia.
      * rewrite !seqZ_nil by lia. reflexivity.
    + destruct (Z.le_gt_cases lo (a + n - 1)) as [Hin | Hout].
      * f_equal; lia.
      * rewrite !seqZ_nil by lia. reflexivity.
Qed.

Lemma filter_map_comm {A B} (f : A -> B) (p : B -> bool) (l : list A) :
  List.filter p (map f l) = map f (List.filter (fun a => p (f a)) l).
Proof.
  induction l as [| x xs IH]; cbn [map List.filter]; [reflexivity |].
  destruct (p (f x)); cbn [map]; now rewrite IH.
Qed.

(** The points of a window whose offsets fall in [[lo, hi]]: the days from
    [anchor + max(-r, lo)] to [anchor + min(r, hi)]. *)
Lemma window_points_between (m : gmap Z Q) (anchor r lo hi : Z) :
  List.filter (fun p => (lo <=? Utils.days_from_event p)
                        && (Utils.days_from_event p <=? hi))
              (Utils.getWindowData anchor r m)
  = map (fun d => {| Utils.date := d;
                     Utils.adiz_count := Utils.getADIZCount d m;
                     Utils.days_from_event := Utils.daysDiff anchor d |})
        (seqZ (anchor + Z.max (- r) lo) (Z.min r hi - Z.max (- r) lo + 1)).
Proof.
  unfold Utils.getWindowData. rewrite filter_map_comm. cbn [Utils.days_from_event].
  rewrite getDateWindow_seqZ. f_equal.
  rewrite (List.filter_ext _ (fun z => (anchor + lo <=? z) && (z <=? anchor + hi))).
  - rewrite filter_seqZ_interval. f_equal; lia.
  - intros d. unfold Utils.daysDiff.
    destruct (Z.leb_spec lo (d - anchor)), (Z.leb_spec (anchor + lo) d); try lia;
      destruct (Z.leb_spec (d - anchor) hi), (Z.leb_spec d (anchor + hi)); try lia;
      reflexivity.
Qed.


Lemma window_point_offset (m : gmap Z Q) (anchor w : Z) (p : Utils.WindowPoint) :
  In p (Utils.getWindowData anchor w m) -> - w <= Utils.days_from_event p <= w.
Proof.
  intros Hp. apply (in_map Utils.days_from_event) in Hp.
  rewrite getWindowData_offsets in Hp. apply list_elem_of_In, elem_of_seqZ in Hp. lia.
Qed.

End SortingAndIntervals.

(** ** The single-event analyzer (singleEvent.js) *)

Section SingleEvent.

Context {tz : Zone} {steady_tz : Steady tz}.

Import DataConnector Spec SingleEventAnalyzer.

Lemma findIndex_run {A} (f : A -> Z) (l : list A) (a n t : Z) :
  map f l = seqZ a n -> a <= t < a + n ->
  findIndex (fun p => f p =? t) l = t - a.
Proof.
  revert a n. induction l as [| p ps IH]; intros a n Hmap Ht.
  - symmetry in Hmap. cbn in Hmap. apply (f_equal (@List.length Z)) in Hmap.
    rewrite length_seqZ in Hmap. cbn in Hmap. lia.
  - rewrite seqZ_cons in Hmap by lia. cbn [map] in Hmap. injection Hmap as Hp Hps.
    cbn [findIndex]. destruct (Z.eqb_spec (f p) t) as [E | E]; [lia |].
    rewrite (IH (Z.succ a) (Z.pred n)) by (assumption || lia).
    destruct (Z.ltb_spec (t - Z.succ a) 0); lia.
Qed.

(** What [analyze] returns and stores once the data is there. *)
Lemma analyze_loaded (dc : DataConnector.State) (st : State) (event : Event)
    (options : Options) (m : gmap Z Q) :
  isLoaded dc = true -> baselineMap dc = Some m ->
  exists a,
    analyze dc st event options
    = (Ok a, mkState (Some event) (num_or (windowSize options) 7)
                     (num_or (baselineDays options) 30) (Some a))
    /\ SingleEventAnalyzer.event a = event
    /\ eventDate a = date event
    /\ window_size a = num_or (windowSize options) 7
    /\ window_data a
       = Utils.getWindowData (date event) (num_or (windowSize options) 7) m
    /\ baseline_stats a
       = Utils.getBaselineStats (date event) (num_or (baselineDays options) 30) m
    /\ confounders a
       = List.filter (fun e => negb (date e =? date event)
                               || negb (bool_decide (label e = label event)))
                     (getEventsInWindow dc (date event) (num_or (windowSize options) 7)).
Proof.
  intros Hloaded Hm. unfold analyze. rewrite Hloaded, Hm. cbn [negb].
  eexists. split; [reflexivity |]. cbn. repeat split.
Qed.

(** X18: on loaded data [analyze] succeeds and keeps its result; the chart
    data read back afterwards has one date and one count per day of the
    window, from [date - w] to [date + w], and places the event at index
    [w], where [w] is the requested radius, or 7 when none or 0 was
    requested. *)
Theorem analyze_then_getChartData (dc : DataConnector.State) (st : State)
    (event : Event) (options : Options) :
  reachable dc -> isLoaded dc = true -> 0 <= num_or (windowSize options) 7 ->
  exists a st' chart,
    analyze dc st event options = (Ok a, st')
    /\ currentAnalysis st' = Some a
    /\ getChartData st' = Some chart
    /\ x chart
       = seqZ (date event - num_or (windowSize options) 7)
              (2 * num_or (windowSize options) 7 + 1)
    /\ Z.of_nat (List.length (y chart)) = 2 * num_or (windowSize options) 7 + 1
    /\ event_date chart = date event
    /\ event_index chart = num_or (windowSize options) 7
    /\ num_or (windowSize (mkOptions None None)) 7 = 7
    /\ num_or (windowSize (mkOptions (Some 0) None)) 7 = 7.
Proof.
  intros Hreach Hloaded Hw.
  destruct (reachable_loaded dc Hreach Hloaded) as (m & index & Hm & _ & _).
  destruct (analyze_loaded dc st event options m Hloaded Hm)
    as (a & Hcall & _ & Hdate & _ & Hdata & _ & _).
  eexists a, _, _. split; [exact Hcall |]. split; [reflexivity |].
  unfold getChartData. cbn [currentAnalysis]. split; [reflexivity |].
  cbn [x y event_date event_index]. rewrite Hdata, Hdate.
  split; [apply getWindowData_dates |].
  split; [rewrite length_map, <- (length_map Utils.date), getWindowData_dates,
            length_seqZ; lia |].
  split; [reflexivity |]. split; [| split; reflexivity].
  rewrite (findIndex_run Utils.date _ (date event - num_or (windowSize options) 7)
             (2 * num_or (windowSize options) 7 + 1));
    [lia | apply getWindowData_dates | lia].
Qed.

(** X19: the confounders of an analysis with radius [w >= 0] are exactly
    the events of the index dated within [w] days of the analysed event that
    differ from it in date or in label: the event itself is never listed,
    another event of the same day with another label is. *)
Theorem confounders_characterised (dc : DataConnector.State) (st : State)
    (event : Event) (options : Options) :
  reachable dc -> isLoaded dc = true -> 0 <= num_or (windowSize options) 7 ->
  exists a st',
    analyze dc st event options = (Ok a, st')
    /\ getConfounders st' = Some (confounders a)
    /\ (forall e,
           In e (confounders a)
           <-> In e (default [] (eventIndex dc))
               /\ date event - num_or (windowSize options) 7 <= date e
                  <= date event + num_or (windowSize options) 7
               /\ (date e <> date event \/ label e <> label event))
    /\ ~ In event (confounders a).
Proof.
  intros Hreach Hloaded Hw.
  destruct (reachable_loaded dc Hreach Hloaded) as (m & index & Hm & _ & _).
  destruct (analyze_loaded dc st event options m Hloaded Hm)
    as (a & Hcall & _ & _ & _ & _ & _ & Hconf).
  assert (Hmem : forall e,
             In e (confounders a)
             <-> In e (default [] (eventIndex dc))
                 /\ date event - num_or (windowSize options) 7 <= date e
                    <= date event + num_or (windowSize options) 7
                 /\ (date e <> date event \/ label e <> label event)).
  { intros e. rewrite Hconf, filter_In, getEventsInWindow_filter by assumption.
    rewrite filter_In, andb_true_iff, orb_true_iff, !negb_true_iff.
    rewrite !Z.leb_le, Z.eqb_neq, bool_decide_eq_false. tauto. }
  eexists a, _. split; [exact Hcall |]. split; [reflexivity |].
  split; [exact Hmem |].
  intros Hin. apply Hmem in Hin. destruct Hin as (_ & _ & [H | H]); now apply H.
Qed.

End SingleEvent.

Section SingleEventInstances.

(* The clock of this section is at UTC. *)
#[local] Existing Instance utc.

Import DataConnector Spec SingleEventAnalyzer.

Lemma analyze_then_getChartData_witness :
  reachable Examples.flat_state
  /\ isLoaded Examples.flat_state = true
  /\ 0 <= num_or (windowSize (mkOptions (Some 3) None)) 7
  /\ exists a st' chart,
      analyze Examples.flat_state initial Examples.sale_2024_03_15
              (mkOptions (Some 3) None) = (Ok a, st')
      /\ currentAnalysis st' = Some a
      /\ getChartData st' = Some chart
      /\ x chart
         = seqZ (date Examples.sale_2024_03_15
                 - num_or (windowSize (mkOptions (Some 3) None)) 7)
                (2 * num_or (windowSize (mkOptions (Some 3) None)) 7 + 1)
      /\ Z.of_nat (List.length (y chart))
         = 2 * num_or (windowSize (mkOptions (Some 3) None)) 7 + 1
      /\ event_date chart = date Examples.sale_2024_03_15
      /\ event_index chart = num_or (windowSize (mkOptions (Some 3) None)) 7
      /\ num_or (windowSize (mkOptions None None)) 7 = 7
      /\ num_or (windowSize (mkOptions (Some 0) None)) 7 = 7.
Proof.
  assert (H1 : reachable Examples.flat_state) by apply reachable_loading.
  assert (H2 : isLoaded Examples.flat_state = true) by reflexivity.
  assert (H3 : 0 <= num_or (windowSize (mkOptions (Some 3) None)) 7) by (cbn; lia).
  split; [exact H1 |]. split; [exact H2 |]. split; [exact H3 |].
  exact (analyze_then_getChartData Examples.flat_state initial Examples.sale_2024_03_15
           (mkOptions (Some 3) None) H1 H2 H3).
Defined.

Lemma confounders_characterised_witness :
  reachable Examples.flat_state
  /\ isLoaded Examples.flat_state = true
  /\ 0 <= num_or (windowSize (mkOptions (Some 3) None)) 7
  /\ exists a st',
      analyze Examples.flat_state initial Examples.sale_2024_03_15
              (mkOptions (Some 3) None) = (Ok a, st')
      /\ getConfounders st' = Some (confounders a)
      /\ (forall e,
             In e (confounders a)
             <-> In e (default [] (eventIndex Examples.flat_state))
                 /\ date Examples.sale_2024_03_15
                    - num_or (windowSize (mkOptions (Some 3) None)) 7 <= date e
                    <= date Examples.sale_2024_03_15
                       + num_or (windowSize (mkOptions (Some 3) None)) 7
                 /\ (date e <> date Examples.sale_2024_03_15
                     \/ label e <> label Examples.sale_2024_03_15))
      /\ ~ In Examples.sale_2024_03_15 (confounders a).
Proof.
  assert (H1 : reachable Examples.flat_state) by apply reachable_loading.
  assert (H2 : isLoaded Examples.flat_state = true) by reflexivity.
  assert (H3 : 0 <= num_or (windowSize (mkOptions (Some 3) None)) 7) by (cbn; lia).
  split; [exact H1 |]. split; [exact H2 |]. split; [exact H3 |].
  exact (confounders_characterised Examples.flat_state initial Examples.sale_2024_03_15
           (mkOptions (Some 3) None) H1 H2 H3).
Defined.

End SingleEventInstances.

(** ** Aggregation over events (categoryAnalyzer.js, abCompare.js) *)

Section Aggregation.

Context {tz : Zone} {steady_tz : Steady tz}.

Import DataConnector Spec Aggregate.

Variable m : gmap Z Q.

Lemma find_window_point (anchor w offset : Z) :
  - w <= offset <= w ->
  List.find (fun d => Utils.days_from_event d =? offset) (Utils.getWindowData anchor w m)
  = Some {| Utils.date := anchor + offset;
            Utils.adiz_count := Utils.getADIZCount (anchor + offset) m;
            Utils.days_from_event := offset |}.
Proof.
  intros Hoff.
  destruct (List.find (fun d => Utils.days_from_event d =? offset)
                      (Utils.getWindowData anchor w m)) as [p |] eqn:Hfind.
  - apply find_some in Hfind. destruct Hfind as [Hin Hp]. apply Z.eqb_eq in Hp.
    unfold Utils.getWindowData in Hin. apply in_map_iff in Hin.
    destruct Hin as (d & <- & _). cbn [Utils.days_from_event] in Hp.
    unfold Utils.daysDiff in *. f_equal. replace (anchor + offset) with d by lia.
    f_equal. lia.
  - exfalso.
    assert (Hin : In offset (map Utils.days_from_event (Utils.getWindowData anchor w m))).
    { rewrite getWindowData_offsets. apply list_elem_of_In, elem_of_seqZ. lia. }
    apply in_map_iff in Hin. destruct Hin as (p & Hp & Hin).
    pose proof (find_none _ _ Hfind p Hin) as Hnone. cbn in Hnone. lia.
Qed.

Lemma find_outside_window (anchor w offset : Z) :
  offset < - w \/ w < offset ->
  List.find (fun d => Utils.days_from_event d =? offset) (Utils.getWindowData anchor w m)
  = None.
Proof.
  intros Hout.
  destruct (List.find (fun d => Utils.days_from_event d =? offset)
                      (Utils.getWindowData anchor w m)) as [p |] eqn:Hfind; [| reflexivity].
  apply find_some in Hfind. destruct Hfind as [Hin Hp]. apply Z.eqb_eq in Hp.
  assert (Hoff : In (Utils.days_from_event p)
                    (map Utils.days_from_event (Utils.getWindowData anchor w m)))
    by now apply in_map.
  rewrite getWindowData_offsets in Hoff. apply list_elem_of_In, elem_of_seqZ in Hoff. lia.
Qed.

(** Every event has a point at every offset of the window, none outside. *)
Lemma valuesAtOffset_dense (events : list Event) (w offset : Z) :
  - w <= offset <= w ->
  valuesAtOffset (map (analyzeOne m w) events) offset
  = map (fun e => Utils.getADIZCount (date e + offset) m) events.
Proof.
  intros Hoff. unfold valuesAtOffset.
  induction events as [| e es IH]; cbn [map flat_map]; [reflexivity |].
  rewrite IH. cbn [windowData analyzeOne]. rewrite find_window_point by assumption.
  reflexivity.
Qed.

Lemma flat_map_singletons {A B} (f : A -> list B) (g : A -> B) (l : list A) :
  (forall x, In x l -> f x = [g x]) -> flat_map f l = map g l.
Proof.
  induction l as [| x xs IH]; intros H; cbn [flat_map map]; [reflexivity |].
  rewrite (H x) by now left. cbn [app]. f_equal. apply IH. intros y Hy. apply H. now right.
Qed.

(** X20: because every window is dense, the average response curve of a
    non-empty group with radius [w >= 0] has a point at every offset from
    [-w] to [w], and every point averages over all the events of the group:
    no event is ever left out of an offset. *)
Theorem averageCurve_dense (events : list Event) (w : Z) :
  0 <= w -> events <> [] ->
  let curve := averageCurve (map (analyzeOne m w) events) w in
  map offset curve = seqZ (- w) (2 * w + 1)
  /\ Forall (fun c =>
               c_count c = Z.of_nat (List.length events)
               /\ c_mean c
                  = Utils.mean (map (fun e => Utils.getADIZCount (date e + offset c) m)
                                    events))
            curve.
Proof.
  intros Hw Hne curve. subst curve. unfold averageCurve. rewrite range_seqZ.
  replace (w - - w + 1) with (2 * w + 1) by lia.
  rewrite (flat_map_singletons _
             (fun o => {| offset := o;
                          c_mean := Utils.mean
                                      (map (fun e => Utils.getADIZCount (date e + o) m) events);
                          c_stdDev :=
                            Utils.stdDev
                              (map (fun e => Utils.getADIZCount (date e + o) m) events);
                          upperBound :=
                            surd_add
                              (Utils.mean
                                 (map (fun e => Utils.getADIZCount (date e + o) m) events))
                              (Utils.stdDev
                                 (map (fun e => Utils.getADIZCount (date e + o) m) events));
                          lowerBound :=
                            surd_max0
                              (surd_sub
                                 (Utils.mean
                                    (map (fun e => Utils.getADIZCount (date e + o) m) events))
                                 (Utils.stdDev
                                    (map (fun e => Utils.getADIZCount (date e + o) m)
                                         events)));
                          c_count := Z.of_nat (List.length events) |})).
  - split.
    + rewrite map_map. cbn [offset]. apply map_id.
    + apply Forall_forall. intros c Hc. apply list_elem_of_In, in_map_iff in Hc.
      destruct Hc as (o & <- & _). cbn. split; reflexivity.
  - intros o Ho. apply list_elem_of_In, elem_of_seqZ in Ho.
    rewrite valuesAtOffset_dense by lia.
    destruct events as [| e es]; [contradiction |]. cbn [map List.length].
    rewrite length_map. reflexivity.
Qed.

End Aggregation.

Section AggregationInstances.

(* The clock of this section is at UTC. *)
#[local] Existing Instance utc.

Lemma averageCurve_dense_witness :
  0 <= 14
  /\ DataConnector.getEvents Examples.spiky_state DataConnector.no_filters <> []
  /\ (let events := DataConnector.getEvents Examples.spiky_state DataConnector.no_filters in
      let curve :=
        Aggregate.averageCurve (map (Aggregate.analyzeOne Examples.spiky_map 14) events) 14 in
      map Aggregate.offset curve = seqZ (- 14) (2 * 14 + 1)
      /\ Forall (fun c =>
                   Aggregate.c_count c = Z.of_nat (List.length events)
                   /\ Aggregate.c_mean c
                      = Utils.mean
                          (map (fun e => Utils.getADIZCount
                                           (DataConnector.date e + Aggregate.offset c)
                                           Examples.spiky_map)
                               events))
                curve).
Proof.
  assert (H1 : 0 <= 14) by lia.
  assert (H2 : DataConnector.getEvents Examples.spiky_state DataConnector.no_filters <> [])
    by (vm_compute; discriminate).
  split; [exact H1 |]. split; [exact H2 |].
  exact (averageCurve_dense Examples.spiky_map
           (DataConnector.getEvents Examples.spiky_state DataConnector.no_filters) 14 H1 H2).
Defined.

End AggregationInstances.

Section PeakDay.

Import DataConnector Spec Aggregate.

Variable eventAnalyses : list EventAnalysis.

(** The scan over the offsets keeps the first offset whose average is the
    highest above the starting value. *)
Lemma maxSpike_scan (step : Z * Q -> Z -> Z * Q) (offsets : list Z) (day : Z) (value : Q) :
  (forall d v o,
      step (d, v) o
      = match valuesAtOffset eventAnalyses o with
        | [] => (d, v)
        | vs => if Qlt_bool v (Utils.mean vs) then (o, Utils.mean vs) else (d, v)
        end) ->
  let result := foldl step (day, value) offsets in
  (result = (day, value)
   /\ Forall (fun o => valuesAtOffset eventAnalyses o <> [] ->
                       (Utils.mean (valuesAtOffset eventAnalyses o) <= value)%Q) offsets)
  \/ (exists pre rest,
         offsets = pre ++ fst result :: rest
         /\ valuesAtOffset eventAnalyses (fst result) <> []
         /\ snd result = Utils.mean (valuesAtOffset eventAnalyses (fst result))
         /\ (value < snd result)%Q
         /\ Forall (fun o => valuesAtOffset eventAnalyses o <> [] ->
                             (Utils.mean (valuesAtOffset eventAnalyses o) < snd result)%Q)
                   pre
         /\ Forall (fun o => valuesAtOffset eventAnalyses o <> [] ->
                             (Utils.mean (valuesAtOffset eventAnalyses o) <= snd result)%Q)
                   rest).
Proof.
  intros Hstep. revert day value.
  induction offsets as [| o os IH]; intros day value result; subst result.
  - left. split; [reflexivity | constructor].
  - cbn [foldl]. rewrite Hstep.
    destruct (valuesAtOffset eventAnalyses o) as [| v vs] eqn:Hvals.
    + destruct (IH day value) as [[Hres Hall] | (pre & rest & Hos & Hne & Hval & Hlt & Hpre & Hrest)].
      * left. split; [exact Hres |]. constructor; [| exact Hall].
        rewrite Hvals. intros Hc. now contradiction Hc.
      * right. exists (o :: pre), rest. rewrite Hos at 1.
        repeat split; try assumption.
        constructor; [| exact Hpre]. rewrite Hvals. intros Hc. now contradiction Hc.
    + cbv zeta. destruct (Qlt_bool value (Utils.mean (v :: vs))) eqn:E.
      * apply Qlt_bool_iff in E. right.
        destruct (IH o (Utils.mean (v :: vs)))
          as [[Hres Hall] | (pre & rest & Hos & Hne & Hval & Hlt & Hpre & Hrest)].
        -- exists [], os. rewrite Hres. cbn [fst snd app].
           repeat split; [now rewrite Hvals | now rewrite Hvals | assumption
                          | constructor | assumption].
        -- exists (o :: pre), rest. rewrite Hos at 1.
           repeat split; try assumption; [lra |].
           constructor; [| exact Hpre]. rewrite Hvals. intros _. exact Hlt.
      * apply Qlt_bool_false in E.
        destruct (IH day value)
          as [[Hres Hall] | (pre & rest & Hos & Hne & Hval & Hlt & Hpre & Hrest)].
        -- left. split; [exact Hres |]. constructor; [| exact Hall].
           rewrite Hvals. intros _. exact E.
        -- right. exists (o :: pre), rest. rewrite Hos at 1.
           repeat split; try assumption.
           constructor; [| exact Hpre]. rewrite Hvals. intros _. lra.
Qed.

Lemma seqZ_split (a n d : Z) (pre rest : list Z) :
  seqZ a n = pre ++ d :: rest ->
  a <= d < a + n /\ pre = seqZ a (d - a) /\ rest = seqZ (d + 1) (a + n - 1 - d).
Proof.
  intros Hsplit.
  assert (Hd : seqZ a n !! List.length pre = Some d)
    by (rewrite Hsplit; apply list_lookup_middle; reflexivity).
  apply lookup_seqZ in Hd. destruct Hd as [Hd Hlen].
  assert (Hrange : a <= d < a + n) by lia. split; [exact Hrange |].
  assert (Happ : seqZ a n = seqZ a (d - a) ++ d :: seqZ (d + 1) (a + n - 1 - d)).
  { replace n with ((d - a) + (n - (d - a))) at 1 by lia.
    rewrite seqZ_app by lia. f_equal.
    rewrite seqZ_cons by lia. f_equal; [lia | f_equal; lia]. }
  rewrite Happ in Hsplit. apply app_inj_1 in Hsplit.
  - destruct Hsplit as [Hpre Hrest]. split; [symmetry; exact Hpre | congruence].
  - rewrite length_seqZ. lia.
Qed.

(** X21: the peak day of a group is [0] with value [0] when no post-event
    offset has a positive average; otherwise it is an offset in [1 .. w]
    with a positive average that is strictly above the average of every
    earlier offset and at least the average of every later one: ties keep
    the earliest day. *)
Theorem maxSpike_first_maximum (w : Z) :
  let day := fst (maxSpike eventAnalyses w) in
  let value := snd (maxSpike eventAnalyses w) in
  (day = 0 /\ value = 0%Q
   /\ forall o, 1 <= o <= w -> valuesAtOffset eventAnalyses o <> [] ->
                (Utils.mean (valuesAtOffset eventAnalyses o) <= 0)%Q)
  \/ (1 <= day <= w
      /\ valuesAtOffset eventAnalyses day <> []
      /\ value = Utils.mean (valuesAtOffset eventAnalyses day)
      /\ (0 < value)%Q
      /\ (forall o, 1 <= o < day -> valuesAtOffset eventAnalyses o <> [] ->
                    (Utils.mean (valuesAtOffset eventAnalyses o) < value)%Q)
      /\ (forall o, day < o <= w -> valuesAtOffset eventAnalyses o <> [] ->
                    (Utils.mean (valuesAtOffset eventAnalyses o) <= value)%Q)).
Proof.
  intros day value. subst day value. unfold maxSpike. rewrite range_seqZ.
  replace (w - 1 + 1) with w by lia.
  match goal with
  | |- context [foldl ?f (0, 0%Q) (seqZ 1 w)] =>
      destruct (maxSpike_scan f (seqZ 1 w) 0 0%Q)
        as [[Hres Hall] | (pre & rest & Hos & Hne & Hval & Hlt & Hpre & Hrest)];
      [intros d v o; reflexivity | |]
  end.
  - left. rewrite Hres. cbn [fst snd]. split; [reflexivity |]. split; [reflexivity |].
    intros o Ho. rewrite Forall_forall in Hall. apply Hall, elem_of_seqZ. lia.
  - right. apply seqZ_split in Hos. destruct Hos as (Hday & -> & ->).
    split; [lia |]. split; [exact Hne |]. split; [exact Hval |]. split; [exact Hlt |].
    split.
    + intros o Ho. rewrite Forall_forall in Hpre. apply Hpre, elem_of_seqZ. lia.
    + intros o Ho. rewrite Forall_forall in Hrest. apply Hrest, elem_of_seqZ. lia.
Qed.

End PeakDay.

(** ** The median of the peaks (categoryAnalyzer.js, abCompare.js) *)

Section Median.

Import Aggregate.

Lemma nth_sort_by_In (values : list Q) (i : nat) :
  (i < List.length values)%nat ->
  In (nth i (sort_by (fun v => v) values) 0%Q) values.
Proof.
  intros Hi. apply (In_sort_by (fun v => v)). apply nth_In.
  rewrite length_sort_by. exact Hi.
Qed.

Lemma min_max_bound (values : list Q) (x : Q) :
  In x values -> (Utils.min values <= x <= Utils.max values)%Q.
Proof.
  destruct values as [| v vs]; [contradiction |]. intros Hx.
  destruct (foldl_Qmax vs v) as [_ Hmax]. destruct (foldl_Qmin vs v) as [_ Hmin].
  rewrite Forall_forall in Hmax, Hmin. apply list_elem_of_In in Hx.
  cbn [Utils.max Utils.min]. split; [now apply Hmin | now apply Hmax].
Qed.

(** X22: the median of a non-empty list lies between its minimum and its
    maximum; with an odd number of values it is one of them. *)
Theorem median_bounds (values : list Q) :
  values <> [] ->
  (Utils.min values <= median values <= Utils.max values)%Q
  /\ (Nat.odd (List.length values) = true -> In (median values) values).
Proof.
  intros Hne. destruct values as [| v vs]; [contradiction |].
  unfold median. cbv zeta. rewrite length_sort_by.
  set (n := List.length (v :: vs)).
  assert (Hn : (0 < n)%nat) by (subst n; cbn; lia).
  assert (Hmid : (n / 2 < n)%nat) by (apply Nat.div_lt; lia).
  pose proof (nth_sort_by_In (v :: vs) (n / 2) Hmid) as Hin.
  destruct (Nat.eqb_spec (n mod 2) 0) as [Heven | Hodd].
  - assert (Hprev : (n / 2 - 1 < n)%nat) by lia.
    pose proof (nth_sort_by_In (v :: vs) (n / 2 - 1) Hprev) as Hin'.
    apply min_max_bound in Hin, Hin'. split.
    + split.
      * apply Qle_shift_div_l; lra.
      * apply Qle_shift_div_r; lra.
    + intros Hodd. rewrite Nat.odd_spec in Hodd. destruct Hodd as [k Hk].
      rewrite Hk in Heven. rewrite Nat.add_comm, Nat.mul_comm, Nat.Div0.mod_add in Heven.
      discriminate.
  - split; [now apply min_max_bound | intros _; exact Hin].
Qed.

Lemma median_bounds_witness :
  [4; 1; 3]%Q <> []
  /\ (Utils.min [4; 1; 3]%Q <= median [4; 1; 3]%Q <= Utils.max [4; 1; 3]%Q)%Q
  /\ (Nat.odd (List.length [4; 1; 3]%Q) = true -> In (median [4; 1; 3]%Q) [4; 1; 3]%Q).
Proof.
  split; [discriminate |]. apply (median_bounds [4; 1; 3]%Q). discriminate.
Defined.

End Median.

(** ** The strongest and the weakest events of a category (categoryAnalyzer.js) *)

Section Ranking.

Context {tz : Zone}.

Import DataConnector Spec Aggregate CategoryAnalyzer.

Lemma sorted_impl {A} (R S : A -> A -> Prop) (l : list A) :
  (forall x y, R x y -> S x y) -> StronglySorted R l -> StronglySorted S l.
Proof.
  intros HRS. induction 1 as [| x xs Hxs IH Hall]; constructor; [exact IH |].
  eapply Forall_impl; [exact Hall |]. cbn. intros y. apply HRS.
Qed.

Lemma In_take {A} (n : nat) (l : list A) (x : A) : In x (take n l) -> In x l.
Proof. intros H. rewrite <- (take_drop n l). apply in_or_app. now left. Qed.

Lemma In_drop {A} (n : nat) (l : list A) (x : A) : In x (drop n l) -> In x l.
Proof. intros H. rewrite <- (take_drop n l). apply in_or_app. now right. Qed.

Lemma sorted_take {A} (R : A -> A -> Prop) (n : nat) (l : list A) :
  StronglySorted R l -> StronglySorted R (take n l).
Proof.
  intros H. revert n.
  induction H as [| x xs Hxs IH Hall]; intros [| n]; cbn [take]; try constructor.
  - apply IH.
  - apply Forall_take. exact Hall.
Qed.

Lemma sorted_drop {A} (R : A -> A -> Prop) (n : nat) (l : list A) :
  StronglySorted R l -> StronglySorted R (drop n l).
Proof.
  intros H. revert n.
  induction H as [| x xs Hxs IH Hall]; intros [| n]; cbn [drop].
  - constructor.
  - constructor.
  - now constructor.
  - apply IH.
Qed.

Lemma sorted_snoc {A} (R : A -> A -> Prop) (l : list A) (x : A) :
  StronglySorted R l -> Forall (fun y => R y x) l -> StronglySorted R (l ++ [x]).
Proof.
  induction 1 as [| y ys Hys IH Hall]; intros Hx; cbn [app].
  - constructor; constructor.
  - inversion Hx as [| ? ? Hyx Hrest]; subst. constructor; [now apply IH |].
    apply Forall_app. split; [exact Hall | constructor; [exact Hyx | constructor]].
Qed.

Lemma sorted_rev {A} (R : A -> A -> Prop) (l : list A) :
  StronglySorted R l -> StronglySorted (fun a b => R b a) (rev l).
Proof.
  induction 1 as [| x xs Hxs IH Hall]; cbn [rev]; [constructor |].
  apply sorted_snoc; [exact IH |]. apply Forall_rev. exact Hall.
Qed.

Lemma sorted_app_inv {A} (R : A -> A -> Prop) (l1 l2 : list A) (x y : A) :
  StronglySorted R (l1 ++ l2) -> In x l1 -> In y l2 -> R x y.
Proof.
  induction l1 as [| z zs IH]; cbn [app]; intros Hs Hx Hy; [contradiction |].
  inversion Hs as [| ? ? Hzs Hall]; subst. destruct Hx as [-> | Hx].
  - rewrite Forall_forall in Hall. apply Hall, list_elem_of_In, in_or_app. now right.
  - now apply IH.
Qed.

Lemma sorted_head {A} (R : A -> A -> Prop) (l : list A) (x y : A) :
  StronglySorted R l -> head l = Some x -> In y l -> y = x \/ R x y.
Proof.
  intros Hs Hx Hy. destruct l as [| z zs]; [discriminate |].
  injection Hx as ->. inversion Hs as [| ? ? _ Hall]; subst.
  destruct Hy as [-> | Hy]; [now left | right].
  rewrite Forall_forall in Hall. now apply Hall, list_elem_of_In.
Qed.

(** The ranking of a non-empty list of analyses by descending peak. *)
Lemma ranked (l : list EventAnalysis) :
  l <> [] ->
  let sortedByPeak := sort_by (fun a => (- peak a)%Q) l in
  let top := slice 0 5 sortedByPeak in
  let bottom := rev (slice_last 5 sortedByPeak) in
  List.length top = Nat.min 5 (List.length l)
  /\ List.length bottom = Nat.min 5 (List.length l)
  /\ StronglySorted (fun x y => (peak y <= peak x)%Q) top
  /\ StronglySorted (fun x y => (peak x <= peak y)%Q) bottom
  /\ (forall x, In x top \/ In x bottom -> In x l)
  /\ (exists t, head top = Some t /\ (peak t == Utils.max (map peak l))%Q)
  /\ (exists b, head bottom = Some b /\ (peak b == Utils.min (map peak l))%Q).
Proof.
  intros Hne sortedByPeak top bottom.
  pose proof (sorted_sort_by (fun a => (- peak a)%Q) l) as Hsorted.
  fold sortedByPeak in Hsorted.
  assert (Hlen : List.length sortedByPeak = List.length l) by apply length_sort_by.
  assert (Hdesc : StronglySorted (fun x y => (peak y <= peak x)%Q) sortedByPeak).
  { eapply sorted_impl; [| exact Hsorted]. cbn. intros x y H. lra. }
  assert (Hpos : (0 < List.length l)%nat) by (destruct l; [contradiction | cbn; lia]).
  assert (Htop_in : forall x, In x top -> In x l).
  { intros x Hx. apply (In_sort_by (fun a => (- peak a)%Q)).
    subst top. unfold slice in Hx. now apply In_take, In_drop in Hx. }
  assert (Hbottom_in : forall x, In x bottom -> In x l).
  { intros x Hx. apply (In_sort_by (fun a => (- peak a)%Q)).
    subst bottom. apply in_rev in Hx. unfold slice_last in Hx.
    now apply In_drop in Hx. }
  assert (Htop_sorted : StronglySorted (fun x y => (peak y <= peak x)%Q) top)
    by (subst top; unfold slice; apply sorted_take, sorted_drop, Hdesc).
  assert (Hbottom_sorted : StronglySorted (fun x y => (peak x <= peak y)%Q) bottom).
  { subst bottom. unfold slice_last.
    apply (sorted_rev (fun x y => (peak y <= peak x)%Q)), sorted_drop, Hdesc. }
  assert (Hall : forall x, In x l -> (Utils.min (map peak l) <= peak x
                                        <= Utils.max (map peak l))%Q)
    by (intros x Hx; apply min_max_bound, in_map, Hx).
  assert (Hpeaks : map peak l <> []) by (destruct l; [contradiction | discriminate]).
  split; [subst top; unfold slice; rewrite length_take, length_drop;
          change (Z.to_nat (5 - 0)) with 5%nat; change (Z.to_nat 0) with 0%nat; lia |].
  split; [subst bottom; unfold slice_last; rewrite length_rev, length_drop; lia |].
  split; [exact Htop_sorted |]. split; [exact Hbottom_sorted |].
  split; [intros x [Hx | Hx]; auto |]. split.
  - destruct top as [| t ts] eqn:Etop.
    { exfalso. apply (f_equal (@List.length _)) in Etop. subst top. unfold slice in Etop.
      rewrite length_take, length_drop in Etop.
      change (Z.to_nat (5 - 0)) with 5%nat in Etop.
      change (Z.to_nat 0) with 0%nat in Etop. cbn [List.length] in Etop. lia. }
    exists t. split; [reflexivity |].
    destruct (Hall t (Htop_in t (or_introl eq_refl))) as [_ Hle].
    destruct l as [| a0 l0]; [contradiction |].
    destruct (foldl_Qmax (map peak l0) (peak a0)) as [Hin _].
    change (In (Utils.max (map peak (a0 :: l0))) (map peak (a0 :: l0))) in Hin.
    apply in_map_iff in Hin. destruct Hin as (x & Hx & Hxin).
    apply (In_sort_by (fun a => (- peak a)%Q)) in Hxin. fold sortedByPeak in Hxin.
    assert (Hhead : head sortedByPeak = Some t).
    { subst top. unfold slice in Etop. cbn [drop Z.to_nat] in Etop.
      destruct sortedByPeak as [| s ss]; [discriminate |].
      cbn in Etop. injection Etop as -> _. reflexivity. }
    rewrite <- Hx in Hle |- *.
    destruct (sorted_head _ _ _ _ Hdesc Hhead Hxin) as [-> | Hxt]; lra.
  - destruct bottom as [| b bs] eqn:Ebottom.
    { exfalso. apply (f_equal (@List.length _)) in Ebottom. subst bottom.
      unfold slice_last in Ebottom. rewrite length_rev, length_drop in Ebottom.
      cbn [List.length] in Ebottom. lia. }
    exists b. split; [reflexivity |].
    destruct (Hall b (Hbottom_in b (or_introl eq_refl))) as [Hge _].
    destruct l as [| a0 l0]; [contradiction |].
    destruct (foldl_Qmin (map peak l0) (peak a0)) as [Hin _].
    change (In (Utils.min (map peak (a0 :: l0))) (map peak (a0 :: l0))) in Hin.
    apply in_map_iff in Hin. destruct Hin as (x & Hx & Hxin).
    apply (In_sort_by (fun a => (- peak a)%Q)) in Hxin. fold sortedByPeak in Hxin.
    rewrite <- (take_drop (List.length sortedByPeak - 5) sortedByPeak) in Hxin, Hdesc.
    assert (Hb : In b (drop (List.length sortedByPeak - 5) sortedByPeak)).
    { apply in_rev. subst bottom. unfold slice_last in Ebottom. rewrite Ebottom.
      now left. }
    rewrite <- Hx in Hge |- *.
    apply in_app_or in Hxin. destruct Hxin as [Hxin | Hxin].
    + pose proof (sorted_app_inv _ _ _ _ _ Hdesc Hxin Hb) as Hbx. cbn in Hbx. lra.
    + assert (Hxb : In x (b :: bs)).
      { rewrite <- Ebottom. subst bottom. unfold slice_last. now apply in_rev in Hxin. }
      destruct (sorted_head _ _ _ _ Hbottom_sorted eq_refl Hxb) as [-> | Hbx]; lra.
Qed.

(** X23: on loaded data and a non-empty selection [analyze] succeeds, and
    its two rankings each hold [min(5, n)] of the [n] analysed events:
    [topEvents] in descending and [bottomEvents] in ascending order of
    peak, the first of [topEvents] having the [maxPeak] of the summary and
    the first of [bottomEvents] its [minPeak]. *)
Theorem topEvents_ranked (dc : DataConnector.State) (current : option Analysis)
    (categoryFilters : Filters) (options : Options) :
  reachable dc -> isLoaded dc = true -> getEvents dc categoryFilters <> [] ->
  exists a,
    analyze dc current categoryFilters options = (Ok a, Some a)
    /\ List.length (eventAnalyses a) = List.length (getEvents dc categoryFilters)
    /\ List.length (topEvents a) = Nat.min 5 (List.length (eventAnalyses a))
    /\ List.length (bottomEvents a) = Nat.min 5 (List.length (eventAnalyses a))
    /\ StronglySorted (fun x y => (peak y <= peak x)%Q) (topEvents a)
    /\ StronglySorted (fun x y => (peak x <= peak y)%Q) (bottomEvents a)
    /\ (forall x, In x (topEvents a) \/ In x (bottomEvents a) -> In x (eventAnalyses a))
    /\ (exists t, head (topEvents a) = Some t /\ (peak t == maxPeak (summary a))%Q)
    /\ (exists b, head (bottomEvents a) = Some b /\ (peak b == minPeak (summary a))%Q).
Proof.
  intros Hreach Hloaded Hne.
  destruct (reachable_loaded dc Hreach Hloaded) as (m & index & Hm & _ & _).
  unfold analyze. rewrite Hloaded, Hm. cbn [negb].
  destruct (getEvents dc categoryFilters) as [| e es] eqn:Hev; [contradiction |].
  cbn [List.length Nat.eqb].
  destruct (maxSpike _ _) as [d v].
  eexists. split; [reflexivity |].
  cbn [eventAnalyses topEvents bottomEvents summary maxPeak minPeak].
  split; [apply length_map |].
  assert (Hl : map (analyzeOne m (num_or (windowSize options) 14)) (e :: es) <> [])
    by discriminate.
  pose proof (ranked _ Hl) as H. cbv zeta in H. exact H.
Qed.

End Ranking.

Section RankingInstances.

(* The clock of this section is at UTC. *)
#[local] Existing Instance utc.

Import DataConnector Spec Aggregate CategoryAnalyzer.

Lemma topEvents_ranked_witness :
  reachable Examples.spiky_state
  /\ isLoaded Examples.spiky_state = true
  /\ getEvents Examples.spiky_state no_filters <> []
  /\ exists a,
      analyze Examples.spiky_state None no_filters (mkOptions None) = (Ok a, Some a)
      /\ List.length (eventAnalyses a)
         = List.length (getEvents Examples.spiky_state no_filters)
      /\ List.length (topEvents a) = Nat.min 5 (List.length (eventAnalyses a))
      /\ List.length (bottomEvents a) = Nat.min 5 (List.length (eventAnalyses a))
      /\ StronglySorted (fun x y => (peak y <= peak x)%Q) (topEvents a)
      /\ StronglySorted (fun x y => (peak x <= peak y)%Q) (bottomEvents a)
      /\ (forall x, In x (topEvents a) \/ In x (bottomEvents a) -> In x (eventAnalyses a))
      /\ (exists t, head (topEvents a) = Some t /\ (peak t == maxPeak (summary a))%Q)
      /\ (exists b, head (bottomEvents a) = Some b /\ (peak b == minPeak (summary a))%Q).
Proof.
  assert (H1 : reachable Examples.spiky_state) by apply reachable_loading.
  assert (H2 : isLoaded Examples.spiky_state = true) by reflexivity.
  assert (H3 : getEvents Examples.spiky_state no_filters <> [])
    by (vm_compute; discriminate).
  split; [exact H1 |]. split; [exact H2 |]. split; [exact H3 |].
  exact (topEvents_ranked Examples.spiky_state None no_filters (mkOptions None) H1 H2 H3).
Defined.

End RankingInstances.

(** ** The comparison of two groups (abCompare.js) *)

Section Comparison.

Import Aggregate ABCompare.

Lemma severity_of_small (q : Q) :
  (q <= 1.5)%Q -> severity_of (Fin q) = "somewhat more"%string.
Proof.
  intros Hq. unfold severity_of, num_gt.
  assert (H3 : Qlt_bool 3 q = false) by (apply Qlt_bool_false; lra).
  assert (H2 : Qlt_bool 2 q = false) by (apply Qlt_bool_false; lra).
  assert (H1 : Qlt_bool 1.5 q = false) by (apply Qlt_bool_false; lra).
  rewrite H3, H2, H1. reflexivity.
Qed.

Lemma js_div_nonzero (a b : Q) : ~ (b == 0)%Q -> js_div a b = Fin (a / b).
Proof.
  intros Hb. unfold js_div. destruct (Qeq_bool b 0) eqn:E; [| reflexivity].
  apply Qeq_bool_eq in E. contradiction.
Qed.

Lemma Qdiv_neg_le_1 (a b : Q) : (b < 0)%Q -> (b <= a)%Q -> (a / b <= 1)%Q.
Proof.
  intros Hb Hab.
  assert (E : (a / b == (- a) / (- b))%Q) by (field; lra).
  rewrite E. apply Qle_shift_div_r; lra.
Qed.

Lemma Qdiv_pos_ge_1 (a b : Q) : (0 < b)%Q -> (b <= a)%Q -> (1 <= a / b)%Q.
Proof. intros Hb Hab. apply Qle_shift_div_l; lra. Qed.

(** X24: the comparison names group A the more inflammatory one exactly
    when its average increase is strictly the larger, so a tie goes to B,
    and the other group is the less inflammatory one.  The reported ratio
    divides the larger increase by the smaller: it is at least 1 when the
    smaller increase is positive, but when the smaller increase is negative
    the ratio is at most 1 and the severity is ['somewhat more'] however far
    apart the two groups are. *)
Theorem calculateComparison_sides (groupA groupB : Group) :
  let c := calculateComparison groupA groupB in
  let a := avgIncrease (stats groupA) in
  let b := avgIncrease (stats groupB) in
  ((b < a)%Q ->
   moreInflammatory c = "A"%string /\ lessInflammatory c = "Group B"%string
   /\ rec_ratio c = js_div a b /\ (0 < increaseDiff c)%Q)
  /\ ((a <= b)%Q ->
      moreInflammatory c = "B"%string /\ lessInflammatory c = "Group A"%string
      /\ rec_ratio c = js_div b a /\ (increaseDiff c <= 0)%Q)
  /\ ((0 < a)%Q -> (0 < b)%Q -> exists q, rec_ratio c = Fin q /\ (1 <= q)%Q)
  /\ ((a < 0)%Q \/ (b < 0)%Q ->
      exists q, rec_ratio c = Fin q /\ (q <= 1)%Q
                /\ severity c = "somewhat more"%string).
Proof.
  intros c a b. subst c. unfold calculateComparison. cbv zeta. fold a. fold b.
  destruct (Qlt_bool b a) eqn:E.
  - apply Qlt_bool_iff in E. simpl String.eqb. cbv iota.
    cbn [moreInflammatory lessInflammatory rec_ratio increaseDiff severity].
    fold a. fold b.
    split; [intros _; repeat split; lra |]. split; [intros H; exfalso; lra |]. split.
    + intros Ha Hb. rewrite js_div_pos by assumption. eexists. split; [reflexivity |].
      apply Qdiv_pos_ge_1; lra.
    + intros Hneg. assert (Hb : (b < 0)%Q) by (destruct Hneg; lra).
      rewrite js_div_nonzero by lra. eexists. split; [reflexivity |].
      assert (Hq : (a / b <= 1)%Q) by (apply Qdiv_neg_le_1; lra).
      split; [exact Hq |]. apply severity_of_small. lra.
  - apply Qlt_bool_false in E. simpl String.eqb. cbv iota.
    cbn [moreInflammatory lessInflammatory rec_ratio increaseDiff severity].
    fold a. fold b.
    split; [intros H; exfalso; lra |]. split; [intros _; repeat split; lra |]. split.
    + intros Ha Hb. rewrite js_div_pos by assumption. eexists. split; [reflexivity |].
      apply Qdiv_pos_ge_1; lra.
    + intros Hneg. assert (Ha : (a < 0)%Q) by (destruct Hneg; lra).
      rewrite js_div_nonzero by lra. eexists. split; [reflexivity |].
      assert (Hq : (b / a <= 1)%Q) by (apply Qdiv_neg_le_1; lra).
      split; [exact Hq |]. apply severity_of_small. lra.
Qed.

End Comparison.

(** ** The signals of the classifier (preplannedReactive.js) *)

Section ClassifierSignals.

(* The clock of this section is at UTC. *)
#[local] Existing Instance utc.

Import DataConnector Spec PreplannedReactive.

Variable m : gmap Z Q.









End ClassifierSignals.

(** ** What a classification can contain (preplannedReactive.js) *)

Section ClassifierCalls.

Context {tz : Zone}.

Import DataConnector Spec PreplannedReactive.

(** Without the days of the temporal signal neither compound rule of the
    magnitude signal can fire. *)
Lemma analyzeMagnitude_without_days st baselineMap event windowData baselineStats :
  let s := analyzeMagnitude st baselineMap event windowData baselineStats None in
  temporalDays s = None
  /\ In (comparison s)
        ["insufficient_data"; "much_larger"; "larger"; "typical"]%string.
Proof.
  unfold analyzeMagnitude. cbv zeta. rewrite !andb_false_r.
  repeat match goal with
         | |- context [if ?b then _ else _] => destruct b
         end; cbn; auto 6.
Qed.

(** X27: [classify] never hands the days of the temporal signal to the
    magnitude signal: it reads the property [days], which that signal does
    not have.  So no classification carries the comparisons
    ['much_larger_immediate'] or ['large_near_immediate'], and the weights
    used are the base vector or the spike vector, never the compound one. *)
Theorem classify_never_compound (st : State) (current : option Analysis)
    (event : Event) (options : Options) :
  reachable st -> isLoaded st = true ->
  exists a,
    classify st current event options = (Ok a, Some a)
    /\ temporalDays (magnitude (a_signals a)) = None
    /\ In (comparison (magnitude (a_signals a)))
          ["insufficient_data"; "much_larger"; "larger"; "typical"]%string
    /\ (weights (a_classification a) = base_weights
        \/ weights (a_classification a) = spike_weights)
    /\ weights (a_classification a) <> compound_weights.
Proof.
  intros Hreach Hloaded.
  destruct (reachable_loaded st Hreach Hloaded) as (bm & index & Hbm & _ & _).
  destruct (classify_loaded st current event options bm Hloaded Hbm)
    as (a & Hcall & _ & _ & _ & _ & Hmag & _ & _ & Hcls).
  exists a. split; [exact Hcall |].
  pose proof (analyzeMagnitude_without_days st bm event (a_windowData a)
                (a_baselineStats a)) as Hnone.
  cbv zeta in Hnone. rewrite <- Hmag in Hnone. destruct Hnone as [Hdays Hcmp].
  split; [exact Hdays |]. split; [exact Hcmp |].
  assert (Hw : weights (a_classification a) = base_weights
               \/ weights (a_classification a) = spike_weights).
  { rewrite Hcls, calculateClassification_unfold. cbn [weights].
    destruct (select_weights_cases (a_signals a))
      as [[_ ->] | [(_ & Hc & _) | (_ & _ & _ & ->)]];
      [now right | | now left].
    exfalso. cbn [In] in Hcmp.
    destruct Hc as [Hc | Hc]; rewrite Hc in Hcmp; intuition discriminate. }
  split; [exact Hw |]. destruct Hw as [-> | ->]; discriminate.
Qed.

Lemma In_nearby (eventDate : Z) (politicalEvents : list Event) (n : Nearby) :
  In n (flat_map (fun pe =>
                    if Z.abs (eventDate - date pe) <=? 15
                    then [mkNearby pe (Z.abs (eventDate - date pe))] else [])
                 politicalEvents)
  <-> In (pe n) politicalEvents
      /\ daysDiff n = Z.abs (eventDate - date (pe n))
      /\ daysDiff n <= 15.
Proof.
  rewrite in_flat_map. split.
  - intros (e & He & Hn). destruct (Z.leb_spec (Z.abs (eventDate - date e)) 15) as [Hd | Hd].
    + destruct Hn as [<- | []]. cbn [pe daysDiff]. repeat split; assumption.
    + contradiction.
  - intros (He & Hd & Hle). exists (pe n). split; [exact He |].
    destruct (Z.leb_spec (Z.abs (eventDate - date (pe n))) 15) as [H | H]; [| lia].
    left. destruct n as [e d]. cbn [pe daysDiff] in *. now subst d.
Qed.

(** X28: with political events in the catalog the symbolic signal never
    names a symbolic date.  It is neutral (0.5) when no political event lies
    within 15 days; otherwise it picks a closest political event and always
    classifies it ['ambiguous_political'] with score 0.4, whatever the event
    is: the text it classifies is read from properties ([event_type],
    [event_name], [short_label]) that catalog events keep under [fields]
    only, so none of the keyword classes can be reached. *)
Theorem political_events_always_ambiguous (st : State) (eventDate : Z) :
  getEvents st (category_filter "political") <> [] ->
  let politicalEvents := getEvents st (category_filter "political") in
  let s := analyzeSymbolicTiming st eventDate in
  symbolicDate s = None
  /\ ((isSymbolic s = false /\ s_reactiveScore s = Some 0.5%Q
       /\ classification s = None /\ closestEvent s = None
       /\ forall e, In e politicalEvents -> 15 < Z.abs (eventDate - date e))
      \/ (isSymbolic s = true /\ s_reactiveScore s = Some 0.4%Q
          /\ classification s = Some "ambiguous_political"%string
          /\ exists closest,
              closestEvent s = Some closest
              /\ In (pe closest) politicalEvents
              /\ daysDiff closest = Z.abs (eventDate - date (pe closest))
              /\ daysDiff closest <= 15
              /\ forall e, In e politicalEvents ->
                           daysDiff closest <= Z.abs (eventDate - date e))).
Proof.
  intros Hne politicalEvents s. subst s. unfold analyzeSymbolicTiming. cbv zeta.
  fold politicalEvents. fold politicalEvents in Hne.
  destruct politicalEvents as [| pe0 rest] eqn:Hev; [contradiction |].
  rewrite <- Hev. clear Hev Hne.
  set (nearby := flat_map _ politicalEvents).
  pose proof (sorted_sort_by (fun n => inject_Z (daysDiff n)) nearby) as Hsorted.
  pose proof (In_sort_by (fun n => inject_Z (daysDiff n))) as Hmem.
  specialize (fun n => Hmem n nearby).
  destruct (sort_by (fun n => inject_Z (daysDiff n)) nearby) as [| closest sorted].
  - cbn. split; [reflexivity |]. left. repeat split.
    intros e He. destruct (Z.lt_ge_cases 15 (Z.abs (eventDate - date e))) as [H | H];
      [exact H | exfalso].
    apply (Hmem (mkNearby e (Z.abs (eventDate - date e)))).
    apply In_nearby. cbn [pe daysDiff]. repeat split; [exact He | lia].
  - match goal with
    | |- context [classifyText ?t] =>
        assert (Ht : classifyText t = (0.4%Q, "ambiguous_political"%string))
          by (vm_compute; reflexivity);
        rewrite Ht
    end.
    cbn [symbolicDate isSymbolic s_reactiveScore classification closestEvent].
    split; [reflexivity |]. right. repeat split. exists closest.
    assert (Hclosest : In closest nearby) by (apply Hmem; now left).
    apply In_nearby in Hclosest. destruct Hclosest as (Hin & Hd & Hle).
    repeat split; try assumption.
    intros e He. destruct (Z.lt_ge_cases 15 (Z.abs (eventDate - date e))) as [H | H];
      [lia |].
    assert (Hn : In (mkNearby e (Z.abs (eventDate - date e))) (closest :: sorted)).
    { apply Hmem, In_nearby. cbn [pe daysDiff]. repeat split; [exact He | lia]. }
    destruct (sorted_head _ _ _ _ Hsorted eq_refl Hn) as [<- | Hle'].
    + cbn [daysDiff]. lia.
    + cbn [daysDiff] in Hle'. rewrite <- Zle_Qle in Hle'. exact Hle'.
Qed.

Lemma or_half_range (s : option Q) :
  score_ok s -> (0 < or_half s <= 1)%Q.
Proof.
  destruct s as [q |]; cbn [score_ok or_half]; [| intros _; lra].
  intros Hq. destruct (Qeq_bool q 0) eqn:E; [lra |].
  apply Qeq_bool_neq in E. destruct (Qlt_le_dec 0 q) as [Hpos | Hle]; [lra |].
  exfalso. apply E. lra.
Qed.

(** X29: after a classification the signal breakdown has five values in
    the order temporal, buildup, magnitude, symbolic, pattern, each above 0
    and at most 1: a signal without a score, and a score of 0, are both
    shown as 0.5. *)
Theorem getSignalBreakdown_after_classify (st : State) (current : option Analysis)
    (event : Event) (options : Options) :
  reachable st -> isLoaded st = true ->
  exists a current',
    classify st current event options = (Ok a, current')
    /\ getSignalBreakdown current'
       = Some (map (fun k => or_half (score_of (a_signals a) k)) keys)
    /\ Forall (fun k => (0 < or_half (score_of (a_signals a) k) <= 1)%Q) keys
    /\ or_half None = 0.5%Q /\ or_half (Some 0%Q) = 0.5%Q.
Proof.
  intros Hreach Hloaded.
  destruct (reachable_loaded st Hreach Hloaded) as (bm & index & Hbm & _ & _).
  destruct (classify_loaded st current event options bm Hloaded Hbm)
    as (a & Hcall & _ & _ & Htemp & Hbuild & Hmag & Hsym & Hpat & _).
  exists a, (Some a). split; [exact Hcall |]. split; [reflexivity |].
  split; [| split; reflexivity].
  apply Forall_forall. intros k _. apply or_half_range.
  destruct k; cbn [score_of].
  - rewrite Htemp.
    destruct (analyzeTemporalProximity_score (a_windowData a)) as (q & -> & Hq).
    exact Hq.
  - rewrite Hbuild. apply analyzePreEventBuildup_score.
  - rewrite Hmag. apply analyzeMagnitude_score.
  - rewrite Hsym. apply analyzeSymbolicTiming_score.
  - rewrite Hpat. apply analyzePattern_score.
Qed.

End ClassifierCalls.

Section PreEventTrend.

Context {tz : Zone} {steady_tz : Steady tz}.

Import DataConnector Spec PreplannedReactive.

(** X30: on a clock that never changes, the pre-event trend read back
    after a classification with
    radius [w >= 0] (21 when none or 0 was requested) runs over the offsets
    [-w .. 0], the event day included, with the count of each of these
    days. *)
Theorem getPreEventTrendData_after_classify (st : State) (current : option Analysis)
    (event : Event) (options : Options) :
  reachable st -> isLoaded st = true -> 0 <= num_or (windowSize options) 21 ->
  exists a current' bm,
    classify st current event options = (Ok a, current')
    /\ baselineMap st = Some bm
    /\ getPreEventTrendData current'
       = Some (seqZ (- num_or (windowSize options) 21)
                    (num_or (windowSize options) 21 + 1),
               map (fun d => Utils.getADIZCount d bm)
                   (seqZ (date event - num_or (windowSize options) 21)
                         (num_or (windowSize options) 21 + 1))).
Proof.
  intros Hreach Hloaded Hw.
  destruct (reachable_loaded st Hreach Hloaded) as (bm & index & Hbm & _ & _).
  destruct (classify_loaded st current event options bm Hloaded Hbm)
    as (a & Hcall & _ & Hdata & _).
  exists a, (Some a), bm. split; [exact Hcall |]. split; [exact Hbm |].
  unfold getPreEventTrendData. rewrite Hdata.
  set (w := num_or (windowSize options) 21) in *.
  rewrite (filter_ext_in _ (fun p => (- w <=? Utils.days_from_event p)
                                     && (Utils.days_from_event p <=? 0))).
  - rewrite window_points_between. unfold counts. rewrite !map_map.
    cbn [Utils.days_from_event Utils.adiz_count].
    replace (Z.max (- w) (- w)) with (- w) by lia.
    replace (Z.min w 0 - - w + 1) with (w + 1) by lia.
    replace (date event + - w) with (date event - w) by lia.
    f_equal. f_equal.
    rewrite (map_seqZ_shift _ _ _ (- date event)).
    + f_equal. lia.
    + intros d. unfold Utils.daysDiff. lia.
  - intros p Hp. apply window_point_offset in Hp.
    destruct (Z.leb_spec (- w) (Utils.days_from_event p)); [reflexivity | lia].
Qed.

End PreEventTrend.

Section ClassifierInstances.

(* The clock of this section is at UTC. *)
#[local] Existing Instance utc.

Import DataConnector Spec PreplannedReactive.

Lemma classify_never_compound_witness :
  reachable Examples.spiky_state
  /\ isLoaded Examples.spiky_state = true
  /\ exists a,
      classify Examples.spiky_state None Examples.sale_2024_03_15 (mkOptions None)
      = (Ok a, Some a)
      /\ temporalDays (magnitude (a_signals a)) = None
      /\ In (comparison (magnitude (a_signals a)))
            ["insufficient_data"; "much_larger"; "larger"; "typical"]%string
      /\ (weights (a_classification a) = base_weights
          \/ weights (a_classification a) = spike_weights)
      /\ weights (a_classification a) <> compound_weights.
Proof.
  assert (H1 : reachable Examples.spiky_state) by apply reachable_loading.
  assert (H2 : isLoaded Examples.spiky_state = true) by reflexivity.
  split; [exact H1 |]. split; [exact H2 |].
  exact (classify_never_compound Examples.spiky_state None Examples.sale_2024_03_15
           (mkOptions None) H1 H2).
Defined.

Lemma political_events_always_ambiguous_witness :
  getEvents Examples.political_state (category_filter "political") <> []
  /\ symbolicDate (analyzeSymbolicTiming Examples.political_state 19797) = None
  /\ ((isSymbolic (analyzeSymbolicTiming Examples.political_state 19797) = false
       /\ s_reactiveScore (analyzeSymbolicTiming Examples.political_state 19797)
          = Some 0.5%Q
       /\ classification (analyzeSymbolicTiming Examples.political_state 19797) = None
       /\ closestEvent (analyzeSymbolicTiming Examples.political_state 19797) = None
       /\ forall e,
           In e (getEvents Examples.political_state (category_filter "political")) ->
           15 < Z.abs (19797 - date e))
      \/ (isSymbolic (analyzeSymbolicTiming Examples.political_state 19797) = true
          /\ s_reactiveScore (analyzeSymbolicTiming Examples.political_state 19797)
             = Some 0.4%Q
          /\ classification (analyzeSymbolicTiming Examples.political_state 19797)
             = Some "ambiguous_political"%string
          /\ exists closest,
              closestEvent (analyzeSymbolicTiming Examples.political_state 19797)
              = Some closest
              /\ In (pe closest)
                    (getEvents Examples.political_state (category_filter "political"))
              /\ daysDiff closest = Z.abs (19797 - date (pe closest))
              /\ daysDiff closest <= 15
              /\ forall e,
                  In e (getEvents Examples.political_state
                          (category_filter "political")) ->
                  daysDiff closest <= Z.abs (19797 - date e))).
Proof.
  assert (H1 : getEvents Examples.political_state (category_filter "political") <> [])
    by (vm_compute; discriminate).
  split; [exact H1 |].
  exact (political_events_always_ambiguous Examples.political_state 19797 H1).
Defined.

Lemma getSignalBreakdown_after_classify_witness :
  reachable Examples.spiky_state
  /\ isLoaded Examples.spiky_state = true
  /\ exists a current',
      classify Examples.spiky_state None Examples.sale_2024_03_15 (mkOptions None)
      = (Ok a, current')
      /\ getSignalBreakdown current'
         = Some (map (fun k => or_half (score_of (a_signals a) k)) keys)
      /\ Forall (fun k => (0 < or_half (score_of (a_signals a) k) <= 1)%Q) keys
      /\ or_half None = 0.5%Q /\ or_half (Some 0%Q) = 0.5%Q.
Proof.
  assert (H1 : reachable Examples.spiky_state) by apply reachable_loading.
  assert (H2 : isLoaded Examples.spiky_state = true) by reflexivity.
  split; [exact H1 |]. split; [exact H2 |].
  exact (getSignalBreakdown_after_classify Examples.spiky_state None
           Examples.sale_2024_03_15 (mkOptions None) H1 H2).
Defined.

Lemma getPreEventTrendData_after_classify_witness :
  reachable Examples.spiky_state
  /\ isLoaded Examples.spiky_state = true
  /\ 0 <= num_or (windowSize (mkOptions (Some 3))) 21
  /\ exists a current' bm,
      classify Examples.spiky_state None Examples.sale_2024_03_15 (mkOptions (Some 3))
      = (Ok a, current')
      /\ baselineMap Examples.spiky_state = Some bm
      /\ getPreEventTrendData current'
         = Some (seqZ (- num_or (windowSize (mkOptions (Some 3))) 21)
                      (num_or (windowSize (mkOptions (Some 3))) 21 + 1),
                 map (fun d => Utils.getADIZCount d bm)
                     (seqZ (date Examples.sale_2024_03_15
                            - num_or (windowSize (mkOptions (Some 3))) 21)
                           (num_or (windowSize (mkOptions (Some 3))) 21 + 1))).
Proof.
  assert (H1 : reachable Examples.spiky_state) by apply reachable_loading.
  assert (H2 : isLoaded Examples.spiky_state = true) by reflexivity.
  assert (H3 : 0 <= num_or (windowSize (mkOptions (Some 3))) 21) by (cbn; lia).
  split; [exact H1 |]. split; [exact H2 |]. split; [exact H3 |].
  exact (getPreEventTrendData_after_classify Examples.spiky_state None
           Examples.sale_2024_03_15 (mkOptions (Some 3)) H1 H2 H3).
Defined.

End ClassifierInstances.
